(** * Embedding cluster analytics: the visualisation scripts, embedded in Rocq

    This development embeds the two visualisation scripts of the repository,
    [visualize_clusters.py] and [visualize_with_clustering.py], and states the
    properties of the analytics pipeline over the embedding.

    Conventions of the embedding.
    - Python integers are [Z]; [len] of a list is [Z.of_nat (length _)].
    - The numbers of an embedding are the floats [response.json()] has
      parsed: every finite float is a rational, so they are values of [Q], and
      [np.array] copies them unchanged. The scripts compute nothing from them;
      they only hand them to the estimators.
    - Python strings are [string]; the identifiers handled here are ASCII, so
      slicing by character and by byte coincide.
    - A raised exception is the [Raise] case of [result]; nothing in the scripts
      catches an exception, so a [Raise] always reaches the top of the run.
    - A dict used for lookups only ([messages_map]) is a [gmap]; a dict whose
      iteration order reaches the output (the counters of the statistics view)
      is an association list in insertion order.
    - The JSON documents of the two services are read at the types their
      schemas give the fields; a key that is missing is [None]. The optional
      [contentPreview], which the script slices, may also hold JSON [null].
    - What the scripts print is not modelled: no value, no written file and no
      exception depends on it.
    - The scikit-learn estimators, the [requests] calls and the interpreter's
      salted string [hash] are outside the repository: they enter as
      interface records ([reducers], [kmeans_lib], [network], [runtime]). *)

From Stdlib Require Import ZArith QArith String Ascii List Bool Lia.
From stdpp Require Import base option list gmap strings pretty sorting.
Import ListNotations.

Local Open Scope string_scope.
Local Open Scope Z_scope.

(** ** Exceptions and results *)

Inductive exn : Type :=
| ConnectionError
| JSONDecodeError
| KeyError (key : string)
| IndexError
| TypeError
| ValueError (msg : string).

Inductive result (A : Type) : Type :=
| Ok (a : A)
| Raise (e : exn).
Arguments Ok {A} a.
Arguments Raise {A} e.

Definition bind {A B : Type} (r : result A) (k : A -> result B) : result B :=
  match r with
  | Ok a => k a
  | Raise e => Raise e
  end.

Declare Scope result_scope.
Delimit Scope result_scope with result.
Notation "x <~ r ;; k" := (bind r (fun x => k))
  (at level 100, r at next level, k at level 200, right associativity) : result_scope.
Local Open Scope result_scope.

Fixpoint mapM {A B : Type} (f : A -> result B) (l : list A) : result (list B) :=
  match l with
  | [] => Ok []
  | a :: l' => b <~ f a ;; bs <~ mapM f l' ;; Ok (b :: bs)
  end.

(** A loop over [l] that threads [s] and stops at the first exception. *)
Fixpoint foldM {A S : Type} (f : S -> A -> result S) (l : list A) (s : S) : result S :=
  match l with
  | [] => Ok s
  | a :: l' => s' <~ f s a ;; foldM f l' s'
  end.

Definition rmap {A B : Type} (f : A -> B) (r : result A) : result B :=
  match r with
  | Ok a => Ok (f a)
  | Raise e => Raise e
  end.

(** ** Python helpers *)

Definition len {A : Type} (l : list A) : Z := Z.of_nat (length l).

(** [d[key]] on a JSON object whose field may be missing. *)
Definition getitem {A : Type} (key : string) (field : option A) : result A :=
  match field with
  | Some a => Ok a
  | None => Raise (KeyError key)
  end.

(** [s[:n]] *)
Fixpoint str_take (n : nat) (s : string) : string :=
  match n, s with
  | S n', String c s' => String c (str_take n' s')
  | _, _ => EmptyString
  end.

Definition ascii_upper (c : ascii) : ascii :=
  let n := nat_of_ascii c in
  if ((97 <=? n)%nat && (n <=? 122)%nat)%bool then ascii_of_nat (n - 32) else c.

(** [s.upper()] *)
Fixpoint upper (s : string) : string :=
  match s with
  | EmptyString => EmptyString
  | String c s' => String (ascii_upper c) (upper s')
  end.

Fixpoint str_prefix (p s : string) : bool :=
  match p, s with
  | EmptyString, _ => true
  | String a p', String b s' => if Ascii.eqb a b then str_prefix p' s' else false
  | String _ _, EmptyString => false
  end.

(** [s.replace(old, new)] for a non-empty [old]: occurrences are replaced from
    left to right without overlap; [skip] counts the characters of a matched
    occurrence still to be dropped. *)
Fixpoint replace_from (skip : nat) (old new s : string) : string :=
  match s with
  | EmptyString => EmptyString
  | String c s' =>
      match skip with
      | S k => replace_from k old new s'
      | O =>
          if str_prefix old s
          then new +:+ replace_from (String.length old - 1) old new s'
          else String c (replace_from O old new s')
      end
  end.

Definition replace (old new s : string) : string := replace_from O old new s.

(** ** Data fetched from the two services *)

Abbreviation vector := (list Q).
Abbreviation matrix := (list (list Q)).

(** A response of [requests]: [json] is the outcome of [response.json()]. *)
Record response (B : Type) : Type := {
  status_code : Z;
  text : string;
  json : result B
}.
Arguments status_code {B} _.
Arguments text {B} _.
Arguments json {B} _.

(** An optional JSON string: [null] or a string. *)
Inductive json_str : Type :=
| JNull
| JStr (s : string).

(** The [_source] object of a search hit; [None] is a missing key. *)
Record es_source : Type := {
  src_id : option string;
  src_documentType : option string;
  src_embedding : option vector;
  src_clusterId : option string;
  src_referenceId : option string;
  src_contentPreview : option json_str
}.

Record es_hit : Type := { hit_source : option es_source }.

(** The search response body: [body["hits"]["hits"]]. *)
Record es_body : Type := { body_hits : option (list es_hit) }.

Record api_message : Type := {
  msg_id : option string;
  msg_messageType : option string;
  msg_senderId : option string;
  msg_receiverId : option string;
  msg_status : option string;
  msg_templateId : option string;
  msg_clusterId : option string
}.

(** What the two HTTP calls of one run give: a raised [ConnectionError] when
    the service cannot be reached, a response otherwise. *)
Record network : Type := {
  es_search : result (response es_body);
  api_messages : result (response (list api_message))
}.

(** ** Interfaces of the external components *)

(** The estimator objects the scripts construct, with the keyword arguments
    they pass ([n_iter] is [None] where the call leaves it out). *)
Inductive reducer : Type :=
| TSNE (n_components random_state perplexity : Z) (n_iter : option Z)
| PCA (n_components random_state : Z).

(** scikit-learn's [reducer.fit_transform(embeddings)]. *)
Record reducers : Type := {
  fit_transform : reducer -> matrix -> result matrix
}.

(** The interpreter's builtin [hash] on [str]; CPython salts it per process. *)
Record runtime : Type := {
  hash : string -> Z
}.

(** ** Figures

    A figure is the data handed to plotly: the traces in the order they are
    added (with their subplot cell, if any) and the layout properties. *)

Inductive sizes : Type := SizeEach (l : list Z) | SizeAll (z : Z).
Inductive colors : Type := ColorEach (l : list Z) | ColorNamed (s : string).

Record marker : Type := {
  marker_size : sizes;
  marker_color : colors;
  marker_colorscale : option string;
  marker_symbol : option (list string);
  marker_line : option (Q * string);
  marker_opacity : option Q
}.

Inductive trace : Type :=
| Scatter (x y : list Q) (mode : string) (mk : marker)
    (text hovertext : option (list string)) (hoverinfo : option string)
    (name : string) (showlegend : option bool)
| Scatter3d (x y z : list Q) (mode : string) (mk : marker)
    (text hovertext : option (list string)) (hoverinfo : option string)
    (name : string)
| Pie (labels : list string) (values : list Z) (name : string)
| Bar (x : list string) (y : list Z) (name : string) (marker_color : option string)
    (showlegend : option bool).

Inductive atom : Type :=
| AStr (s : string)
| AInt (z : Z)
| ANum (q : Q)
| ABool (b : bool).

Inductive prop : Type :=
| PAtom (a : atom)
| PDict (l : list (string * atom)).

Record subplots : Type := {
  rows : Z;
  cols : Z;
  subplot_titles : list string;
  horizontal_spacing : option Q;
  specs : option (list (list string))
}.

Record figure : Type := {
  fig_subplots : option subplots;
  fig_data : list (trace * option (Z * Z));
  fig_layout : list (string * prop)
}.

(** ** Shared record shapes *)

(** The dict [fetch_vectors_from_elasticsearch] builds per hit. *)
Record vector_record : Type := {
  vec_id : string;
  vec_type : string;
  vec_embedding : vector;
  vec_clusterId : option string;
  vec_referenceId : string;
  vec_preview : string
}.

(** The dict [fetch_messages_from_api] stores per message. *)
Record metadata : Type := {
  meta_messageType : string;
  meta_senderId : string;
  meta_receiverId : string;
  meta_status : string;
  meta_templateId : option string;
  meta_clusterId : option string
}.

(** [msg.get(field, default)] where [msg = messages_map.get(id, {})]: the
    empty dict is [None]. *)
Definition msg_get (field : metadata -> string) (default : string)
    (msg : option metadata) : string :=
  from_option field default msg.

(** [reduced[:, j]] *)
Definition column (j : nat) (reduced : matrix) : result (list Q) :=
  mapM (fun row => match row !! j with
                   | Some q => Ok q
                   | None => Raise IndexError
                   end) reduced.

(** A counting dict in insertion order. *)
Definition counter : Type := list (string * Z).

(** [d[k] = d.get(k, 0) + 1] *)
Fixpoint incr (k : string) (d : counter) : counter :=
  match d with
  | [] => [(k, 1)]
  | (k', n) :: d' =>
      if String.eqb k' k then (k', n + 1) :: d' else (k', n) :: incr k d'
  end.

(** [d.get(k, 0)] *)
Fixpoint counter_get (k : string) (d : counter) : Z :=
  match d with
  | [] => 0
  | (k', n) :: d' => if String.eqb k' k then n else counter_get k d'
  end.

Definition keys (d : counter) : list string := map fst d.
Definition values (d : counter) : list Z := map snd d.

Definition sum (l : list Z) : Z := fold_right Z.add 0 l.

(** [sorted(items, key=lambda x: x[1], reverse=True)]: descending by count,
    items with equal counts keep their order. *)
Fixpoint insert_desc (it : string * Z) (l : list (string * Z)) : list (string * Z) :=
  match l with
  | [] => [it]
  | it' :: l' => if snd it' <=? snd it then it :: l else it' :: insert_desc it l'
  end.

Definition sorted_desc (items : list (string * Z)) : list (string * Z) :=
  fold_right insert_desc [] items.

Definition nl : string := String (ascii_of_nat 10) EmptyString.

(** * visualize_clusters.py *)

Module VisualizeClusters.

(** [source.get("contentPreview", "")[:50]]: the default stands in for a
    missing key only; a [null] is returned as [None], and [None[:50]] raises
    [TypeError]. *)
Definition preview_of (contentPreview : option json_str) : result string :=
  match contentPreview with
  | None => Ok (str_take 50 "")
  | Some (JStr s) => Ok (str_take 50 s)
  | Some JNull => Raise TypeError
  end.

(** One iteration of the loop over the hits; the dict literal evaluates its
    values in the order written. *)
Definition vector_of_hit (hit : es_hit) : result vector_record :=
  source <~ getitem "_source" (hit_source hit) ;;
  id <~ getitem "id" (src_id source) ;;
  type <~ getitem "documentType" (src_documentType source) ;;
  embedding <~ getitem "embedding" (src_embedding source) ;;
  referenceId <~ getitem "referenceId" (src_referenceId source) ;;
  preview <~ preview_of (src_contentPreview source) ;;
  Ok {| vec_id := id;
        vec_type := type;
        vec_embedding := embedding;
        vec_clusterId := src_clusterId source;
        vec_referenceId := referenceId;
        vec_preview := preview |}.

Definition fetch_vectors_from_elasticsearch (net : network) : result (list vector_record) :=
  response <~ es_search net ;;
  if negb (status_code response =? 200) then Ok []
  else
    body <~ json response ;;
    hits <~ getitem "hits" (body_hits body) ;;
    mapM vector_of_hit hits.

(** One iteration of [message_map[msg["id"]] = {...}]: Python evaluates the
    dict on the right before the subscript [msg["id"]] of the target. *)
Definition message_entry (msg : api_message) : result (string * metadata) :=
  messageType <~ getitem "messageType" (msg_messageType msg) ;;
  senderId <~ getitem "senderId" (msg_senderId msg) ;;
  receiverId <~ getitem "receiverId" (msg_receiverId msg) ;;
  status <~ getitem "status" (msg_status msg) ;;
  id <~ getitem "id" (msg_id msg) ;;
  Ok (id, {| meta_messageType := messageType;
             meta_senderId := senderId;
             meta_receiverId := receiverId;
             meta_status := status;
             meta_templateId := msg_templateId msg;
             meta_clusterId := msg_clusterId msg |}).

(** The loop [message_map[msg["id"]] = {...}], continued from [message_map]. *)
Fixpoint fill_message_map (messages : list api_message)
    (message_map : gmap string metadata) : result (gmap string metadata) :=
  match messages with
  | [] => Ok message_map
  | msg :: rest =>
      entry <~ message_entry msg ;;
      fill_message_map rest (<[entry.1 := entry.2]> message_map)
  end.

Definition fetch_messages_from_api (net : network) : result (gmap string metadata) :=
  response <~ api_messages net ;;
  if negb (status_code response =? 200) then Ok ∅
  else
    messages <~ json response ;;
    fill_message_map messages ∅.

(** The [if/elif/else] that builds the estimator. *)
Definition make_reducer (embeddings : matrix) (method : string) (n_components : Z)
    : result reducer :=
  if String.eqb method "tsne" then
    Ok (TSNE n_components 42 (Z.min 30 (len embeddings - 1)) (Some 1000))
  else if String.eqb method "pca" then
    Ok (PCA n_components 42)
  else Raise (ValueError ("Unknown method: " +:+ method)).

Definition reduce_dimensions (sk : reducers) (embeddings : matrix) (method : string)
    (n_components : Z) : result matrix :=
  reducer <~ make_reducer embeddings method n_components ;;
  reduced <~ fit_transform sk reducer embeddings ;;
  Ok reduced.

(** The hover line for the template: [msg.get("templateId", "None")[:12] if
    msg.get("templateId") else "None"]. *)
Definition template_text (msg : option metadata) : string :=
  match msg ≫= meta_templateId with
  | Some (String c s) => str_take 12 (String c s)
  | _ => "None"
  end.

(** [vec.get("clusterId", "None")] formatted: the key is always present and
    holds [None] when the hit had no cluster. *)
Definition cluster_text (vec : vector_record) : string :=
  default "None" (vec_clusterId vec).

Definition hover_text_2d (vec : vector_record) (msg : option metadata) : string :=
  nl +:+ "        <b>ID:</b> " +:+ str_take 12 (vec_referenceId vec) +:+ "...<br>" +:+
  nl +:+ "        <b>Type:</b> " +:+ msg_get meta_messageType "UNKNOWN" msg +:+ "<br>" +:+
  nl +:+ "        <b>Sender:</b> " +:+ msg_get meta_senderId "N/A" msg +:+ "<br>" +:+
  nl +:+ "        <b>Receiver:</b> " +:+ msg_get meta_receiverId "N/A" msg +:+ "<br>" +:+
  nl +:+ "        <b>Status:</b> " +:+ msg_get meta_status "N/A" msg +:+ "<br>" +:+
  nl +:+ "        <b>Cluster:</b> " +:+ cluster_text vec +:+ "<br>" +:+
  nl +:+ "        <b>Template:</b> " +:+ template_text msg +:+
  nl +:+ "        ".

Definition hover_text_3d (vec : vector_record) (msg : option metadata) : string :=
  nl +:+ "        ID: " +:+ str_take 12 (vec_referenceId vec) +:+ "...<br>" +:+
  nl +:+ "        Type: " +:+ msg_get meta_messageType "UNKNOWN" msg +:+ "<br>" +:+
  nl +:+ "        Sender: " +:+ msg_get meta_senderId "N/A" msg +:+ "<br>" +:+
  nl +:+ "        Receiver: " +:+ msg_get meta_receiverId "N/A" msg +:+ "<br>" +:+
  nl +:+ "        Status: " +:+ msg_get meta_status "N/A" msg +:+ "<br>" +:+
  nl +:+ "        Cluster: " +:+ cluster_text vec +:+ "<br>" +:+
  nl +:+ "        Template: " +:+ template_text msg +:+
  nl +:+ "        ".

(** What one iteration of the plotting loop appends to [colors], [symbols],
    [sizes] and [hover_texts]. *)
Record point : Type := {
  pt_color : string;
  pt_symbol : string;
  pt_size : Z;
  pt_hover : string
}.

Definition point_2d (messages_map : gmap string metadata) (vec : vector_record) : point :=
  let msg := messages_map !! vec_referenceId vec in
  let is_template := String.eqb (vec_type vec) "TEMPLATE" in
  {| pt_color := msg_get meta_messageType "UNKNOWN" msg;
     pt_symbol := if is_template then "star" else "circle";
     pt_size := if is_template then 20 else 10;
     pt_hover := hover_text_2d vec msg |}.

Definition point_3d (messages_map : gmap string metadata) (vec : vector_record) : point :=
  let msg := messages_map !! vec_referenceId vec in
  let is_template := String.eqb (vec_type vec) "TEMPLATE" in
  {| pt_color := msg_get meta_messageType "UNKNOWN" msg;
     pt_symbol := if is_template then "diamond" else "circle";
     pt_size := if is_template then 15 else 8;
     pt_hover := hover_text_3d vec msg |}.

Section Views.
Variable rt : runtime.
Variable sk : reducers.

(** [[hash(c) % 360 for c in colors]] *)
Definition hash_colors (colors : list string) : list Z :=
  map (fun c => hash rt c `mod` 360) colors.

Definition create_2d_visualization (vectors_data : list vector_record)
    (messages_map : gmap string metadata) (method : string) : result figure :=
  let embeddings := map vec_embedding vectors_data in
  reduced <~ reduce_dimensions sk embeddings method 2 ;;
  x <~ column 0 reduced ;;
  y <~ column 1 reduced ;;
  let points := map (point_2d messages_map) vectors_data in
  let colors := map pt_color points in
  Ok {| fig_subplots := None;
        fig_data :=
          [(Scatter x y "markers"
              {| marker_size := SizeEach (map pt_size points);
                 marker_color := ColorEach (hash_colors colors);
                 marker_colorscale := Some "Viridis";
                 marker_symbol := Some (map pt_symbol points);
                 marker_line := Some (1%Q, "white");
                 marker_opacity := None |}
              (Some colors) (Some (map pt_hover points)) (Some "text")
              "Messages" None, None)];
        fig_layout :=
          [("title", PAtom (AStr ("SWIFT Message Clusters Visualization (" +:+ upper method +:+ ")")));
           ("xaxis_title", PAtom (AStr (upper method +:+ " Component 1")));
           ("yaxis_title", PAtom (AStr (upper method +:+ " Component 2")));
           ("hovermode", PAtom (AStr "closest"));
           ("width", PAtom (AInt 1200));
           ("height", PAtom (AInt 800));
           ("template", PAtom (AStr "plotly_white"))] |}.

Definition create_3d_visualization (vectors_data : list vector_record)
    (messages_map : gmap string metadata) (method : string) : result figure :=
  let embeddings := map vec_embedding vectors_data in
  reduced <~ reduce_dimensions sk embeddings method 3 ;;
  x <~ column 0 reduced ;;
  y <~ column 1 reduced ;;
  z <~ column 2 reduced ;;
  let points := map (point_3d messages_map) vectors_data in
  let colors := map pt_color points in
  Ok {| fig_subplots := None;
        fig_data :=
          [(Scatter3d x y z "markers"
              {| marker_size := SizeEach (map pt_size points);
                 marker_color := ColorEach (hash_colors colors);
                 marker_colorscale := Some "Viridis";
                 marker_symbol := Some (map pt_symbol points);
                 marker_line := Some ((1 # 2)%Q, "white");
                 marker_opacity := None |}
              (Some colors) (Some (map pt_hover points)) (Some "text")
              "Messages", None)];
        fig_layout :=
          [("title", PAtom (AStr ("SWIFT Message Clusters 3D Visualization (" +:+ upper method +:+ ")")));
           ("scene", PDict [("xaxis_title", AStr (upper method +:+ " Component 1"));
                            ("yaxis_title", AStr (upper method +:+ " Component 2"));
                            ("zaxis_title", AStr (upper method +:+ " Component 3"))]);
           ("width", PAtom (AInt 1200));
           ("height", PAtom (AInt 900));
           ("template", PAtom (AStr "plotly_white"))] |}.

(** [colors.append(hash(msg_type) % 360)] for each record. *)
Definition comparison_colors (vectors_data : list vector_record)
    (messages_map : gmap string metadata) : list Z :=
  map (fun vec =>
         let msg := messages_map !! vec_referenceId vec in
         let msg_type := msg_get meta_messageType "UNKNOWN" msg in
         hash rt msg_type `mod` 360) vectors_data.

Definition create_cluster_comparison (vectors_data : list vector_record)
    (messages_map : gmap string metadata) : result figure :=
  let embeddings := map vec_embedding vectors_data in
  tsne_2d <~ reduce_dimensions sk embeddings "tsne" 2 ;;
  pca_2d <~ reduce_dimensions sk embeddings "pca" 2 ;;
  let colors := comparison_colors vectors_data messages_map in
  let mk := {| marker_size := SizeAll 10;
               marker_color := ColorEach colors;
               marker_colorscale := Some "Viridis";
               marker_symbol := None;
               marker_line := None;
               marker_opacity := None |} in
  tsne_x <~ column 0 tsne_2d ;;
  tsne_y <~ column 1 tsne_2d ;;
  pca_x <~ column 0 pca_2d ;;
  pca_y <~ column 1 pca_2d ;;
  Ok {| fig_subplots :=
          Some {| rows := 1; cols := 2;
                  subplot_titles := ["t-SNE Projection"; "PCA Projection"];
                  horizontal_spacing := Some (1 # 10)%Q;
                  specs := None |};
        fig_data :=
          [(Scatter tsne_x tsne_y "markers" mk None None None "t-SNE" (Some false),
            Some (1, 1));
           (Scatter pca_x pca_y "markers" mk None None None "PCA" (Some false),
            Some (1, 2))];
        fig_layout :=
          [("title", PAtom (AStr "Cluster Comparison: t-SNE vs PCA"));
           ("height", PAtom (AInt 600));
           ("width", PAtom (AInt 1400));
           ("template", PAtom (AStr "plotly_white"))] |}.
End Views.

(** The three counting dicts of the statistics view. *)
Record counts : Type := {
  type_counts : counter;
  cluster_counts : counter;
  sender_counts : counter
}.

(** The body of the first loop of [create_statistics_view]. *)
Definition count_record (messages_map : gmap string metadata) (acc : counts)
    (vec : vector_record) : counts :=
  let msg := messages_map !! vec_referenceId vec in
  let msg_type := msg_get meta_messageType "UNKNOWN" msg in
  let sender := msg_get meta_senderId "UNKNOWN" msg in
  {| type_counts := incr msg_type (type_counts acc);
     cluster_counts :=
       match vec_clusterId vec with
       | Some cluster_id => incr cluster_id (cluster_counts acc)
       | None => cluster_counts acc
       end;
     sender_counts := incr sender (sender_counts acc) |}.

Definition count_records (vectors_data : list vector_record)
    (messages_map : gmap string metadata) : counts :=
  fold_left (count_record messages_map) vectors_data
    {| type_counts := []; cluster_counts := []; sender_counts := [] |}.

(** The second loop: [doc_types[vec["type"]] += 1]. *)
Definition count_doc_types (vectors_data : list vector_record) : counter :=
  fold_left (fun doc_types vec => incr (vec_type vec) doc_types) vectors_data [].

Definition create_statistics_view (vectors_data : list vector_record)
    (messages_map : gmap string metadata) : figure :=
  let c := count_records vectors_data messages_map in
  let top_senders := take 10 (sorted_desc (sender_counts c)) in
  let doc_types := count_doc_types vectors_data in
  {| fig_subplots :=
       Some {| rows := 2; cols := 2;
               subplot_titles := ["Messages by Type"; "Messages by Cluster";
                                  "Messages by Sender"; "Document Types"];
               horizontal_spacing := None;
               specs := Some [["pie"; "bar"]; ["bar"; "pie"]] |};
     fig_data :=
       [(Pie (keys (type_counts c)) (values (type_counts c)) "Message Types", Some (1, 1));
        (Bar (keys (cluster_counts c)) (values (cluster_counts c)) "Clusters" None None,
         Some (1, 2));
        (Bar (map fst top_senders) (map snd top_senders) "Top Senders" None None,
         Some (2, 1));
        (Pie (keys doc_types) (values doc_types) "Document Types", Some (2, 2))];
     fig_layout :=
       [("title", PAtom (AStr "SWIFT Message Statistics"));
        ("height", PAtom (AInt 800));
        ("width", PAtom (AInt 1400));
        ("showlegend", PAtom (ABool false))] |}.

(** The parsed command line. *)
Record arguments : Type := {
  arg_method : string;
  arg_dimensions : string;
  arg_view : string;
  arg_output : string
}.

(** The state of a run: the files written so far and whether an exception
    ended it. *)
Record run : Type := {
  written : list (string * figure);
  outcome : result unit
}.

(** One [if args.view == ...] block of [main]: build the figure, then
    [fig.write_html(output_file)]. *)
Definition write_view (wanted : bool) (fig : result figure) (output_file : string)
    (r : run) : run :=
  match outcome r with
  | Raise _ => r
  | Ok _ =>
      if wanted then
        match fig with
        | Ok f => {| written := written r ++ [(output_file, f)]; outcome := Ok tt |}
        | Raise e => {| written := written r; outcome := Raise e |}
        end
      else r
  end.

Definition view_is (args : arguments) (view : string) : bool :=
  String.eqb (arg_view args) view || String.eqb (arg_view args) "all".

Definition main (rt : runtime) (sk : reducers) (args : arguments) (net : network) : run :=
  match fetch_vectors_from_elasticsearch net with
  | Raise e => {| written := []; outcome := Raise e |}
  | Ok [] => {| written := []; outcome := Ok tt |}
  | Ok vectors_data =>
      match fetch_messages_from_api net with
      | Raise e => {| written := []; outcome := Raise e |}
      | Ok messages_map =>
          let scatter :=
            if String.eqb (arg_dimensions args) "2d"
            then create_2d_visualization rt sk vectors_data messages_map (arg_method args)
            else create_3d_visualization rt sk vectors_data messages_map (arg_method args) in
          let r0 := {| written := []; outcome := Ok tt |} in
          let r1 := write_view (view_is args "scatter") scatter
                      (replace ".html"
                         ("_" +:+ arg_method args +:+ "_" +:+ arg_dimensions args +:+ ".html")
                         (arg_output args)) r0 in
          let r2 := write_view (view_is args "comparison")
                      (create_cluster_comparison rt sk vectors_data messages_map)
                      (replace ".html" "_comparison.html" (arg_output args)) r1 in
          write_view (view_is args "stats")
            (Ok (create_statistics_view vectors_data messages_map))
            (replace ".html" "_stats.html" (arg_output args)) r2
      end
  end.

End VisualizeClusters.

(** * visualize_with_clustering.py

    [perform_clustering] and [create_cluster_visualization]. The two fetch
    functions of this script repeat those above with fewer fields; its [main]
    calls [perform_clustering(embeddings)] without a cluster count. *)

(** [KMeans(n_clusters=..., random_state=..., n_init=...)] *)
Record kmeans_params : Type := {
  n_clusters : Z;
  km_random_state : Z;
  n_init : Z
}.

(** scikit-learn's KMeans. [fit_predict(X)] is documented as [fit(X)] followed
    by [predict(X)], and [predict] as giving each sample the index of the
    centre closest to it: the label of a sample is a function of the fitted
    model and of the sample's vector. *)
Record kmeans_lib : Type := {
  kmeans_model : Type;
  fit : kmeans_params -> matrix -> result kmeans_model;
  predict : kmeans_model -> vector -> Z;
  cluster_centers_ : kmeans_model -> matrix
}.

Definition fit_predict (km : kmeans_lib) (params : kmeans_params) (X : matrix)
    : result (kmeans_model km * list Z) :=
  model <~ fit km params X ;;
  Ok (model, map (predict km model) X).

Module VisualizeWithClustering.

(** The [if n_clusters is None] block: the count handed to [KMeans]. *)
Definition choose_n_clusters (embeddings : matrix) (n_clusters : option Z) : Z :=
  match n_clusters with
  | None =>
      let n_samples := len embeddings in
      Z.min 5 (Z.max 2 (n_samples `div` 10))
  | Some k => k
  end.

Definition perform_clustering (km : kmeans_lib) (embeddings : matrix)
    (n_clusters : option Z) : result (list Z * matrix) :=
  let n_clusters := choose_n_clusters embeddings n_clusters in
  fitted <~ fit_predict km
    {| n_clusters := n_clusters; km_random_state := 42; n_init := 10 |} embeddings ;;
  let '(kmeans, cluster_labels) := fitted in
  Ok (cluster_labels, cluster_centers_ km kmeans).

(** [np.unique(cluster_labels)]: the distinct labels in increasing order. *)
Fixpoint insert_unique (z : Z) (l : list Z) : list Z :=
  match l with
  | [] => [z]
  | y :: l' =>
      if z <? y then z :: l
      else if z =? y then l
      else y :: insert_unique z l'
  end.

Definition unique (labels : list Z) : list Z := fold_right insert_unique [] labels.

(** [a[mask]] for a boolean mask: numpy refuses a mask of another length. *)
Definition masked {A : Type} (mask : list bool) (a : list A) : result (list A) :=
  if (length mask =? length a)%nat
  then Ok (map snd (filter (fun p => fst p = true) (zip mask a)))
  else Raise IndexError.

(** [np.where(mask)[0]] *)
Definition where_true (mask : list bool) : list nat :=
  map fst (filter (fun p => snd p = true) (imap (fun i b => (i, b)) mask)).

Definition palette : list string :=
  ["red"; "blue"; "green"; "orange"; "purple"; "cyan"; "magenta"; "yellow"].

Definition cluster_hover_text (cluster_id : Z) (vec : vector_record)
    (msg : option metadata) : string :=
  nl +:+ "            <b>Cluster " +:+ pretty cluster_id +:+ "</b><br>" +:+
  nl +:+ "            ID: " +:+ str_take 12 (vec_referenceId vec) +:+ "...<br>" +:+
  nl +:+ "            Type: " +:+ msg_get meta_messageType "N/A" msg +:+ "<br>" +:+
  nl +:+ "            Sender: " +:+ msg_get meta_senderId "N/A" msg +:+ "<br>" +:+
  nl +:+ "            Receiver: " +:+ msg_get meta_receiverId "N/A" msg +:+ "<br>" +:+
  nl +:+ "            Status: " +:+ msg_get meta_status "N/A" msg +:+
  nl +:+ "            ".

(** The estimator [create_cluster_visualization] builds: any method other
    than ["tsne"] falls to PCA. *)
Definition cluster_view_reducer (embeddings : matrix) (method : string) : reducer :=
  if String.eqb method "tsne"
  then TSNE 2 42 (Z.min 30 (len embeddings - 1)) None
  else PCA 2 42.

Section ClusterView.
Variable sk : reducers.
Variable vectors_data : list vector_record.
Variable messages_map : gmap string metadata.
Variable cluster_labels : list Z.

(** The body of [for cluster_id in unique_clusters]. *)
Definition cluster_trace (x y : list Q) (cluster_id : Z) : result trace :=
  let mask := map (fun l => l =? cluster_id) cluster_labels in
  let cluster_indices := where_true mask in
  hover_texts <~ mapM (fun idx =>
      match vectors_data !! idx with
      | Some vec =>
          Ok (cluster_hover_text cluster_id vec (messages_map !! vec_referenceId vec))
      | None => Raise IndexError
      end) cluster_indices ;;
  xs <~ masked mask x ;;
  ys <~ masked mask y ;;
  Ok (Scatter xs ys "markers"
        {| marker_size := SizeAll 12;
           marker_color :=
             ColorNamed (nth (Z.to_nat (cluster_id `mod` len palette)) palette "");
           marker_colorscale := None;
           marker_symbol := None;
           marker_line := Some (1%Q, "white");
           marker_opacity := Some (8 # 10)%Q |}
        None (Some hover_texts) (Some "text")
        ("Cluster " +:+ pretty cluster_id) None).

Definition create_cluster_visualization (method : string) : result figure :=
  let embeddings := map vec_embedding vectors_data in
  reduced <~ fit_transform sk (cluster_view_reducer embeddings method) embeddings ;;
  x <~ column 0 reduced ;;
  y <~ column 1 reduced ;;
  let unique_clusters := unique cluster_labels in
  traces <~ mapM (cluster_trace x y) unique_clusters ;;
  Ok {| fig_subplots := None;
        fig_data := map (fun t => (t, None)) traces;
        fig_layout :=
          [("title", PAtom (AStr ("SWIFT Message Clusters (" +:+ upper method +:+
              " Projection)<br><sub>" +:+ pretty (len unique_clusters) +:+
              " clusters across " +:+ pretty (len vectors_data) +:+ " messages</sub>")));
           ("xaxis_title", PAtom (AStr (upper method +:+ " Component 1")));
           ("yaxis_title", PAtom (AStr (upper method +:+ " Component 2")));
           ("hovermode", PAtom (AStr "closest"));
           ("width", PAtom (AInt 1400));
           ("height", PAtom (AInt 900));
           ("template", PAtom (AStr "plotly_white"));
           ("legend", PDict [("yanchor", AStr "top"); ("y", ANum (99 # 100)%Q);
                             ("xanchor", AStr "left"); ("x", ANum (1 # 100)%Q)])] |}.
End ClusterView.

(** The fetch functions of this script. Their dicts have no [clusterId] and
    no [preview] key (here [None] and the empty string: nothing in this
    script reads them), and the metadata has no [templateId] and no
    [clusterId]. *)
Definition vector_of_hit (hit : es_hit) : result vector_record :=
  source <~ getitem "_source" (hit_source hit) ;;
  id <~ getitem "id" (src_id source) ;;
  type <~ getitem "documentType" (src_documentType source) ;;
  embedding <~ getitem "embedding" (src_embedding source) ;;
  referenceId <~ getitem "referenceId" (src_referenceId source) ;;
  Ok {| vec_id := id;
        vec_type := type;
        vec_embedding := embedding;
        vec_clusterId := None;
        vec_referenceId := referenceId;
        vec_preview := "" |}.

Definition fetch_vectors_from_elasticsearch (net : network) : result (list vector_record) :=
  response <~ es_search net ;;
  if negb (status_code response =? 200) then Ok []
  else
    body <~ json response ;;
    hits <~ getitem "hits" (body_hits body) ;;
    mapM vector_of_hit hits.

(** One iteration of [message_map[msg["id"]] = {...}]: Python evaluates the
    dict on the right before the subscript [msg["id"]] of the target. *)
Definition message_entry (msg : api_message) : result (string * metadata) :=
  messageType <~ getitem "messageType" (msg_messageType msg) ;;
  senderId <~ getitem "senderId" (msg_senderId msg) ;;
  receiverId <~ getitem "receiverId" (msg_receiverId msg) ;;
  status <~ getitem "status" (msg_status msg) ;;
  id <~ getitem "id" (msg_id msg) ;;
  Ok (id, {| meta_messageType := messageType;
             meta_senderId := senderId;
             meta_receiverId := receiverId;
             meta_status := status;
             meta_templateId := None;
             meta_clusterId := None |}).

Fixpoint fill_message_map (messages : list api_message)
    (message_map : gmap string metadata) : result (gmap string metadata) :=
  match messages with
  | [] => Ok message_map
  | msg :: rest =>
      entry <~ message_entry msg ;;
      fill_message_map rest (<[entry.1 := entry.2]> message_map)
  end.

Definition fetch_messages_from_api (net : network) : result (gmap string metadata) :=
  response <~ api_messages net ;;
  if negb (status_code response =? 200) then Ok ∅
  else
    messages <~ json response ;;
    fill_message_map messages ∅.

(** One entry of [cluster_stats]. *)
Record cluster_stat : Type := {
  stat_cluster_id : Z;
  stat_size : Z;
  stat_types : counter;
  stat_senders : counter
}.

(** The body of [for idx in cluster_indices]: [type_counts] and
    [sender_counts] are the pair threaded through. *)
Definition count_member (vectors_data : list vector_record)
    (messages_map : gmap string metadata) (acc : counter * counter) (idx : nat)
    : result (counter * counter) :=
  match vectors_data !! idx with
  | Some vec =>
      let msg := messages_map !! vec_referenceId vec in
      let msg_type := msg_get meta_messageType "UNKNOWN" msg in
      let sender := msg_get meta_senderId "UNKNOWN" msg in
      Ok (incr msg_type acc.1, incr sender acc.2)
  | None => Raise IndexError
  end.

(** The body of [for cluster_id in unique_clusters] of
    [create_cluster_details]. *)
Definition cluster_stat_of (vectors_data : list vector_record)
    (messages_map : gmap string metadata) (cluster_labels : list Z) (cluster_id : Z)
    : result cluster_stat :=
  let mask := map (fun l => l =? cluster_id) cluster_labels in
  let cluster_indices := where_true mask in
  counted <~ foldM (count_member vectors_data messages_map) cluster_indices ([], []) ;;
  Ok {| stat_cluster_id := cluster_id;
        stat_size := len cluster_indices;
        stat_types := counted.1;
        stat_senders := counted.2 |}.

Definition cluster_name (cid : Z) : string := "Cluster " +:+ pretty cid.

(** The per-cluster sender chart: the three most frequent senders, added only
    [if top_senders]. *)
Definition top_senders_trace (stat : cluster_stat) : list (trace * option (Z * Z)) :=
  let top_senders := take 3 (sorted_desc (stat_senders stat)) in
  match top_senders with
  | [] => []
  | _ :: _ =>
      [(Bar (map fst top_senders) (map snd top_senders)
          (cluster_name (stat_cluster_id stat)) None (Some false), Some (2, 1))]
  end.

Section ClusterDetails.
(** The order in which a Python [set] of strings, filled with the given keys
    in the given order, is iterated. *)
Variable set_iter : list string -> list string.

Definition create_cluster_details (vectors_data : list vector_record)
    (messages_map : gmap string metadata) (cluster_labels : list Z) : result figure :=
  let unique_clusters := unique cluster_labels in
  cluster_stats <~ mapM (cluster_stat_of vectors_data messages_map cluster_labels)
                     unique_clusters ;;
  let cluster_ids := map stat_cluster_id cluster_stats in
  let sizes := map stat_size cluster_stats in
  let all_types := set_iter (concat (map (fun stat => keys (stat_types stat)) cluster_stats)) in
  Ok {| fig_subplots :=
          Some {| rows := 2; cols := 2;
                  subplot_titles := ["Cluster Sizes"; "Message Types per Cluster";
                                     "Top Senders per Cluster"; "Cluster Distribution"];
                  horizontal_spacing := None;
                  specs := Some [["bar"; "bar"]; ["bar"; "pie"]] |};
        fig_data :=
          [(Bar (map cluster_name cluster_ids) sizes "Size" (Some "lightblue") None,
            Some (1, 1))]
          ++ map (fun msg_type =>
                    (Bar (map cluster_name cluster_ids)
                       (map (fun stat => counter_get msg_type (stat_types stat)) cluster_stats)
                       msg_type None None, Some (1, 2))) all_types
          ++ concat (map top_senders_trace cluster_stats)
          ++ [(Pie (map cluster_name cluster_ids) sizes "Distribution", Some (2, 2))];
        fig_layout :=
          [("title", PAtom (AStr "Cluster Statistics and Distribution"));
           ("height", PAtom (AInt 900));
           ("width", PAtom (AInt 1400));
           ("showlegend", PAtom (ABool true))] |}.

Definition main (sk : reducers) (km : kmeans_lib) (net : network) : VisualizeClusters.run :=
  let ended outcome :=
    {| VisualizeClusters.written := []; VisualizeClusters.outcome := outcome |} in
  match fetch_vectors_from_elasticsearch net with
  | Raise e => ended (Raise e)
  | Ok [] => ended (Ok tt)
  | Ok vectors_data =>
      match fetch_messages_from_api net with
      | Raise e => ended (Raise e)
      | Ok messages_map =>
          let embeddings := map vec_embedding vectors_data in
          match perform_clustering km embeddings None with
          | Raise e => ended (Raise e)
          | Ok (cluster_labels, centroids) =>
              let r1 := VisualizeClusters.write_view true
                          (create_cluster_visualization sk vectors_data messages_map
                             cluster_labels "tsne")
                          "clusters_tsne.html" (ended (Ok tt)) in
              let r2 := VisualizeClusters.write_view true
                          (create_cluster_visualization sk vectors_data messages_map
                             cluster_labels "pca")
                          "clusters_pca.html" r1 in
              VisualizeClusters.write_view true
                (create_cluster_details vectors_data messages_map cluster_labels)
                "clusters_statistics.html" r2
          end
      end
  end.
End ClusterDetails.

End VisualizeWithClustering.

(** * Reference instances of the external components

    Concrete stand-ins for the interfaces, used to run the scripts on explicit
    inputs. [sklearn_checks] and [nearest_centroid] carry the input validation
    scikit-learn documents; their numeric kernels are placeholders (a
    coordinate projection, the first [k] samples as centres), and no statement
    below depends on the coordinates they produce. *)

Module Reference.

Definition n_features (X : matrix) : Z :=
  match X with
  | [] => 0
  | row :: _ => len row
  end.

(** The first [n] coordinates of a row, padded with zeros. *)
Definition project (n : Z) (row : vector) : vector :=
  take (Z.to_nat n) (row ++ repeat 0%Q (Z.to_nat n)).

(** [fit_transform] with scikit-learn's checks: t-SNE wants
    [1 <= n_components] and [0 < perplexity < n_samples]; PCA wants
    [0 <= n_components <= min(n_samples, n_features)]. *)
Definition sklearn_checks : reducers :=
  {| fit_transform := fun r X =>
       match r with
       | TSNE n_components _ perplexity _ =>
           if negb (1 <=? n_components)
           then Raise (ValueError "n_components must be an int in the range [1, inf)")
           else if (0 <? perplexity) && (perplexity <? len X)
           then Ok (map (project n_components) X)
           else Raise (ValueError "perplexity must be positive and less than n_samples")
       | PCA n_components _ =>
           if (0 <=? n_components) && (n_components <=? Z.min (len X) (n_features X))
           then Ok (map (project n_components) X)
           else Raise (ValueError "n_components must be between 0 and min(n_samples, n_features)")
       end |}.

Definition sq_dist (v w : vector) : Q :=
  fold_right Qplus 0%Q (zip_with (fun a b => ((a - b) * (a - b))%Q) v w).

(** Index of the centre closest to [v], the first one among equals; [i] is the
    index of the head of [centers], [best] the closest centre so far. *)
Fixpoint closest_from (v : vector) (centers : matrix) (i : Z) (best : Z * Q) : Z :=
  match centers with
  | [] => fst best
  | c :: rest =>
      let d := sq_dist v c in
      closest_from v rest (i + 1) (if Qlt_le_dec d (snd best) then (i, d) else best)
  end.

Definition closest (centers : matrix) (v : vector) : Z :=
  match centers with
  | [] => 0
  | c :: rest => closest_from v rest 1 (0, sq_dist v c)
  end.

(** KMeans with scikit-learn's checks ([1 <= n_clusters <= n_samples]); the
    fitted model is its list of centres. *)
Definition nearest_centroid : kmeans_lib :=
  {| kmeans_model := matrix;
     fit := fun params X =>
       if (1 <=? n_clusters params) && (n_clusters params <=? len X)
       then Ok (take (Z.to_nat (n_clusters params)) X)
       else Raise (ValueError "n_samples should be >= n_clusters >= 1");
     predict := closest;
     cluster_centers_ := fun centers => centers |}.

(** A string hash keyed by a per-process salt: a stand-in for CPython's keyed
    hash of [str], of which only the dependence on the salt matters here. *)
Definition salted_hash (salt : Z) (s : string) : Z :=
  fold_left (fun h c => (h * 31 + Z.of_nat (nat_of_ascii c)) `mod` 2 ^ 61)
    (list_ascii_of_string s) salt.

Definition process (salt : Z) : runtime := {| hash := salted_hash salt |}.

Definition record (id type : string) (embedding : vector) (cluster : option string)
    : es_hit :=
  {| hit_source := Some {| src_id := Some ("e-" +:+ id);
                           src_documentType := Some type;
                           src_embedding := Some embedding;
                           src_clusterId := cluster;
                           src_referenceId := Some id;
                           src_contentPreview := None |} |}.

Definition five_hits : list es_hit :=
  [record "m1" "MESSAGE" [1; 0; 2]%Q (Some "c1");
   record "m2" "MESSAGE" [0; 1; 2]%Q None;
   record "m3" "MESSAGE" [3; 1; 0]%Q (Some "c1");
   record "t1" "TEMPLATE" [1; 1; 1]%Q None;
   record "m4" "MESSAGE" [2; 2; 5]%Q (Some "c2")].

Definition message (id type sender : string) : api_message :=
  {| msg_id := Some id;
     msg_messageType := Some type;
     msg_senderId := Some sender;
     msg_receiverId := Some "BANKDEFF";
     msg_status := Some "PROCESSED";
     msg_templateId := None;
     msg_clusterId := None |}.

Definition two_messages : list api_message :=
  [message "m1" "MT103" "BANKUS33"; message "m3" "MT202" "BANKGB2L"].

Definition search_ok (hits : list es_hit) : result (response es_body) :=
  Ok {| status_code := 200; text := ""; json := Ok {| body_hits := Some hits |} |}.

Definition messages_ok (messages : list api_message)
    : result (response (list api_message)) :=
  Ok {| status_code := 200; text := ""; json := Ok messages |}.

Definition healthy : network :=
  {| es_search := search_ok five_hits; api_messages := messages_ok two_messages |}.

Definition args (view : string) : VisualizeClusters.arguments :=
  {| VisualizeClusters.arg_method := "pca";
     VisualizeClusters.arg_dimensions := "2d";
     VisualizeClusters.arg_view := view;
     VisualizeClusters.arg_output := "cluster_visualization.html" |}.

(** The search service answers 503 with a body that is not JSON. *)
Definition search_outage : network :=
  {| es_search := Ok {| status_code := 503; text := "Service Unavailable";
                        json := Raise JSONDecodeError |};
     api_messages := messages_ok two_messages |}.

(** The search service answers 200 with no hits. *)
Definition empty_store : network :=
  {| es_search := search_ok []; api_messages := messages_ok two_messages |}.

(** The search service cannot be reached. *)
Definition search_unreachable : network :=
  {| es_search := Raise ConnectionError; api_messages := messages_ok two_messages |}.

(** The metadata service cannot be reached. *)
Definition metadata_unreachable : network :=
  {| es_search := search_ok five_hits; api_messages := Raise ConnectionError |}.

(** The metadata service answers 500. *)
Definition metadata_error_status : network :=
  {| es_search := search_ok five_hits;
     api_messages := Ok {| status_code := 500; text := "Internal Server Error";
                           json := Raise JSONDecodeError |} |}.


(** The store holds a single record. *)
Definition single_record : network :=
  {| es_search := search_ok [record "m1" "MESSAGE" [1; 0; 2]%Q (Some "c1")];
     api_messages := messages_ok two_messages |}.

(** What the two fetches give on [healthy]. *)
Definition fetched_records : list vector_record :=
  match VisualizeClusters.fetch_vectors_from_elasticsearch healthy with
  | Ok vectors_data => vectors_data
  | Raise _ => []
  end.

Definition fetched_metadata : gmap string metadata :=
  match VisualizeClusters.fetch_messages_from_api healthy with
  | Ok messages_map => messages_map
  | Raise _ => ∅
  end.

(** What the two fetches of visualize_with_clustering.py give on [healthy]. *)
Definition clustering_records : list vector_record :=
  match VisualizeWithClustering.fetch_vectors_from_elasticsearch healthy with
  | Ok vectors_data => vectors_data
  | Raise _ => []
  end.

Definition clustering_metadata : gmap string metadata :=
  match VisualizeWithClustering.fetch_messages_from_api healthy with
  | Ok messages_map => messages_map
  | Raise _ => ∅
  end.

(** A hit whose [_source] has no [referenceId]. *)
Definition hit_without_reference : es_hit :=
  {| hit_source := Some {| src_id := Some "e-m5";
                           src_documentType := Some "MESSAGE";
                           src_embedding := Some [1; 1; 0]%Q;
                           src_clusterId := None;
                           src_referenceId := None;
                           src_contentPreview := None |} |}.

(** A hit with every required key whose [contentPreview] is [null]. *)
Definition hit_with_null_preview : es_hit :=
  {| hit_source := Some {| src_id := Some "e-m0";
                           src_documentType := Some "MESSAGE";
                           src_embedding := Some [0; 1; 1]%Q;
                           src_clusterId := None;
                           src_referenceId := Some "m0";
                           src_contentPreview := Some JNull |} |}.

(** The search service answers 200; the first of its six hits has a [null]
    preview. *)
Definition null_preview : network :=
  {| es_search := search_ok (hit_with_null_preview :: five_hits);
     api_messages := messages_ok two_messages |}.

(** The search service answers 200; the last of its six hits is malformed. *)
Definition malformed_hit : network :=
  {| es_search := search_ok (five_hits ++ [hit_without_reference]);
     api_messages := messages_ok two_messages |}.

(** A message without [senderId]. *)
Definition message_without_sender : api_message :=
  {| msg_id := Some "m4";
     msg_messageType := Some "MT940";
     msg_senderId := None;
     msg_receiverId := Some "BANKDEFF";
     msg_status := Some "PROCESSED";
     msg_templateId := None;
     msg_clusterId := None |}.

(** The metadata service answers 200; the last of its three messages is
    malformed. *)
Definition malformed_message : network :=
  {| es_search := search_ok five_hits;
     api_messages := messages_ok (two_messages ++ [message_without_sender]) |}.

(** The metadata service lists the id [m1] twice. *)
Definition three_messages : list api_message :=
  two_messages ++ [message "m1" "MT202" "BANKFRPP"].

Definition repeated_id : network :=
  {| es_search := search_ok five_hits; api_messages := messages_ok three_messages |}.

End Reference.

(** * Vocabulary of the specification *)

(** [clamp(x, lo, hi)] as the specification writes the auto-selection policy. *)
Definition clamp (x lo hi : Z) : Z := Z.max lo (Z.min x hi).

(** The effective-neighbourhood-size parameter of an estimator, if it has one. *)
Definition perplexity_of (r : reducer) : option Z :=
  match r with
  | TSNE _ _ perplexity _ => Some perplexity
  | PCA _ _ => None
  end.

(** scikit-learn's shape contract: [fit_transform] returns one row per sample. *)
Definition rows_preserved (sk : reducers) : Prop :=
  ∀ r X Y, fit_transform sk r X = Ok Y → length Y = length X.

(** The other half of the shape contract: every row has the [n_components]
    coordinates the estimator was built with. *)
Definition n_components_of (r : reducer) : Z :=
  match r with
  | TSNE n_components _ _ _ => n_components
  | PCA n_components _ => n_components
  end.

Definition columns_as_requested (sk : reducers) : Prop :=
  ∀ r X Y row, fit_transform sk r X = Ok Y → row ∈ Y → len row = n_components_of r.


(** A matrix as [np.array] builds it from rows of one length. *)
Definition rectangular (X : matrix) : Prop :=
  ∀ row, row ∈ X → len row = Reference.n_features X.

(** scikit-learn's check of PCA's [n_components] on [n_samples] rows of
    [n_features] numbers: a count from 1 to [min(n_samples, n_features)] is
    fitted, a larger one is refused with [ValueError]. *)
Definition pca_component_check (sk : reducers) : Prop :=
  ∀ n_components random_state X, rectangular X →
    (1 ≤ n_components ≤ Z.min (len X) (Reference.n_features X) →
     ∃ Y, fit_transform sk (PCA n_components random_state) X = Ok Y) ∧
    (Z.min (len X) (Reference.n_features X) < n_components →
     ∃ msg, fit_transform sk (PCA n_components random_state) X = Raise (ValueError msg)).

(** scikit-learn's check of t-SNE's [perplexity]: it must be positive and
    less than the number of samples, or the fit is refused with
    [ValueError]. *)
Definition tsne_perplexity_check (sk : reducers) : Prop :=
  ∀ n_components random_state perplexity n_iter X,
    ¬ (0 < perplexity < len X) →
    ∃ msg, fit_transform sk (TSNE n_components random_state perplexity n_iter) X
             = Raise (ValueError msg).

(** scikit-learn's label contract: [predict] answers with a cluster index. *)
Definition labels_in_range (km : kmeans_lib) : Prop :=
  ∀ params X model v,
    fit km params X = Ok model → 0 ≤ predict km model v < n_clusters params.

(** The label-density property: the labels used are exactly [0 .. k-1]. *)
Definition dense (labels : list Z) (k : Z) : Prop :=
  ∀ l, l ∈ labels ↔ 0 ≤ l < k.

(** Number of points a trace draws, and a figure in total. *)
Definition trace_points (t : trace) : nat :=
  match t with
  | Scatter x _ _ _ _ _ _ _ _ => length x
  | Scatter3d x _ _ _ _ _ _ _ _ => length x
  | Pie _ _ _ => 0
  | Bar _ _ _ _ _ => 0
  end.

Definition point_count (fig : figure) : nat :=
  foldr (fun t n => (trace_points (fst t) + n)%nat) 0%nat (fig_data fig).

(** A figure with the per-point marker colours blanked out. *)
Definition blank_marker (mk : marker) : marker :=
  {| marker_size := marker_size mk;
     marker_color := match marker_color mk with
                     | ColorEach _ => ColorEach []
                     | ColorNamed s => ColorNamed s
                     end;
     marker_colorscale := marker_colorscale mk;
     marker_symbol := marker_symbol mk;
     marker_line := marker_line mk;
     marker_opacity := marker_opacity mk |}.

Definition blank_trace (t : trace) : trace :=
  match t with
  | Scatter x y mode mk text hovertext hoverinfo name showlegend =>
      Scatter x y mode (blank_marker mk) text hovertext hoverinfo name showlegend
  | Scatter3d x y z mode mk text hovertext hoverinfo name =>
      Scatter3d x y z mode (blank_marker mk) text hovertext hoverinfo name
  | Pie _ _ _ | Bar _ _ _ _ _ => t
  end.

Definition blank_colors (fig : figure) : figure :=
  {| fig_subplots := fig_subplots fig;
     fig_data := map (fun t => (blank_trace (fst t), snd t)) (fig_data fig);
     fig_layout := fig_layout fig |}.

Definition blank_run (r : VisualizeClusters.run) : VisualizeClusters.run :=
  {| VisualizeClusters.written :=
       map (fun a => (fst a, blank_colors (snd a))) (VisualizeClusters.written r);
     VisualizeClusters.outcome := VisualizeClusters.outcome r |}.

(** The records that carry an external cluster id. *)
Definition with_cluster (vectors_data : list vector_record) : list vector_record :=
  filter (fun vec => is_Some (vec_clusterId vec)) vectors_data.

(** A record as visualize_with_clustering.py keeps it: without the external
    cluster id and the preview. *)
Definition without_cluster_and_preview (vec : vector_record) : vector_record :=
  {| vec_id := vec_id vec;
     vec_type := vec_type vec;
     vec_embedding := vec_embedding vec;
     vec_clusterId := None;
     vec_referenceId := vec_referenceId vec;
     vec_preview := "" |}.

(** Metadata as visualize_with_clustering.py keeps it: without the template
    id and the cluster id. *)
Definition without_template_and_cluster (md : metadata) : metadata :=
  {| meta_messageType := meta_messageType md;
     meta_senderId := meta_senderId md;
     meta_receiverId := meta_receiverId md;
     meta_status := meta_status md;
     meta_templateId := None;
     meta_clusterId := None |}.

(** A run that wrote nothing and ended as [outcome]. *)
Definition nothing_written (outcome : result unit) : VisualizeClusters.run :=
  {| VisualizeClusters.written := []; VisualizeClusters.outcome := outcome |}.

(** A hit that has every key [vector_of_hit] reads with [[...]]. *)
Definition complete_hit (hit : es_hit) : Prop :=
  ∃ source, hit_source hit = Some source ∧
    is_Some (src_id source) ∧ is_Some (src_documentType source) ∧
    is_Some (src_embedding source) ∧ is_Some (src_referenceId source).

(** A hit whose [contentPreview], if it has one, is a string and not [null]. *)
Definition preview_not_null (hit : es_hit) : Prop :=
  ∀ source, hit_source hit = Some source → src_contentPreview source ≠ Some JNull.

(** The string [source.get("contentPreview", "")] gives for such a hit. *)
Definition preview_string (source : es_source) : string :=
  match src_contentPreview source with
  | Some (JStr s) => s
  | _ => ""
  end.

(** A message that has every key [message_entry] reads with [[...]]. *)
Definition complete_message (msg : api_message) : Prop :=
  is_Some (msg_id msg) ∧ is_Some (msg_messageType msg) ∧ is_Some (msg_senderId msg) ∧
  is_Some (msg_receiverId msg) ∧ is_Some (msg_status msg).

(** [old in s] *)
Fixpoint occurs_in (old s : string) : bool :=
  match s with
  | EmptyString => str_prefix old EmptyString
  | String _ s' => str_prefix old s || occurs_in old s'
  end.

(** scikit-learn's sample-count check: KMeans refuses more clusters than
    samples. *)
Definition refuses_more_clusters_than_samples (km : kmeans_lib) : Prop :=
  ∀ params X, len X < n_clusters params → ∃ msg, fit km params X = Raise (ValueError msg).

(** What the views show for a record: its message type and its sender, with
    the fallback for a record without metadata. *)
Definition message_type_of (messages_map : gmap string metadata)
    (vec : vector_record) : string :=
  msg_get meta_messageType "UNKNOWN" (messages_map !! vec_referenceId vec).

Definition sender_of (messages_map : gmap string metadata)
    (vec : vector_record) : string :=
  msg_get meta_senderId "UNKNOWN" (messages_map !! vec_referenceId vec).

(** How many elements of [l] have the key [k]; an element may have none. *)
Definition occurrences {A : Type} (key : A -> option string) (k : string)
    (l : list A) : Z :=
  len (filter (fun a => key a = Some k) l).

(** The step of a counting loop: count [a] under its key, if it has one. *)
Definition count_under {A : Type} (key : A -> option string) (d : counter) (a : A)
    : counter :=
  match key a with
  | Some k => incr k d
  | None => d
  end.

(** The records labelled [c], in record order. *)
Definition records_labelled (vectors_data : list vector_record)
    (cluster_labels : list Z) (c : Z) : list vector_record :=
  map snd (filter (fun p : Z * vector_record => p.1 = c) (zip cluster_labels vectors_data)).

(** The order of the sender chart: counts from left to right do not grow. *)
Definition by_count_desc (a b : string * Z) : Prop := b.2 ≤ a.2.

(** * Properties *)

Section ClusterCount.
Import VisualizeWithClustering.

(** C1. Without an explicit cluster count, [perform_clustering] selects
    [k = clamp(n // 10, 2, 5)] for [n] records and fits KMeans with it: the
    call is the library's fit with [n_clusters = k] (and [random_state = 42],
    [n_init = 10]) on the records, followed by the labels of the records and
    the centres of the fitted model; it raises what the fit raises, and it
    equals the call with [k] given explicitly. For an input of 12 records the
    count the fit receives is 2. *)
Theorem auto_cluster_count (km : kmeans_lib) (embeddings : matrix) :
  let k := clamp (len embeddings `div` 10) 2 5 in
  let fitted (count : Z) :=
    fit km {| n_clusters := count; km_random_state := 42; n_init := 10 |} embeddings in
  choose_n_clusters embeddings None = k ∧
  perform_clustering km embeddings None
    = (model <~ fitted k ;;
       Ok (map (predict km model) embeddings, cluster_centers_ km model)) ∧
  (∀ model, fitted k = Ok model →
     perform_clustering km embeddings None
       = Ok (map (predict km model) embeddings, cluster_centers_ km model)) ∧
  (∀ e, fitted k = Raise e → perform_clustering km embeddings None = Raise e) ∧
  perform_clustering km embeddings None = perform_clustering km embeddings (Some k) ∧
  (len embeddings = 12 →
     k = 2 ∧
     perform_clustering km embeddings None
       = (model <~ fitted 2 ;;
          Ok (map (predict km model) embeddings, cluster_centers_ km model))).
Proof.
  intros k fitted.
  assert (Hk : choose_n_clusters embeddings None = k).
  { unfold choose_n_clusters, k, clamp. lia. }
  assert (Hcall : perform_clustering km embeddings None
            = (model <~ fitted k ;;
               Ok (map (predict km model) embeddings, cluster_centers_ km model))).
  { unfold perform_clustering, fit_predict, fitted. rewrite Hk.
    by destruct (fit km _ embeddings). }
  split; [exact Hk|]. split; [exact Hcall|]. split; [|split; [|split]].
  - intros model Hfit. by rewrite Hcall, Hfit.
  - intros e Hfit. by rewrite Hcall, Hfit.
  - unfold perform_clustering. by rewrite Hk.
  - intros Hn. assert (k = 2) as Hk2 by (unfold k; rewrite Hn; reflexivity).
    split; [exact Hk2|]. by rewrite Hcall, Hk2.
Qed.

Lemma auto_cluster_count_witness :
  let embeddings := repeat [1; 2]%Q 12 in
  clamp (len embeddings `div` 10) 2 5 = 2 ∧
  perform_clustering Reference.nearest_centroid embeddings None
    = (model <~ fit Reference.nearest_centroid
                  {| n_clusters := 2; km_random_state := 42; n_init := 10 |} embeddings ;;
       Ok (map (predict Reference.nearest_centroid model) embeddings,
           cluster_centers_ Reference.nearest_centroid model)).
Proof.
  intros embeddings.
  destruct (auto_cluster_count Reference.nearest_centroid embeddings)
    as (_ & _ & _ & _ & _ & Htwelve).
  apply Htwelve. reflexivity.
Defined.
End ClusterCount.

Section Reduction.
Import VisualizeClusters.

Lemma reduce_dimensions_unfold (sk : reducers) embeddings method n_components :
  reduce_dimensions sk embeddings method n_components =
    (reducer <~ make_reducer embeddings method n_components ;;
     fit_transform sk reducer embeddings).
Proof.
  unfold reduce_dimensions.
  destruct (make_reducer embeddings method n_components) as [r|e]; simpl; [|done].
  by destruct (fit_transform sk r embeddings).
Qed.

(** C5, as the code has it. With the PCA method, [reduce_dimensions] checks
    no record count and raises nothing of its own: for every input it
    returns what the library's [PCA(n_components, random_state=42)] returns
    on the unchanged input. Over a library with scikit-learn's component
    check, fewer records than [n_components] fail, with the library's
    [ValueError]; so do records of fewer than [n_components] numbers. From
    [n_components] records on, of at least [n_components] numbers each, the
    reduction returns: exactly [n_components] records are enough, one more is
    not needed. *)
Theorem pca_reduction_is_the_library_call (sk : reducers) (embeddings : matrix)
    (n_components : Z) :
  pca_component_check sk → rectangular embeddings →
  reduce_dimensions sk embeddings "pca" n_components
    = fit_transform sk (PCA n_components 42) embeddings ∧
  (len embeddings < n_components →
   ∃ msg, reduce_dimensions sk embeddings "pca" n_components = Raise (ValueError msg)) ∧
  (Reference.n_features embeddings < n_components →
   ∃ msg, reduce_dimensions sk embeddings "pca" n_components = Raise (ValueError msg)) ∧
  (1 ≤ n_components → n_components ≤ len embeddings →
   n_components ≤ Reference.n_features embeddings →
   ∃ reduced, reduce_dimensions sk embeddings "pca" n_components = Ok reduced) ∧
  (1 ≤ n_components → len embeddings = n_components →
   n_components ≤ Reference.n_features embeddings →
   len embeddings < n_components + 1 ∧
   ∃ reduced, reduce_dimensions sk embeddings "pca" n_components = Ok reduced).
Proof.
  intros Hcheck Hrect.
  assert (Hcall : reduce_dimensions sk embeddings "pca" n_components
            = fit_transform sk (PCA n_components 42) embeddings)
    by (by rewrite reduce_dimensions_unfold).
  destruct (Hcheck n_components 42 embeddings Hrect) as [Haccept Hrefuse].
  split; [exact Hcall|]. rewrite Hcall.
  split; [intros Hlt; apply Hrefuse; lia|].
  split; [intros Hlt; apply Hrefuse; lia|].
  split; [intros H1 Hn Hf; apply Haccept; lia|].
  intros H1 Hn Hf. split; [lia|]. apply Haccept. lia.
Qed.

(** C5, as claimed, fails: two records reduced to two dimensions by PCA are
    accepted (scikit-learn wants [n_components <= min(n_samples,
    n_features)], which two records of dimension two meet). *)
Lemma pca_accepts_exactly_target_dimensions_records :
  let embeddings := [[1; 0]; [-1; 0]]%Q in
  len embeddings < 2 + 1 ∧
  reduce_dimensions Reference.sklearn_checks embeddings "pca" 2
    = Ok [[1; 0]; [-1; 0]]%Q.
Proof. split; reflexivity. Qed.

(** Fewer records than components are refused by the reference library, as by
    scikit-learn. *)
Lemma pca_rejects_fewer_records_than_components (embeddings : matrix)
    (n_components : Z) :
  len embeddings < n_components →
  ∃ msg, reduce_dimensions Reference.sklearn_checks embeddings "pca" n_components
           = Raise (ValueError msg).
Proof.
  intros Hlt. rewrite reduce_dimensions_unfold. simpl.
  assert (Hno : (n_components <=? Z.min (len embeddings) (Reference.n_features embeddings))
                = false) by (apply Z.leb_gt; lia).
  rewrite Hno, andb_false_r. by eexists.
Qed.

(** C6. For every record count [n], the t-SNE estimator is built with
    perplexity [min(30, n - 1)], which is at most [n - 1], at both places
    that build one; no estimator [make_reducer] builds has a perplexity
    above [n - 1]. *)
Theorem tsne_perplexity_clamped (sk : reducers) (embeddings : matrix)
    (n_components : Z) :
  let p := Z.min 30 (len embeddings - 1) in
  p ≤ len embeddings - 1 ∧
  reduce_dimensions sk embeddings "tsne" n_components
    = fit_transform sk (TSNE n_components 42 p (Some 1000)) embeddings ∧
  VisualizeWithClustering.cluster_view_reducer embeddings "tsne" = TSNE 2 42 p None ∧
  (∀ method r q,
     make_reducer embeddings method n_components = Ok r →
     perplexity_of r = Some q → q ≤ len embeddings - 1) ∧
  (∀ method q,
     perplexity_of (VisualizeWithClustering.cluster_view_reducer embeddings method)
       = Some q → q ≤ len embeddings - 1).
Proof.
  intros p. split; [lia|]. split; [by rewrite reduce_dimensions_unfold|].
  split; [done|]. split.
  - intros method r q Hr Hq. unfold make_reducer in Hr.
    destruct (String.eqb method "tsne").
    + injection Hr as <-. injection Hq as <-. lia.
    + destruct (String.eqb method "pca"); [|done].
      injection Hr as <-. done.
  - intros method q Hq. unfold VisualizeWithClustering.cluster_view_reducer in Hq.
    destruct (String.eqb method "tsne"); [|done].
    injection Hq as <-. lia.
Qed.

(** A result of [reduce_dimensions] is the library's result for the estimator
    built from a known method. *)
Lemma reduce_dimensions_inv (sk : reducers) embeddings method n_components reduced :
  reduce_dimensions sk embeddings method n_components = Ok reduced →
  (method = "tsne" ∨ method = "pca") ∧
  ∃ r, make_reducer embeddings method n_components = Ok r ∧
       fit_transform sk r embeddings = Ok reduced.
Proof.
  rewrite reduce_dimensions_unfold.
  destruct (make_reducer embeddings method n_components) as [r|e] eqn:Hr; [|done].
  simpl. intros Hred. split; [|by exists r].
  unfold make_reducer in Hr.
  destruct (String.eqb_spec method "tsne") as [->|_]; [by left|].
  destruct (String.eqb_spec method "pca") as [->|_]; [by right|done].
Qed.

End Reduction.

Section Clustering.
Import VisualizeWithClustering.

Lemma perform_clustering_labels (km : kmeans_lib) embeddings k labels centers :
  perform_clustering km embeddings k = Ok (labels, centers) →
  ∃ model,
    fit km {| n_clusters := choose_n_clusters embeddings k;
              km_random_state := 42; n_init := 10 |} embeddings = Ok model ∧
    labels = map (predict km model) embeddings.
Proof.
  unfold perform_clustering, fit_predict. intros H.
  destruct (fit km _ embeddings) as [model|e]; simpl in H; [|done].
  exists model. split; [done|]. by injection H as <- _.
Qed.

(** Records with the same vector get the same label, whatever the library. *)
Lemma identical_vectors_share_a_label (km : kmeans_lib) embeddings k labels centers :
  perform_clustering km embeddings k = Ok (labels, centers) →
  (∀ v w, v ∈ embeddings → w ∈ embeddings → v = w) →
  ∀ a b, a ∈ labels → b ∈ labels → a = b.
Proof.
  intros H Hsame a b Ha Hb.
  apply perform_clustering_labels in H as (model & _ & ->).
  apply list_elem_of_fmap in Ha as (v & -> & Hv).
  apply list_elem_of_fmap in Hb as (w & -> & Hw).
  by rewrite (Hsame v w Hv Hw).
Qed.

(** C2, as the code has it. Over a library whose [predict] answers with a
    cluster index, whenever KMeans fits the [n] records with count [k],
    [perform_clustering] returns exactly [n] labels, one per record in input
    order, each in [0 .. k-1], and records with equal vectors get equal
    labels. That every label of [0 .. k-1] is used is not part of it. *)
Theorem clustering_labels_every_record (km : kmeans_lib) (embeddings : matrix)
    (k : option Z) (model : kmeans_model km) :
  labels_in_range km →
  fit km {| n_clusters := choose_n_clusters embeddings k;
            km_random_state := 42; n_init := 10 |} embeddings = Ok model →
  ∃ labels,
    perform_clustering km embeddings k = Ok (labels, cluster_centers_ km model) ∧
    length labels = length embeddings ∧
    (∀ l, l ∈ labels → 0 ≤ l < choose_n_clusters embeddings k) ∧
    (∀ i j v, embeddings !! i = Some v → embeddings !! j = Some v →
              labels !! i = labels !! j ∧ is_Some (labels !! i)).
Proof.
  intros Hrange Hfit. exists (map (predict km model) embeddings).
  split; [unfold perform_clustering, fit_predict; by rewrite Hfit|].
  split; [by rewrite length_map|]. split.
  - intros l (v & -> & _)%list_elem_of_fmap.
    exact (Hrange _ _ _ v Hfit).
  - intros i j v Hi Hj.
    change (map (predict km model) embeddings) with (predict km model <$> embeddings).
    rewrite !list_lookup_fmap, Hi, Hj. by split.
Qed.
End Clustering.

Section ReferenceFacts.
Import Reference.

Lemma closest_from_bounds v rest : ∀ i best,
  0 ≤ fst best < i → 0 ≤ closest_from v rest i best < i + len rest.
Proof.
  unfold len. induction rest as [|c rest IH]; intros i best Hb; simpl.
  - lia.
  - destruct (Qlt_le_dec (sq_dist v c) (snd best)).
    + specialize (IH (i + 1) (i, sq_dist v c)). simpl in IH. lia.
    + specialize (IH (i + 1) best). lia.
Qed.

Lemma nearest_centroid_in_range : labels_in_range nearest_centroid.
Proof.
  intros params X model v. simpl.
  destruct (1 <=? n_clusters params) eqn:H1; simpl; [|done].
  destruct (n_clusters params <=? len X) eqn:H2; simpl; [|done].
  intros [= <-]. apply Z.leb_le in H1, H2. unfold len in H2.
  assert (Hlen : len (take (Z.to_nat (n_clusters params)) X) = n_clusters params).
  { unfold len. rewrite length_take. lia. }
  destruct (take (Z.to_nat (n_clusters params)) X) as [|c rest]; simpl.
  - unfold len in Hlen. simpl in Hlen. lia.
  - pose proof (closest_from_bounds v rest 1 (0, sq_dist v c)) as Hb.
    unfold len in Hlen, Hb. simpl in Hlen, Hb. lia.
Qed.

Lemma sklearn_checks_rows_preserved : rows_preserved sklearn_checks.
Proof.
  intros r X Y. simpl. destruct r as [nc rs p it|nc rs].
  - destruct (1 <=? nc); simpl; [|done].
    destruct ((0 <? p) && (p <? len X)); [|done].
    intros [= <-]. by rewrite length_map.
  - destruct ((0 <=? nc) && (nc <=? Z.min (len X) (n_features X))); [|done].
    intros [= <-]. by rewrite length_map.
Qed.
Lemma project_length n row : 0 ≤ n → len (project n row) = n.
Proof.
  intros Hn. unfold len, project.
  rewrite length_take, length_app, repeat_length. lia.
Qed.

Lemma sklearn_checks_columns : columns_as_requested sklearn_checks.
Proof.
  intros r X Y row. simpl. destruct r as [nc rs p it|nc rs]; simpl.
  - destruct (Z.leb_spec 1 nc); simpl; [|done].
    destruct ((0 <? p) && (p <? len X)); [|done].
    intros [= <-] (v & -> & _)%list_elem_of_fmap. apply project_length. lia.
  - destruct (Z.leb_spec 0 nc); simpl; [|done].
    destruct (nc <=? Z.min (len X) (n_features X)); [|done].
    intros [= <-] (v & -> & _)%list_elem_of_fmap. by apply project_length.
Qed.


Lemma sklearn_checks_perplexity_check : tsne_perplexity_check sklearn_checks.
Proof.
  intros nc rs p it X Hno. simpl.
  destruct (1 <=? nc); simpl; [|by eexists].
  destruct (Z.ltb_spec 0 p), (Z.ltb_spec p (len X)); simpl; try (by eexists). lia.
Qed.

Lemma sklearn_checks_component_check : pca_component_check sklearn_checks.
Proof.
  intros nc rs X _. simpl. split.
  - intros [H1 H2].
    rewrite (proj2 (Z.leb_le 0 nc)) by lia.
    rewrite (proj2 (Z.leb_le nc _) H2). by eexists.
  - intros Hlt. rewrite (proj2 (Z.leb_gt nc _) Hlt), andb_false_r. by eexists.
Qed.
End ReferenceFacts.

Section ClusteringRuns.
Import VisualizeWithClustering Reference.

Lemma clustering_labels_every_record_witness :
  let embeddings := [[1; 2]; [5; 5]; [1; 3]; [6; 5]; [1; 2]]%Q in
  ∃ labels,
    perform_clustering nearest_centroid embeddings (Some 2)
      = Ok (labels, [[1; 2]; [5; 5]]%Q) ∧
    length labels = 5%nat ∧
    (∀ l, l ∈ labels → 0 ≤ l < 2) ∧
    (∀ i j v, embeddings !! i = Some v → embeddings !! j = Some v →
              labels !! i = labels !! j ∧ is_Some (labels !! i)).
Proof.
  intros embeddings.
  apply (clustering_labels_every_record nearest_centroid embeddings (Some 2)
           [[1; 2]; [5; 5]]%Q nearest_centroid_in_range).
  reflexivity.
Defined.

(** C2, as claimed, fails: twelve records with one and the same vector,
    clustered with the auto-selected count 2, all get the label 0; the label
    1 is assigned to no record. By [identical_vectors_share_a_label] this is
    so for every library, not only for the reference one. *)
Lemma identical_records_leave_a_label_unused :
  let embeddings := repeat [1; 2]%Q 12 in
  ∃ labels centers,
    perform_clustering nearest_centroid embeddings None = Ok (labels, centers) ∧
    length labels = 12%nat ∧
    ¬ dense labels (choose_n_clusters embeddings None).
Proof.
  intros embeddings. exists (repeat 0 12), [[1; 2]; [1; 2]]%Q.
  split; [reflexivity|]. split; [reflexivity|].
  intros Hdense. destruct (Hdense 1) as [_ H1].
  assert (Hin : 1 ∈ repeat 0 12) by (apply H1; vm_compute; split; [discriminate|reflexivity]).
  simpl in Hin.
  repeat (apply elem_of_cons in Hin as [Hin|Hin]; [discriminate|]).
  by apply elem_of_nil in Hin.
Qed.
End ClusteringRuns.

Section Fetching.
Import VisualizeClusters.
Variable rt : runtime.
Variable sk : reducers.
Variable args : arguments.

Lemma main_fetch_raise net e :
  fetch_vectors_from_elasticsearch net = Raise e →
  main rt sk args net = nothing_written (Raise e).
Proof. unfold main. by intros ->. Qed.

Lemma main_fetch_empty net :
  fetch_vectors_from_elasticsearch net = Ok [] →
  main rt sk args net = nothing_written (Ok tt).
Proof. unfold main. by intros ->. Qed.

Lemma fetch_vectors_ok_status net r :
  es_search net = Ok r → status_code r = 200 →
  fetch_vectors_from_elasticsearch net =
    (body <~ json r ;; hits <~ getitem "hits" (body_hits body) ;; mapM vector_of_hit hits).
Proof.
  unfold fetch_vectors_from_elasticsearch. intros -> Hs. simpl. by rewrite Hs.
Qed.

Lemma fetch_vectors_error_status net r :
  es_search net = Ok r → status_code r ≠ 200 →
  fetch_vectors_from_elasticsearch net = Ok [].
Proof.
  unfold fetch_vectors_from_elasticsearch. intros -> Hs. simpl.
  by destruct (Z.eqb_spec (status_code r) 200).
Qed.

(** C3, as the code has it. A request that raises, and a 200 response whose
    body is not a record batch, raise out of [fetch_vectors_from_elasticsearch];
    every exception of the fetch ends the run with nothing written. A 200
    response with no hits returns the empty sequence, and so does every
    response with another status, whatever its body: the run then ends
    normally with nothing written. *)
Theorem fetch_failure_and_absence (net : network) :
  (∀ e, es_search net = Raise e →
     fetch_vectors_from_elasticsearch net = Raise e ∧
     main rt sk args net = nothing_written (Raise e)) ∧
  (∀ r e, es_search net = Ok r → status_code r = 200 → json r = Raise e →
     fetch_vectors_from_elasticsearch net = Raise e ∧
     main rt sk args net = nothing_written (Raise e)) ∧
  (∀ r body, es_search net = Ok r → status_code r = 200 → json r = Ok body →
     body_hits body = None →
     fetch_vectors_from_elasticsearch net = Raise (KeyError "hits") ∧
     main rt sk args net = nothing_written (Raise (KeyError "hits"))) ∧
  (∀ r body, es_search net = Ok r → status_code r = 200 → json r = Ok body →
     body_hits body = Some [] →
     fetch_vectors_from_elasticsearch net = Ok [] ∧
     main rt sk args net = nothing_written (Ok tt)) ∧
  (∀ r, es_search net = Ok r → status_code r ≠ 200 →
     fetch_vectors_from_elasticsearch net = Ok [] ∧
     main rt sk args net = nothing_written (Ok tt)) ∧
  (∀ e, fetch_vectors_from_elasticsearch net = Raise e →
     main rt sk args net = nothing_written (Raise e)).
Proof.
  assert (Hraise : ∀ e, fetch_vectors_from_elasticsearch net = Raise e →
            fetch_vectors_from_elasticsearch net = Raise e ∧
            main rt sk args net = nothing_written (Raise e))
    by (intros e He; split; [done | by apply main_fetch_raise]).
  assert (Hempty : fetch_vectors_from_elasticsearch net = Ok [] →
            fetch_vectors_from_elasticsearch net = Ok [] ∧
            main rt sk args net = nothing_written (Ok tt))
    by (intros He; split; [done | by apply main_fetch_empty]).
  split; [|split; [|split; [|split; [|split]]]].
  6: by intros e He; apply main_fetch_raise.
  - intros e He. apply Hraise. unfold fetch_vectors_from_elasticsearch. by rewrite He.
  - intros r e Hr Hs Hj. apply Hraise.
    rewrite (fetch_vectors_ok_status net r Hr Hs), Hj. done.
  - intros r body Hr Hs Hj Hh. apply Hraise.
    rewrite (fetch_vectors_ok_status net r Hr Hs), Hj. simpl. by rewrite Hh.
  - intros r body Hr Hs Hj Hh. apply Hempty.
    rewrite (fetch_vectors_ok_status net r Hr Hs), Hj. simpl. by rewrite Hh.
  - intros r Hr Hs. apply Hempty. by apply (fetch_vectors_error_status net r).
Qed.

Lemma fetch_messages_error_status net r :
  api_messages net = Ok r → status_code r ≠ 200 →
  fetch_messages_from_api net = Ok ∅.
Proof.
  unfold fetch_messages_from_api. intros -> Hs. simpl.
  by destruct (Z.eqb_spec (status_code r) 200).
Qed.
End Fetching.

Section Statistics.
Import VisualizeClusters.

Lemma sum_values_incr k d : sum (values (incr k d)) = sum (values d) + 1.
Proof.
  unfold sum, values. induction d as [|[k' n] d IH]; simpl; [done|].
  destruct (String.eqb k' k); simpl; lia.
Qed.

Lemma count_records_type_sum messages_map vectors_data : ∀ acc,
  sum (values (type_counts (fold_left (count_record messages_map) vectors_data acc)))
    = sum (values (type_counts acc)) + len vectors_data.
Proof.
  unfold len. induction vectors_data as [|vec rest IH]; intros acc; simpl; [lia|].
  rewrite IH. simpl. rewrite sum_values_incr. lia.
Qed.

Lemma count_records_cluster_sum messages_map vectors_data : ∀ acc,
  sum (values (cluster_counts (fold_left (count_record messages_map) vectors_data acc)))
    = sum (values (cluster_counts acc)) + len (with_cluster vectors_data).
Proof.
  unfold len, with_cluster.
  induction vectors_data as [|vec rest IH]; intros acc; simpl; [lia|].
  rewrite IH. simpl. rewrite filter_cons.
  destruct (vec_clusterId vec) as [cluster_id|] eqn:Hc.
  - rewrite decide_True by (by eexists). rewrite sum_values_incr. simpl. lia.
  - rewrite decide_False by (by intros [? [=]]). done.
Qed.

Lemma count_doc_types_sum vectors_data : ∀ acc,
  sum (values (fold_left (fun doc_types vec => incr (vec_type vec) doc_types)
                 vectors_data acc))
    = sum (values acc) + len vectors_data.
Proof.
  unfold len. induction vectors_data as [|vec rest IH]; intros acc; simpl; [lia|].
  rewrite IH, sum_values_incr. lia.
Qed.

Lemma with_cluster_length vectors_data :
  len (with_cluster vectors_data) ≤ len vectors_data.
Proof. unfold len, with_cluster. pose proof (length_filter (fun vec => is_Some (vec_clusterId vec)) vectors_data). lia. Qed.

Lemma with_cluster_drops vectors_data vec :
  vec ∈ vectors_data → vec_clusterId vec = None →
  len (with_cluster vectors_data) < len vectors_data.
Proof.
  intros Hin Hnone. induction vectors_data as [|v rest IH]; [by apply elem_of_nil in Hin|].
  unfold len, with_cluster in *. rewrite filter_cons.
  apply elem_of_cons in Hin as [<-|Hin].
  - rewrite decide_False by (rewrite Hnone; by intros [? [=]]).
    pose proof (length_filter (fun vec => is_Some (vec_clusterId vec)) rest).
    simpl. lia.
  - specialize (IH Hin). destruct (decide _); simpl; lia.
Qed.

(** C10. In the statistics view the counts by message type and the counts by
    document kind each sum to the number of records. The counts by cluster
    sum to the number of records that carry a cluster id: a record without
    one is counted under no cluster, so as soon as one record lacks a cluster
    id the cluster counts sum to fewer than the number of records. *)
Theorem statistics_totals (vectors_data : list vector_record)
    (messages_map : gmap string metadata) :
  ∃ types type_values clusters cluster_values senders sender_values kinds kind_values,
    fig_data (create_statistics_view vectors_data messages_map) =
      [(Pie types type_values "Message Types", Some (1, 1));
       (Bar clusters cluster_values "Clusters" None None, Some (1, 2));
       (Bar senders sender_values "Top Senders" None None, Some (2, 1));
       (Pie kinds kind_values "Document Types", Some (2, 2))] ∧
    sum type_values = len vectors_data ∧
    sum kind_values = len vectors_data ∧
    sum cluster_values = len (with_cluster vectors_data) ∧
    sum cluster_values ≤ len vectors_data ∧
    (∀ vec, vec ∈ vectors_data → vec_clusterId vec = None →
            sum cluster_values < len vectors_data).
Proof.
  do 8 eexists. split; [reflexivity|].
  unfold count_records, count_doc_types.
  rewrite count_records_type_sum, count_records_cluster_sum, count_doc_types_sum.
  simpl. pose proof (with_cluster_length vectors_data).
  repeat split; try lia.
  intros vec Hin Hnone. pose proof (with_cluster_drops _ _ Hin Hnone). lia.
Qed.

Lemma count_records_unknown_sender vectors_data : ∀ acc n,
  sender_counts acc = [("UNKNOWN", n)] →
  sender_counts (fold_left (count_record ∅) vectors_data acc)
    = [("UNKNOWN", n + len vectors_data)].
Proof.
  unfold len. induction vectors_data as [|vec rest IH]; intros acc n Hacc; simpl.
  - rewrite Hacc. do 2 f_equal. lia.
  - rewrite (IH _ (n + 1)).
    + do 2 f_equal. lia.
    + simpl. rewrite lookup_empty, Hacc. reflexivity.
Qed.

Lemma statistics_without_metadata vec rest :
  fig_data (create_statistics_view (vec :: rest) ∅) !! 2%nat
    = Some (Bar ["UNKNOWN"] [len (vec :: rest)] "Top Senders" None None, Some (2, 1)).
Proof.
  unfold create_statistics_view, count_records. simpl fold_left.
  rewrite (count_records_unknown_sender rest _ 1) by (simpl; by rewrite lookup_empty).
  simpl. do 4 f_equal. unfold len. simpl length. lia.
Qed.

Lemma view_is_stats args view :
  arg_view args = "stats" → view_is args view = String.eqb "stats" view.
Proof. unfold view_is. intros ->. by rewrite orb_false_r. Qed.

Lemma write_view_last fig file r :
  outcome (write_view true (Ok fig) file r) = Ok tt →
  last (written (write_view true (Ok fig) file r)) = Some (file, fig).
Proof.
  unfold write_view. destruct r as [files [[]|e]]; simpl; [|done].
  intros _. by rewrite last_snoc.
Qed.

(** The path on which a failed metadata fetch is survived. When the metadata
    request is answered with a status other than 200 and the embedding fetch
    gave at least one record, the metadata mapping is empty. A run asked for
    the statistics view alone completes and writes it; a run asked for it
    among others writes it last whenever it completes. The sender chart of
    that view attributes every record to "UNKNOWN". *)
Lemma metadata_error_status_is_recoverable (rt : runtime) (sk : reducers)
    (args : arguments) (net : network) (r : response (list api_message))
    (vectors_data : list vector_record) :
  fetch_vectors_from_elasticsearch net = Ok vectors_data →
  vectors_data ≠ [] →
  api_messages net = Ok r →
  status_code r ≠ 200 →
  fetch_messages_from_api net = Ok ∅ ∧
  (arg_view args = "stats" →
   main rt sk args net =
     {| written := [(replace ".html" "_stats.html" (arg_output args),
                     create_statistics_view vectors_data ∅)];
        outcome := Ok tt |}) ∧
  (view_is args "stats" = true →
   outcome (main rt sk args net) = Ok tt →
   last (written (main rt sk args net))
     = Some (replace ".html" "_stats.html" (arg_output args),
             create_statistics_view vectors_data ∅)) ∧
  fig_data (create_statistics_view vectors_data ∅) !! 2%nat
    = Some (Bar ["UNKNOWN"] [len vectors_data] "Top Senders" None None, Some (2, 1)).
Proof.
  intros Hvec Hne Hr Hs.
  destruct vectors_data as [|vec rest]; [done|].
  pose proof (fetch_messages_error_status net r Hr Hs) as Hmsg.
  split; [done|]. split; [|split; [|apply statistics_without_metadata]].
  - intros Hview. unfold main.
    rewrite Hvec, Hmsg, !view_is_stats by done. reflexivity.
  - intros Hview. unfold main. rewrite Hvec, Hmsg, Hview. apply write_view_last.
Qed.
End Statistics.

Section Scatter.
Import VisualizeClusters.

Lemma mapM_length {A B : Type} (f : A → result B) (l : list A) : ∀ bs,
  mapM f l = Ok bs → length bs = length l.
Proof.
  induction l as [|a l IH]; intros bs; simpl.
  - by intros [= <-].
  - destruct (f a) as [b|e]; simpl; [|done].
    destruct (mapM f l) as [bs'|e]; simpl; [|done].
    intros [= <-]. simpl. by rewrite (IH bs').
Qed.

Lemma column_length j reduced xs :
  column j reduced = Ok xs → length xs = length reduced.
Proof. apply mapM_length. Qed.

Lemma column_lookup j reduced : ∀ xs i,
  column j reduced = Ok xs →
  xs !! i = reduced !! i ≫= (fun row => row !! j).
Proof.
  unfold column. induction reduced as [|row rest IH]; intros xs i; simpl.
  - by intros [= <-].
  - destruct (row !! j) as [q|] eqn:Hq; simpl; [|done].
    destruct (mapM _ rest) as [qs|e]; simpl; [|done].
    intros [= <-]. destruct i as [|i]; simpl; [done|]. by apply IH.
Qed.

Lemma reduce_dimensions_rows (sk : reducers) embeddings method n_components reduced :
  rows_preserved sk →
  reduce_dimensions sk embeddings method n_components = Ok reduced →
  length reduced = length embeddings.
Proof.
  intros Hrows. rewrite reduce_dimensions_unfold.
  destruct (make_reducer embeddings method n_components) as [r|e]; simpl; [|done].
  apply Hrows.
Qed.

Lemma column_defined j reduced :
  (∀ row, row ∈ reduced → (j < length row)%nat) →
  ∃ xs, column j reduced = Ok xs.
Proof.
  unfold column. induction reduced as [|row rest IH]; intros Hrows; simpl.
  - by eexists.
  - destruct (lookup_lt_is_Some_2 row j) as [q ->]; [apply Hrows; by left|].
    destruct IH as [xs ->]; [intros r Hr; apply Hrows; by right|].
    by eexists.
Qed.

(** The scatter view is built whenever the reduction returns: over a library
    that returns the requested number of columns, nothing after the reduction
    can raise. *)
Lemma scatter_view_is_built (rt : runtime) (sk : reducers)
    (vectors_data : list vector_record) (messages_map : gmap string metadata)
    (method : string) (reduced : matrix) :
  columns_as_requested sk →
  reduce_dimensions sk (map vec_embedding vectors_data) method 2 = Ok reduced →
  ∃ fig, create_2d_visualization rt sk vectors_data messages_map method = Ok fig.
Proof.
  intros Hcols Hred. unfold create_2d_visualization. rewrite Hred. simpl.
  assert (Hlen : ∀ row, row ∈ reduced → length row = 2%nat).
  { rewrite reduce_dimensions_unfold in Hred.
    destruct (make_reducer _ method 2) as [r|e] eqn:Hr; [|done]. simpl in Hred.
    intros row Hrow. pose proof (Hcols _ _ _ _ Hred Hrow) as Hn.
    assert (n_components_of r = 2).
    { unfold make_reducer in Hr. destruct (String.eqb method "tsne"); [by injection Hr as <-|].
      destruct (String.eqb method "pca"); [by injection Hr as <-|done]. }
    unfold len in Hn. lia. }
  destruct (column_defined 0 reduced) as [x ->];
    [intros row Hrow; rewrite (Hlen row Hrow); lia|].
  destruct (column_defined 1 reduced) as [y ->];
    [intros row Hrow; rewrite (Hlen row Hrow); lia|].
  by eexists.
Qed.

Lemma scatter_points (rt : runtime) (sk : reducers)
    (vectors_data : list vector_record) (messages_map : gmap string metadata)
    (method : string) (fig : figure) :
  rows_preserved sk →
  create_2d_visualization rt sk vectors_data messages_map method = Ok fig →
  point_count fig = length vectors_data ∧
  ∃ x y sizes colors symbols text hovertext,
    fig_data fig =
      [(Scatter x y "markers"
          {| marker_size := SizeEach sizes;
             marker_color := ColorEach colors;
             marker_colorscale := Some "Viridis";
             marker_symbol := Some symbols;
             marker_line := Some (1%Q, "white");
             marker_opacity := None |}
          (Some text) (Some hovertext) (Some "text") "Messages" None, None)] ∧
    length x = length vectors_data ∧
    length y = length vectors_data ∧
    length sizes = length vectors_data ∧
    length colors = length vectors_data ∧
    length symbols = length vectors_data ∧
    length text = length vectors_data ∧
    length hovertext = length vectors_data ∧
    (∃ reduced,
       reduce_dimensions sk (map vec_embedding vectors_data) method 2 = Ok reduced ∧
       ∀ i, x !! i = reduced !! i ≫= (fun row => row !! 0%nat) ∧
            y !! i = reduced !! i ≫= (fun row => row !! 1%nat)) ∧
    (∀ i vec, vectors_data !! i = Some vec →
       messages_map !! vec_referenceId vec = None →
       text !! i = Some "UNKNOWN" ∧
       hovertext !! i = Some (hover_text_2d vec None)).
Proof.
  intros Hrows. unfold create_2d_visualization.
  destruct (reduce_dimensions sk _ method 2) as [reduced|e] eqn:Hred; simpl; [|done].
  destruct (column 0 reduced) as [x|e] eqn:Hx; simpl; [|done].
  destruct (column 1 reduced) as [y|e] eqn:Hy; simpl; [|done].
  intros [= <-].
  pose proof (reduce_dimensions_rows _ _ _ _ _ Hrows Hred) as Hlen.
  rewrite length_map in Hlen.
  pose proof (column_length _ _ _ Hx) as Hlx.
  pose proof (column_length _ _ _ Hy) as Hly.
  split; [unfold point_count; simpl; lia|].
  do 7 eexists. split; [reflexivity|].
  unfold hash_colors. rewrite !length_map.
  do 7 (split; [lia|]).
  split.
  { exists reduced. split; [done|]. intros i.
    by rewrite (column_lookup _ _ _ i Hx), (column_lookup _ _ _ i Hy). }
  intros i vec Hi Hnone. split.
  - change (map pt_color (map (point_2d messages_map) vectors_data))
      with (pt_color <$> (point_2d messages_map <$> vectors_data)).
    rewrite !list_lookup_fmap, Hi. simpl. unfold msg_get. by rewrite Hnone.
  - change (map pt_hover (map (point_2d messages_map) vectors_data))
      with (pt_hover <$> (point_2d messages_map <$> vectors_data)).
    rewrite !list_lookup_fmap, Hi. simpl. by rewrite Hnone.
Qed.

(** What the plotting loop appends for record [i]. *)
Lemma scatter_point_values (rt : runtime) (messages_map : gmap string metadata)
    (vectors_data : list vector_record) i vec :
  vectors_data !! i = Some vec →
  let points := map (point_2d messages_map) vectors_data in
  map pt_size points !! i = Some (pt_size (point_2d messages_map vec)) ∧
  map pt_symbol points !! i = Some (pt_symbol (point_2d messages_map vec)) ∧
  map pt_color points !! i = Some (pt_color (point_2d messages_map vec)) ∧
  hash_colors rt (map pt_color points) !! i
    = Some (hash rt (pt_color (point_2d messages_map vec)) `mod` 360) ∧
  map pt_hover points !! i = Some (pt_hover (point_2d messages_map vec)).
Proof.
  intros Hi points. unfold points, hash_colors.
  change (map ?f ?l) with (f <$> l).
  by rewrite !list_lookup_fmap, Hi.
Qed.

(** C9, as the code has it. Over a library that keeps scikit-learn's shape
    contract (one row per sample, the requested number of columns): when the
    reduction of the fetched embeddings raises, the scatter view raises the
    same exception and draws nothing; whenever it returns, the view is built
    and draws exactly one point per fetched record, in the order of the
    records. Record [i] is drawn at the first two coordinates of row [i], as a
    star of size 20 when it is a template and as a circle of size 10
    otherwise, labelled and coloured by its message type. A record whose
    [referenceId] has no metadata entry is drawn all the same, with the label
    "UNKNOWN" and a hover text whose sender, receiver and status read "N/A"
    and whose template reads "None". *)
Theorem scatter_renders_every_record (rt : runtime) (sk : reducers)
    (vectors_data : list vector_record) (messages_map : gmap string metadata)
    (method : string) :
  rows_preserved sk →
  columns_as_requested sk →
  let embeddings := map vec_embedding vectors_data in
  (∀ e, reduce_dimensions sk embeddings method 2 = Raise e →
     create_2d_visualization rt sk vectors_data messages_map method = Raise e) ∧
  (pca_component_check sk → tsne_perplexity_check sk → length vectors_data = 1%nat →
     ∃ msg, create_2d_visualization rt sk vectors_data messages_map method
              = Raise (ValueError msg)) ∧
  (∀ reduced, reduce_dimensions sk embeddings method 2 = Ok reduced →
   ∃ fig x y sizes colors symbols text hovertext,
    create_2d_visualization rt sk vectors_data messages_map method = Ok fig ∧
    point_count fig = length vectors_data ∧
    fig_data fig =
      [(Scatter x y "markers"
          {| marker_size := SizeEach sizes;
             marker_color := ColorEach colors;
             marker_colorscale := Some "Viridis";
             marker_symbol := Some symbols;
             marker_line := Some (1%Q, "white");
             marker_opacity := None |}
          (Some text) (Some hovertext) (Some "text") "Messages" None, None)] ∧
    length x = length vectors_data ∧
    length y = length vectors_data ∧
    length sizes = length vectors_data ∧
    length colors = length vectors_data ∧
    length symbols = length vectors_data ∧
    length text = length vectors_data ∧
    length hovertext = length vectors_data ∧
    (∀ i, x !! i = reduced !! i ≫= (fun row => row !! 0%nat) ∧
          y !! i = reduced !! i ≫= (fun row => row !! 1%nat)) ∧
    (∀ i vec, vectors_data !! i = Some vec →
       is_Some (x !! i) ∧ is_Some (y !! i) ∧
       sizes !! i = Some (if String.eqb (vec_type vec) "TEMPLATE" then 20 else 10) ∧
       symbols !! i
         = Some (if String.eqb (vec_type vec) "TEMPLATE" then "star" else "circle") ∧
       (∀ md, messages_map !! vec_referenceId vec = Some md →
          text !! i = Some (meta_messageType md) ∧
          colors !! i = Some (hash rt (meta_messageType md) `mod` 360) ∧
          hovertext !! i = Some (
            nl +:+ "        <b>ID:</b> " +:+ str_take 12 (vec_referenceId vec) +:+ "...<br>" +:+
            nl +:+ "        <b>Type:</b> " +:+ meta_messageType md +:+ "<br>" +:+
            nl +:+ "        <b>Sender:</b> " +:+ meta_senderId md +:+ "<br>" +:+
            nl +:+ "        <b>Receiver:</b> " +:+ meta_receiverId md +:+ "<br>" +:+
            nl +:+ "        <b>Status:</b> " +:+ meta_status md +:+ "<br>" +:+
            nl +:+ "        <b>Cluster:</b> " +:+ default "None" (vec_clusterId vec) +:+ "<br>" +:+
            nl +:+ "        <b>Template:</b> " +:+
              match meta_templateId md with
              | Some (String c t) => str_take 12 (String c t)
              | _ => "None"
              end +:+
            nl +:+ "        ")) ∧
       (messages_map !! vec_referenceId vec = None →
          text !! i = Some "UNKNOWN" ∧
          colors !! i = Some (hash rt "UNKNOWN" `mod` 360) ∧
          hovertext !! i = Some (
            nl +:+ "        <b>ID:</b> " +:+ str_take 12 (vec_referenceId vec) +:+ "...<br>" +:+
            nl +:+ "        <b>Type:</b> UNKNOWN<br>" +:+
            nl +:+ "        <b>Sender:</b> N/A<br>" +:+
            nl +:+ "        <b>Receiver:</b> N/A<br>" +:+
            nl +:+ "        <b>Status:</b> N/A<br>" +:+
            nl +:+ "        <b>Cluster:</b> " +:+ default "None" (vec_clusterId vec) +:+ "<br>" +:+
            nl +:+ "        <b>Template:</b> None" +:+
            nl +:+ "        ")))).
Proof.
  intros Hrows Hcols embeddings.
  assert (Hraise : ∀ e, reduce_dimensions sk embeddings method 2 = Raise e →
            create_2d_visualization rt sk vectors_data messages_map method = Raise e).
  { intros e He. unfold create_2d_visualization. fold embeddings. by rewrite He. }
  split; [exact Hraise|]. split.
  { intros Hpca Htsne Hone.
    assert (∃ msg, reduce_dimensions sk embeddings method 2 = Raise (ValueError msg))
      as [msg Hmsg]; [|exists msg; by apply Hraise].
    assert (Hlen : len embeddings = 1)
      by (unfold len, embeddings; rewrite length_map, Hone; done).
    rewrite reduce_dimensions_unfold. unfold make_reducer.
    destruct (String.eqb method "tsne"); simpl.
    - apply Htsne. lia.
    - destruct (String.eqb method "pca"); simpl; [|by eexists].
      apply Hpca; [|lia].
      unfold embeddings. destruct vectors_data as [|vec [|? ?]]; try done.
      intros row Hrow. by apply list_elem_of_singleton in Hrow as ->. }
  intros reduced Hred.
  destruct (scatter_view_is_built rt sk vectors_data messages_map method reduced
              Hcols Hred) as [fig Hfig].
  pose proof Hfig as Hbuilt.
  unfold create_2d_visualization in Hbuilt. fold embeddings in Hbuilt.
  rewrite Hred in Hbuilt. simpl in Hbuilt.
  destruct (column 0 reduced) as [x|e] eqn:Hx; simpl in Hbuilt; [|done].
  destruct (column 1 reduced) as [y|e] eqn:Hy; simpl in Hbuilt; [|done].
  injection Hbuilt as <-.
  pose proof (reduce_dimensions_rows _ _ _ _ _ Hrows Hred) as Hlen.
  unfold embeddings in Hlen. rewrite length_map in Hlen.
  pose proof (column_length _ _ _ Hx) as Hlx.
  pose proof (column_length _ _ _ Hy) as Hly.
  do 8 eexists. split; [exact Hfig|].
  split; [unfold point_count; simpl; lia|].
  split; [reflexivity|].
  unfold hash_colors. rewrite !length_map.
  do 7 (split; [lia|]).
  split.
  { intros i. by rewrite (column_lookup _ _ _ i Hx), (column_lookup _ _ _ i Hy). }
  intros i vec Hi.
  destruct (scatter_point_values rt messages_map vectors_data i vec Hi)
    as (Hsize & Hsymbol & Hcolor & Hhash & Hhover).
  pose proof (lookup_lt_Some _ _ _ Hi) as Hlt.
  split; [apply lookup_lt_is_Some; lia|]. split; [apply lookup_lt_is_Some; lia|].
  split; [rewrite Hsize; simpl; by destruct (String.eqb (vec_type vec) "TEMPLATE")|].
  split; [rewrite Hsymbol; simpl; by destruct (String.eqb (vec_type vec) "TEMPLATE")|].
  split.
  - intros md Hmd. fold (hash_colors rt (map pt_color (map (point_2d messages_map) vectors_data))).
    rewrite Hcolor, Hhash, Hhover. simpl. rewrite Hmd. simpl.
    split; [done|]. split; [done|].
    unfold hover_text_2d, template_text, cluster_text, msg_get. simpl.
    by destruct (meta_templateId md) as [[|c t]|].
  - intros Hnone. fold (hash_colors rt (map pt_color (map (point_2d messages_map) vectors_data))).
    rewrite Hcolor, Hhash, Hhover. simpl. rewrite Hnone. simpl.
    split; [done|]. split; [done|]. reflexivity.
Qed.
End Scatter.

Section Reproducibility.
Import VisualizeClusters.

Lemma blank_write_view wanted fig file r :
  blank_run (write_view wanted fig file r)
    = write_view wanted (rmap blank_colors fig) file (blank_run r).
Proof.
  unfold write_view, blank_run. destruct r as [files [[]|e]]; simpl; [|done].
  destruct wanted; [|done].
  destruct fig; simpl; [|done].
  by rewrite map_app.
Qed.

Lemma blank_2d rt1 rt2 sk vectors_data messages_map method :
  rmap blank_colors (create_2d_visualization rt1 sk vectors_data messages_map method)
    = rmap blank_colors (create_2d_visualization rt2 sk vectors_data messages_map method).
Proof.
  unfold create_2d_visualization.
  destruct (reduce_dimensions sk _ method 2) as [reduced|e]; simpl; [|done].
  destruct (column 0 reduced); simpl; [|done].
  by destruct (column 1 reduced).
Qed.

Lemma blank_3d rt1 rt2 sk vectors_data messages_map method :
  rmap blank_colors (create_3d_visualization rt1 sk vectors_data messages_map method)
    = rmap blank_colors (create_3d_visualization rt2 sk vectors_data messages_map method).
Proof.
  unfold create_3d_visualization.
  destruct (reduce_dimensions sk _ method 3) as [reduced|e]; simpl; [|done].
  destruct (column 0 reduced); simpl; [|done].
  destruct (column 1 reduced); simpl; [|done].
  by destruct (column 2 reduced).
Qed.

Lemma blank_comparison rt1 rt2 sk vectors_data messages_map :
  rmap blank_colors (create_cluster_comparison rt1 sk vectors_data messages_map)
    = rmap blank_colors (create_cluster_comparison rt2 sk vectors_data messages_map).
Proof.
  unfold create_cluster_comparison.
  destruct (reduce_dimensions sk _ "tsne" 2) as [tsne_2d|e]; simpl; [|done].
  destruct (reduce_dimensions sk _ "pca" 2) as [pca_2d|e]; simpl; [|done].
  destruct (column 0 tsne_2d); simpl; [|done].
  destruct (column 1 tsne_2d); simpl; [|done].
  destruct (column 0 pca_2d); simpl; [|done].
  by destruct (column 1 pca_2d).
Qed.

(** Two runs over the same upstream data, in processes whose string hashes
    differ, end the same way and write the same files with the same figures up
    to the per-point marker colours of the scatter and comparison views. *)
Lemma runs_agree_up_to_marker_colors (rt1 rt2 : runtime) (sk : reducers)
    (args : arguments) (net : network) :
  blank_run (main rt1 sk args net) = blank_run (main rt2 sk args net).
Proof.
  unfold main.
  destruct (fetch_vectors_from_elasticsearch net) as [[|vec rest]|e]; [done| |done].
  destruct (fetch_messages_from_api net) as [messages_map|e]; [|done].
  rewrite !blank_write_view. simpl rmap.
  rewrite (blank_comparison rt1 rt2).
  destruct (String.eqb (arg_dimensions args) "2d").
  - by rewrite (blank_2d rt1 rt2).
  - by rewrite (blank_3d rt1 rt2).
Qed.
End Reproducibility.

Section Runs.
Import VisualizeClusters Reference.


Lemma pca_reduction_is_the_library_call_witness :
  let embeddings := [[1; 0]; [-1; 0]]%Q in
  len embeddings < 2 + 1 ∧
  ∃ reduced, reduce_dimensions sklearn_checks embeddings "pca" 2 = Ok reduced.
Proof.
  intros embeddings.
  destruct (pca_reduction_is_the_library_call sklearn_checks embeddings 2
              sklearn_checks_component_check)
    as (_ & _ & _ & _ & Hexact).
  - intros row Hrow. unfold embeddings in Hrow.
    repeat (apply elem_of_cons in Hrow as [->|Hrow]; [reflexivity|]).
    by apply elem_of_nil in Hrow.
  - apply Hexact; (reflexivity || (vm_compute; discriminate)).
Defined.

Lemma fetch_failure_and_absence_witness :
  (fetch_vectors_from_elasticsearch search_unreachable = Raise ConnectionError ∧
   main (process 0) sklearn_checks (args "all") search_unreachable
     = nothing_written (Raise ConnectionError)) ∧
  (fetch_vectors_from_elasticsearch search_outage = Ok [] ∧
   main (process 0) sklearn_checks (args "all") search_outage
     = nothing_written (Ok tt)).
Proof.
  pose proof (fetch_failure_and_absence (process 0) sklearn_checks (args "all")) as H.
  split.
  - destruct (H search_unreachable) as (H1 & _). apply H1. reflexivity.
  - destruct (H search_outage) as (_ & _ & _ & _ & H5 & _).
    apply (H5 {| status_code := 503; text := "Service Unavailable";
                 json := Raise JSONDecodeError |}); [reflexivity|].
    simpl. lia.
Defined.

Lemma tsne_perplexity_clamped_witness :
  let embeddings := map vec_embedding fetched_records in
  Z.min 30 (len embeddings - 1) = 4 ∧
  4 ≤ len embeddings - 1 ∧
  reduce_dimensions sklearn_checks embeddings "tsne" 2
    = fit_transform sklearn_checks (TSNE 2 42 4 (Some 1000)) embeddings.
Proof.
  intros embeddings.
  destruct (tsne_perplexity_clamped sklearn_checks embeddings 2) as (Hle & Hcall & _).
  split; [reflexivity|]. split; [exact Hle | exact Hcall].
Defined.

Lemma statistics_totals_witness :
  ∃ types type_values clusters cluster_values senders sender_values kinds kind_values,
    fig_data (create_statistics_view fetched_records fetched_metadata) =
      [(Pie types type_values "Message Types", Some (1, 1));
       (Bar clusters cluster_values "Clusters" None None, Some (1, 2));
       (Bar senders sender_values "Top Senders" None None, Some (2, 1));
       (Pie kinds kind_values "Document Types", Some (2, 2))] ∧
    sum type_values = 5 ∧
    sum kind_values = 5 ∧
    sum cluster_values = 3.
Proof.
  destruct (statistics_totals fetched_records fetched_metadata)
    as (t & tv & c & cv & s & sv & k & kv & Hdata & Ht & Hk & Hc & _).
  exists t, tv, c, cv, s, sv, k, kv.
  split; [exact Hdata|]. split; [by rewrite Ht|]. split; [by rewrite Hk|].
  by rewrite Hc.
Defined.

(** C3, as claimed, fails: a 503 answer whose body cannot be parsed is not
    an error of the fetch. It returns the empty sequence, the value it returns
    for a store without records, and the run ends the same way in both. *)
Lemma error_status_is_read_as_no_data :
  fetch_vectors_from_elasticsearch search_outage = Ok [] ∧
  fetch_vectors_from_elasticsearch empty_store = Ok [] ∧
  main (process 0) sklearn_checks (args "all") search_outage
    = main (process 0) sklearn_checks (args "all") empty_store.
Proof. repeat split; reflexivity. Qed.

(** C4 on the code: the metadata service cannot be reached and the embedding
    fetch gives its five records. The metadata fetch raises, nothing catches
    the exception, and the run ends with it: no mapping, no statistics view.
    The same run with the metadata service answering 500 completes
    ([metadata_error_status_is_recoverable]). *)
Theorem metadata_outage_aborts_the_run :
  fetch_vectors_from_elasticsearch metadata_unreachable = Ok fetched_records ∧
  length fetched_records = 5%nat ∧
  fetch_messages_from_api metadata_unreachable = Raise ConnectionError ∧
  main (process 0) sklearn_checks (args "stats") metadata_unreachable
    = nothing_written (Raise ConnectionError).
Proof. repeat split; reflexivity. Qed.

Lemma metadata_error_status_run :
  fetch_messages_from_api metadata_error_status = Ok ∅ ∧
  main (process 0) sklearn_checks (args "stats") metadata_error_status =
    {| written := [("cluster_visualization_stats.html",
                    create_statistics_view fetched_records ∅)];
       outcome := Ok tt |} ∧
  fig_data (create_statistics_view fetched_records ∅) !! 2%nat
    = Some (Bar ["UNKNOWN"] [5] "Top Senders" None None, Some (2, 1)).
Proof.
  destruct (metadata_error_status_is_recoverable (process 0) sklearn_checks
              (args "stats") metadata_error_status
              {| status_code := 500; text := "Internal Server Error";
                 json := Raise JSONDecodeError |} fetched_records)
    as (Hmap & Hrun & _ & Hchart).
  - reflexivity.
  - vm_compute. discriminate.
  - reflexivity.
  - simpl. lia.
  - split; [exact Hmap|]. split; [exact (Hrun eq_refl) | exact Hchart].
Defined.

Lemma scatter_renders_every_record_witness :
  (∃ fig,
     create_2d_visualization (process 0) sklearn_checks fetched_records
       fetched_metadata "pca" = Ok fig ∧
     point_count fig = 5%nat) ∧
  (∃ msg,
     create_2d_visualization (process 0) sklearn_checks (take 1 fetched_records)
       fetched_metadata "tsne" = Raise (ValueError msg)).
Proof.
  split.
  - destruct (scatter_renders_every_record (process 0) sklearn_checks fetched_records
                fetched_metadata "pca"
                sklearn_checks_rows_preserved sklearn_checks_columns)
      as (_ & _ & Hbuilt).
    destruct (Hbuilt [[1; 0]; [0; 1]; [3; 1]; [1; 1]; [2; 2]]%Q)
      as (fig & _ & _ & _ & _ & _ & _ & _ & Hfig & Hcount & _).
    + reflexivity.
    + exists fig. split; [exact Hfig | exact Hcount].
  - destruct (scatter_renders_every_record (process 0) sklearn_checks
                (take 1 fetched_records) fetched_metadata "tsne"
                sklearn_checks_rows_preserved sklearn_checks_columns)
      as (_ & Hone & _).
    apply Hone; [exact sklearn_checks_component_check
                | exact sklearn_checks_perplexity_check | reflexivity].
Defined.

(** C9, as claimed, fails: the store holds one record and the fetch returns
    it, but scikit-learn refuses to reduce a single record with either
    method (PCA wants [n_components <= min(n_samples, n_features)], t-SNE a
    perplexity below the number of samples, and [min(30, 1 - 1)] is 0). The
    scatter view raises, the run ends with the exception, and no point is
    rendered for the record fetched. *)
Lemma single_record_is_not_rendered :
  let vectors_data :=
    [{| vec_id := "e-m1"; vec_type := "MESSAGE"; vec_embedding := [1; 0; 2]%Q;
        vec_clusterId := Some "c1"; vec_referenceId := "m1"; vec_preview := "" |}] in
  fetch_vectors_from_elasticsearch single_record = Ok vectors_data ∧
  length vectors_data = 1%nat ∧
  create_2d_visualization (process 0) sklearn_checks vectors_data fetched_metadata "pca"
    = Raise (ValueError "n_components must be between 0 and min(n_samples, n_features)") ∧
  create_2d_visualization (process 0) sklearn_checks vectors_data fetched_metadata "tsne"
    = Raise (ValueError "perplexity must be positive and less than n_samples") ∧
  main (process 0) sklearn_checks (args "scatter") single_record
    = nothing_written
        (Raise (ValueError "n_components must be between 0 and min(n_samples, n_features)")).
Proof. repeat split; reflexivity. Qed.

(** C8 on the code: the same upstream data, the same estimators and the same
    arguments, run in two processes that differ in the salt of the string
    hash. The scatter files differ; they differ in the marker colours only. *)
Theorem scatter_view_depends_on_the_hash_salt :
  let run salt := main (process salt) sklearn_checks (args "scatter") healthy in
  run 0 ≠ run 1 ∧
  outcome (run 0) = Ok tt ∧
  outcome (run 1) = Ok tt ∧
  blank_run (run 0) = blank_run (run 1).
Proof.
  intros run. split; [|split; [|split]].
  2, 3: by vm_compute.
  2: apply runs_agree_up_to_marker_colors.
  intros Heq.
  apply (f_equal (fun r => map (fun a => map fst (fig_data (snd a))) (written r))) in Heq.
  vm_compute in Heq. discriminate Heq.
Qed.
End Runs.

(** * Further properties of the scripts *)

Section Batches.
Import VisualizeClusters.

Lemma mapM_lookup {A B : Type} (f : A → result B) (l : list A) : ∀ bs i a,
  mapM f l = Ok bs → l !! i = Some a → ∃ b, bs !! i = Some b ∧ f a = Ok b.
Proof.
  induction l as [|a' l IH]; intros bs i a; simpl; [done|].
  destruct (f a') as [b'|e] eqn:Hf; simpl; [|done].
  destruct (mapM f l) as [bs'|e]; simpl; [|done].
  intros [= <-]. destruct i as [|i]; simpl.
  - intros [= <-]. by exists b'.
  - by apply IH.
Qed.

Lemma mapM_all_ok {A B : Type} (f : A → result B) (l : list A) :
  (∀ a, a ∈ l → ∃ b, f a = Ok b) → ∃ bs, mapM f l = Ok bs.
Proof.
  induction l as [|a l IH]; intros Hall; simpl; [by eexists|].
  destruct (Hall a) as [b ->]; [by left|].
  destruct IH as [bs ->]; [intros a' Ha'; apply Hall; by right|].
  by eexists.
Qed.

Lemma mapM_raises {A B : Type} (f : A → result B) (l : list A) a e :
  a ∈ l → f a = Raise e → ∃ a' e', a' ∈ l ∧ f a' = Raise e' ∧ mapM f l = Raise e'.
Proof.
  induction l as [|a0 l IH]; intros Hin Hf; [by apply elem_of_nil in Hin|].
  simpl. destruct (f a0) as [b0|e0] eqn:Hf0; simpl.
  - apply elem_of_cons in Hin as [->|Hin]; [congruence|].
    destruct (IH Hin Hf) as (a' & e' & Ha' & Hfa' & ->).
    exists a', e'. split; [by right|done].
  - exists a0, e0. split; [by left|done].
Qed.

Lemma str_take_length n s : (String.length (str_take n s) ≤ n)%nat.
Proof.
  revert s. induction n as [|n IH]; intros [|c s]; simpl; try lia.
  specialize (IH s). lia.
Qed.

Lemma vector_of_hit_complete hit :
  complete_hit hit → preview_not_null hit → ∃ vec, vector_of_hit hit = Ok vec.
Proof.
  intros (source & Hs & [id Hid] & [type Ht] & [emb He] & [ref Hr]) Hp.
  specialize (Hp source Hs).
  unfold vector_of_hit. rewrite Hs. simpl. rewrite Hid. simpl. rewrite Ht. simpl.
  rewrite He. simpl. rewrite Hr. simpl.
  destruct (src_contentPreview source) as [[|preview]|]; simpl; [done|by eexists..].
Qed.

Lemma vector_of_hit_fields hit vec :
  vector_of_hit hit = Ok vec →
  ∃ source, hit_source hit = Some source ∧
    src_id source = Some (vec_id vec) ∧
    src_documentType source = Some (vec_type vec) ∧
    src_embedding source = Some (vec_embedding vec) ∧
    src_referenceId source = Some (vec_referenceId vec) ∧
    vec_clusterId vec = src_clusterId source ∧
    src_contentPreview source ≠ Some JNull ∧
    vec_preview vec = str_take 50 (preview_string source).
Proof.
  unfold vector_of_hit, preview_string.
  destruct (hit_source hit) as [source|]; simpl; [|done].
  destruct (src_id source) eqn:H1; simpl; [|done].
  destruct (src_documentType source) eqn:H2; simpl; [|done].
  destruct (src_embedding source) eqn:H3; simpl; [|done].
  destruct (src_referenceId source) eqn:H4; simpl; [|done].
  destruct (src_contentPreview source) as [[|preview]|] eqn:H5; simpl; [done| |];
    intros [= <-]; exists source; by rewrite H1, H2, H3, H4, H5.
Qed.

Lemma vector_of_hit_incomplete hit :
  ¬ complete_hit hit → ∃ key, vector_of_hit hit = Raise (KeyError key).
Proof.
  intros Hno. unfold vector_of_hit.
  destruct (hit_source hit) as [source|] eqn:Hs; simpl; [|by eexists].
  destruct (src_id source) eqn:H1; simpl; [|by eexists].
  destruct (src_documentType source) eqn:H2; simpl; [|by eexists].
  destruct (src_embedding source) eqn:H3; simpl; [|by eexists].
  destruct (src_referenceId source) eqn:H4; simpl; [|by eexists].
  destruct Hno. exists source. rewrite H1, H2, H3, H4. by repeat split.
Qed.

Lemma vector_of_hit_null_preview hit :
  complete_hit hit → ¬ preview_not_null hit → vector_of_hit hit = Raise TypeError.
Proof.
  intros (source & Hs & [id Hid] & [type Ht] & [emb He] & [ref Hr]) Hnull.
  unfold vector_of_hit. rewrite Hs. simpl. rewrite Hid. simpl. rewrite Ht. simpl.
  rewrite He. simpl. rewrite Hr. simpl.
  destruct (src_contentPreview source) as [[|preview]|] eqn:Hp; simpl; [done| |];
    destruct Hnull; intros source' Hs'; rewrite Hs in Hs'; injection Hs' as <-;
    by rewrite Hp.
Qed.

(** What [vector_of_hit] can raise, and on which hits. *)
Lemma vector_of_hit_raises hit e :
  vector_of_hit hit = Raise e →
  ((∃ key, e = KeyError key) ∧ ¬ complete_hit hit) ∨
  (e = TypeError ∧ complete_hit hit ∧ ¬ preview_not_null hit).
Proof.
  unfold vector_of_hit, complete_hit, preview_not_null.
  destruct (hit_source hit) as [source|] eqn:Hs; simpl.
  2: { intros [= <-]. left. split; [by eexists|]. by intros (? & ? & _). }
  assert (Hmissing : ∀ key,
            src_id source = None ∨ src_documentType source = None ∨
            src_embedding source = None ∨ src_referenceId source = None →
            ((∃ key', KeyError key = KeyError key') ∧
             ¬ (∃ source0, Some source = Some source0 ∧
                  is_Some (src_id source0) ∧ is_Some (src_documentType source0) ∧
                  is_Some (src_embedding source0) ∧ is_Some (src_referenceId source0)))).
  { intros key Hnone. split; [by eexists|].
    intros (source0 & [= <-] & [? H1] & [? H2] & [? H3] & [? H4]).
    destruct Hnone as [?|[?|[?|?]]]; congruence. }
  destruct (src_id source) eqn:H1; simpl;
    [|intros [= <-]; left; apply Hmissing; tauto].
  destruct (src_documentType source) eqn:H2; simpl;
    [|intros [= <-]; left; apply Hmissing; tauto].
  destruct (src_embedding source) eqn:H3; simpl;
    [|intros [= <-]; left; apply Hmissing; tauto].
  destruct (src_referenceId source) eqn:H4; simpl;
    [|intros [= <-]; left; apply Hmissing; tauto].
  destruct (src_contentPreview source) as [[|preview]|] eqn:H5; simpl; [|done..].
  intros [= <-]. right. split; [done|]. split.
  - exists source. rewrite H1, H2, H3, H4. by repeat split.
  - intros Hp. by apply (Hp source).
Qed.

Lemma record_complete id type embedding cluster :
  complete_hit (Reference.record id type embedding cluster).
Proof. eexists. split; [reflexivity|]. repeat split; by eexists. Qed.

Lemma record_preview id type embedding cluster :
  preview_not_null (Reference.record id type embedding cluster).
Proof. by intros source [= <-]. Qed.

Lemma five_hits_complete hit : hit ∈ Reference.five_hits → complete_hit hit.
Proof.
  unfold Reference.five_hits. intros Hin.
  repeat (apply elem_of_cons in Hin as [->|Hin]; [apply record_complete|]).
  by apply elem_of_nil in Hin.
Qed.

Lemma five_hits_preview hit : hit ∈ Reference.five_hits → preview_not_null hit.
Proof.
  unfold Reference.five_hits. intros Hin.
  repeat (apply elem_of_cons in Hin as [->|Hin]; [apply record_preview|]).
  by apply elem_of_nil in Hin.
Qed.

(** X1. A 200 answer whose hits all have the keys read, none with a [null]
    [contentPreview], gives one record per hit, in the order of the hits,
    carrying the hit's fields; the preview is the first 50 characters of
    [contentPreview] (empty when the key is missing), so never longer than
    50. *)
Theorem fetch_vectors_one_record_per_hit (net : network) (r : response es_body)
    (body : es_body) (hits : list es_hit) :
  es_search net = Ok r → status_code r = 200 →
  json r = Ok body → body_hits body = Some hits →
  (∀ hit, hit ∈ hits → complete_hit hit) →
  (∀ hit, hit ∈ hits → preview_not_null hit) →
  ∃ vectors_data,
    fetch_vectors_from_elasticsearch net = Ok vectors_data ∧
    length vectors_data = length hits ∧
    ∀ i hit, hits !! i = Some hit →
      ∃ source vec,
        hit_source hit = Some source ∧ vectors_data !! i = Some vec ∧
        src_id source = Some (vec_id vec) ∧
        src_documentType source = Some (vec_type vec) ∧
        src_embedding source = Some (vec_embedding vec) ∧
        src_referenceId source = Some (vec_referenceId vec) ∧
        vec_clusterId vec = src_clusterId source ∧
        vec_preview vec = str_take 50 (preview_string source) ∧
        (src_contentPreview source = None → vec_preview vec = "") ∧
        (String.length (vec_preview vec) ≤ 50)%nat.
Proof.
  intros Hr Hs Hj Hh Hall Hprev.
  rewrite (fetch_vectors_ok_status net r Hr Hs), Hj. simpl. rewrite Hh. simpl.
  destruct (mapM_all_ok vector_of_hit hits) as [vectors_data Hm].
  { intros hit Hin. apply vector_of_hit_complete; [by apply Hall | by apply Hprev]. }
  exists vectors_data. split; [done|]. split; [by apply mapM_length in Hm|].
  intros i hit Hi.
  destruct (mapM_lookup _ _ _ _ _ Hm Hi) as (vec & Hvec & Hfields).
  destruct (vector_of_hit_fields _ _ Hfields)
    as (source & Hsrc & H1 & H2 & H3 & H4 & H5 & _ & H6).
  exists source, vec. repeat (split; [done|]). split.
  - intros Hnone. rewrite H6. unfold preview_string. by rewrite Hnone.
  - rewrite H6. apply str_take_length.
Qed.

Lemma fetch_vectors_one_record_per_hit_witness :
  ∃ vectors_data,
    fetch_vectors_from_elasticsearch Reference.healthy = Ok vectors_data ∧
    length vectors_data = 5%nat.
Proof.
  destruct (fetch_vectors_one_record_per_hit Reference.healthy
              {| status_code := 200; text := "";
                 json := Ok {| body_hits := Some Reference.five_hits |} |}
              {| body_hits := Some Reference.five_hits |} Reference.five_hits)
    as (vectors_data & Hfetch & Hlen & _); try reflexivity.
  - exact five_hits_complete.
  - exact five_hits_preview.
  - exists vectors_data. split; [exact Hfetch | exact Hlen].
Defined.

(** X2. One hit anywhere in a 200 answer that lacks a required key, or whose
    [contentPreview] is [null], discards the whole batch: the fetch raises,
    returns no record of the other hits, and the run ends with that exception
    and nothing written. The exception is a [KeyError] or a [TypeError]: a
    [KeyError] when no hit of the batch has a [null] preview, a [TypeError]
    when every hit has the required keys. *)
Theorem malformed_hit_discards_the_batch (rt : runtime) (sk : reducers)
    (args : arguments) (net : network) (r : response es_body) (body : es_body)
    (hits : list es_hit) (hit : es_hit) :
  es_search net = Ok r → status_code r = 200 →
  json r = Ok body → body_hits body = Some hits →
  hit ∈ hits → ¬ (complete_hit hit ∧ preview_not_null hit) →
  ∃ e,
    fetch_vectors_from_elasticsearch net = Raise e ∧
    main rt sk args net = nothing_written (Raise e) ∧
    (e = TypeError ∨ ∃ key, e = KeyError key) ∧
    ((∀ h, h ∈ hits → preview_not_null h) → ∃ key, e = KeyError key) ∧
    ((∀ h, h ∈ hits → complete_hit h) → e = TypeError).
Proof.
  intros Hr Hs Hj Hh Hin Hno.
  assert (∃ e0, vector_of_hit hit = Raise e0) as [e0 Hhit].
  { destruct (vector_of_hit hit) as [vec|e0] eqn:Hv; [|by eexists].
    destruct Hno.
    destruct (vector_of_hit_fields _ _ Hv) as (source & Hsrc & H1 & H2 & H3 & H4 & _ & H5 & _).
    split.
    - exists source. rewrite H1, H2, H3, H4. by repeat split.
    - intros source' Hsrc'. rewrite Hsrc in Hsrc'. by injection Hsrc' as <-. }
  destruct (mapM_raises vector_of_hit hits hit _ Hin Hhit) as (hit' & e & Hin' & Hf' & Hm).
  exists e.
  assert (fetch_vectors_from_elasticsearch net = Raise e) as Hfetch.
  { rewrite (fetch_vectors_ok_status net r Hr Hs), Hj. simpl. rewrite Hh. simpl. done. }
  split; [done|]. split; [by apply main_fetch_raise|].
  destruct (vector_of_hit_raises hit' e Hf') as [[Hkey Hinc]|(-> & Hcomp & Hnull)].
  - split; [by right|]. split; [done|]. intros Hall. destruct Hinc. by apply Hall.
  - split; [by left|]. split; [|done]. intros Hall. destruct Hnull. by apply Hall.
Qed.

Lemma malformed_hit_discards_the_batch_witness :
  (∃ key,
     fetch_vectors_from_elasticsearch Reference.malformed_hit = Raise (KeyError key) ∧
     main (Reference.process 0) Reference.sklearn_checks (Reference.args "all")
       Reference.malformed_hit = nothing_written (Raise (KeyError key))) ∧
  fetch_vectors_from_elasticsearch Reference.null_preview = Raise TypeError ∧
  main (Reference.process 0) Reference.sklearn_checks (Reference.args "all")
    Reference.null_preview = nothing_written (Raise TypeError).
Proof.
  split.
  - destruct (malformed_hit_discards_the_batch (Reference.process 0)
                Reference.sklearn_checks (Reference.args "all") Reference.malformed_hit
                {| status_code := 200; text := "";
                   json := Ok {| body_hits :=
                                   Some (Reference.five_hits
                                           ++ [Reference.hit_without_reference])%list |} |}
                {| body_hits := Some (Reference.five_hits
                                        ++ [Reference.hit_without_reference])%list |}
                (Reference.five_hits ++ [Reference.hit_without_reference])%list
                Reference.hit_without_reference)
      as (e & Hfetch & Hrun & _ & Hkey & _); try reflexivity.
    + apply elem_of_app. right. by left.
    + intros [(source & Hsrc & _ & _ & _ & ref & Href) _].
      injection Hsrc as <-. discriminate Href.
    + destruct Hkey as [key ->].
      * intros h [Hh|Hh]%elem_of_app; [by apply five_hits_preview|].
        apply list_elem_of_singleton in Hh as ->. by intros source [= <-].
      * by exists key.
  - destruct (malformed_hit_discards_the_batch (Reference.process 0)
                Reference.sklearn_checks (Reference.args "all") Reference.null_preview
                {| status_code := 200; text := "";
                   json := Ok {| body_hits :=
                                   Some (Reference.hit_with_null_preview
                                           :: Reference.five_hits) |} |}
                {| body_hits := Some (Reference.hit_with_null_preview
                                        :: Reference.five_hits) |}
                (Reference.hit_with_null_preview :: Reference.five_hits)
                Reference.hit_with_null_preview)
      as (e & Hfetch & Hrun & _ & _ & Htype); try reflexivity.
    + by left.
    + intros [_ Hp]. by apply (Hp _ eq_refl).
    + rewrite Htype in Hfetch, Hrun; [by split| |].
      all: intros h [->|Hh]%elem_of_cons; [|by apply five_hits_complete].
      all: eexists; split; [reflexivity|]; repeat split; by eexists.
Defined.
End Batches.

Section Metadata.
Import VisualizeClusters.

Lemma fill_message_map_entries messages : ∀ message_map,
  fill_message_map messages message_map
    = rmap (foldl (fun m entry => <[entry.1 := entry.2]> m) message_map)
        (mapM message_entry messages).
Proof.
  induction messages as [|msg rest IH]; intros message_map; simpl; [done|].
  destruct (message_entry msg) as [entry|e]; simpl; [|done].
  rewrite IH. by destruct (mapM message_entry rest).
Qed.

Lemma insert_all_absent (entries : list (string * metadata)) : ∀ (m : gmap string metadata) id,
  id ∉ entries.*1 →
  foldl (fun m entry => <[entry.1 := entry.2]> m) m entries !! id = m !! id.
Proof.
  induction entries as [|[k v] entries IH]; intros m id Hid; simpl; [done|].
  rewrite fmap_cons, not_elem_of_cons in Hid. destruct Hid as [Hne Hid].
  rewrite IH by done. simpl. by rewrite lookup_insert_ne.
Qed.

Lemma insert_all_last (pre post : list (string * metadata)) id md :
  ∀ m : gmap string metadata,
  id ∉ post.*1 →
  foldl (fun m entry => <[entry.1 := entry.2]> m) m (pre ++ (id, md) :: post) !! id
    = Some md.
Proof.
  intros m Hid. rewrite foldl_app. simpl.
  rewrite insert_all_absent by done. by rewrite lookup_insert_eq.
Qed.

Lemma insert_all_size (entries : list (string * metadata)) : ∀ m : gmap string metadata,
  (size (foldl (fun m entry => <[entry.1 := entry.2]> m) m entries)
     ≤ size m + length entries)%nat.
Proof.
  induction entries as [|[k v] entries IH]; intros m; simpl; [lia|].
  specialize (IH (<[k:=v]> m)). rewrite map_size_insert in IH.
  destruct (m !! k); simpl in IH; unfold id in IH; lia.
Qed.

Lemma message_entry_complete msg :
  complete_message msg → ∃ entry, message_entry msg = Ok entry.
Proof.
  intros ([id H1] & [ty H2] & [se H3] & [re H4] & [st H5]).
  unfold message_entry. rewrite H1. simpl. rewrite H2. simpl. rewrite H3. simpl.
  rewrite H4. simpl. rewrite H5. simpl. by eexists.
Qed.

Lemma message_entry_incomplete msg :
  ¬ complete_message msg → ∃ key, message_entry msg = Raise (KeyError key).
Proof.
  intros Hno. unfold message_entry.
  destruct (msg_messageType msg) eqn:H2; simpl; [|by eexists].
  destruct (msg_senderId msg) eqn:H3; simpl; [|by eexists].
  destruct (msg_receiverId msg) eqn:H4; simpl; [|by eexists].
  destruct (msg_status msg) eqn:H5; simpl; [|by eexists].
  destruct (msg_id msg) eqn:H1; simpl; [|by eexists].
  destruct Hno. unfold complete_message. rewrite H1, H2, H3, H4, H5. by repeat split.
Qed.

Lemma message_entry_raises_key_error msg e :
  message_entry msg = Raise e → ∃ key, e = KeyError key.
Proof.
  unfold message_entry.
  destruct (msg_messageType msg); simpl; [|intros [= <-]; by eexists].
  destruct (msg_senderId msg); simpl; [|intros [= <-]; by eexists].
  destruct (msg_receiverId msg); simpl; [|intros [= <-]; by eexists].
  destruct (msg_status msg); simpl; [|intros [= <-]; by eexists].
  destruct (msg_id msg); simpl; [done|intros [= <-]; by eexists].
Qed.

Lemma fetch_messages_ok_status net r :
  api_messages net = Ok r → status_code r = 200 →
  fetch_messages_from_api net
    = (messages <~ json r ;; fill_message_map messages ∅).
Proof.
  unfold fetch_messages_from_api. intros -> Hs. simpl. by rewrite Hs.
Qed.

Lemma message_complete id type sender :
  complete_message (Reference.message id type sender).
Proof. repeat split; by eexists. Qed.

(** X3. A 200 answer of complete messages gives a mapping keyed by message
    id in which a repeated id keeps the metadata of its last message: an
    entry is found under its id unless a later message has the same id, an id
    no message has is absent, and the mapping never has more entries than
    there were messages. *)
Theorem fetch_messages_last_entry_wins (net : network)
    (r : response (list api_message)) (messages : list api_message) :
  api_messages net = Ok r → status_code r = 200 → json r = Ok messages →
  (∀ msg, msg ∈ messages → complete_message msg) →
  ∃ messages_map entries,
    fetch_messages_from_api net = Ok messages_map ∧
    mapM message_entry messages = Ok entries ∧
    (∀ (pre post : list (string * metadata)) id md,
       entries = (pre ++ (id, md) :: post)%list → id ∉ post.*1 →
       messages_map !! id = Some md) ∧
    (∀ id, id ∉ entries.*1 → messages_map !! id = None) ∧
    (size messages_map ≤ length messages)%nat.
Proof.
  intros Hr Hs Hj Hall.
  destruct (mapM_all_ok message_entry messages) as [entries Hm].
  { intros msg Hin. by apply message_entry_complete, Hall. }
  rewrite (fetch_messages_ok_status net r Hr Hs), Hj. simpl.
  rewrite fill_message_map_entries, Hm. simpl.
  eexists _, entries. split; [done|]. split; [done|]. split; [|split].
  - intros pre post id md -> Hid. by apply insert_all_last.
  - intros id Hid. by rewrite insert_all_absent.
  - pose proof (insert_all_size entries ∅) as Hsize.
    rewrite map_size_empty in Hsize. apply mapM_length in Hm. lia.
Qed.

Lemma fetch_messages_last_entry_wins_witness :
  ∃ messages_map,
    fetch_messages_from_api Reference.repeated_id = Ok messages_map ∧
    meta_messageType <$> messages_map !! "m1" = Some "MT202" ∧
    (size messages_map ≤ 3)%nat.
Proof.
  destruct (fetch_messages_last_entry_wins Reference.repeated_id
              {| status_code := 200; text := ""; json := Ok Reference.three_messages |}
              Reference.three_messages)
    as (messages_map & entries & Hfetch & Hentries & Hlast & _ & Hsize); try reflexivity.
  - intros msg Hin. unfold Reference.three_messages, Reference.two_messages in Hin.
    simpl in Hin.
    repeat (apply elem_of_cons in Hin as [->|Hin]; [apply message_complete|]).
    by apply elem_of_nil in Hin.
  - exists messages_map. split; [exact Hfetch|]. split; [|exact Hsize].
    injection Hentries as <-.
    rewrite (Hlast [_; _] [] "m1" _ eq_refl); [reflexivity|]. apply not_elem_of_nil.
Defined.

(** X4. One message without a required key makes the metadata fetch raise a
    [KeyError] and ends the run with nothing written, whatever views were
    asked for, the statistics view included. *)
Theorem malformed_message_aborts_the_run (rt : runtime) (sk : reducers)
    (args : arguments) (net : network) (r : response (list api_message))
    (messages : list api_message) (msg : api_message)
    (vectors_data : list vector_record) :
  fetch_vectors_from_elasticsearch net = Ok vectors_data → vectors_data ≠ [] →
  api_messages net = Ok r → status_code r = 200 → json r = Ok messages →
  msg ∈ messages → ¬ complete_message msg →
  ∃ key,
    fetch_messages_from_api net = Raise (KeyError key) ∧
    main rt sk args net = nothing_written (Raise (KeyError key)).
Proof.
  intros Hvec Hne Hr Hs Hj Hin Hno.
  destruct (message_entry_incomplete msg Hno) as [key Hkey].
  destruct (mapM_raises message_entry messages msg _ Hin Hkey)
    as (msg' & e' & _ & Hf' & Hm).
  destruct (message_entry_raises_key_error msg' e' Hf') as [key' ->].
  exists key'.
  assert (fetch_messages_from_api net = Raise (KeyError key')) as Hfetch.
  { rewrite (fetch_messages_ok_status net r Hr Hs), Hj. simpl.
    by rewrite fill_message_map_entries, Hm. }
  split; [done|]. unfold main. rewrite Hvec, Hfetch.
  by destruct vectors_data.
Qed.

Lemma malformed_message_aborts_the_run_witness :
  ∃ key,
    fetch_messages_from_api Reference.malformed_message = Raise (KeyError key) ∧
    main (Reference.process 0) Reference.sklearn_checks (Reference.args "stats")
      Reference.malformed_message = nothing_written (Raise (KeyError key)).
Proof.
  apply (malformed_message_aborts_the_run (Reference.process 0) Reference.sklearn_checks
           (Reference.args "stats") Reference.malformed_message
           {| status_code := 200; text := "";
              json := Ok (Reference.two_messages ++ [Reference.message_without_sender])%list |}
           (Reference.two_messages ++ [Reference.message_without_sender])%list
           Reference.message_without_sender Reference.fetched_records); try reflexivity.
  - discriminate.
  - apply elem_of_app. right. by left.
  - intros (_ & _ & [sender Hsender] & _). discriminate Hsender.
Defined.
End Metadata.

Section Counters.
Import VisualizeClusters.

Lemma counter_get_incr k k' d :
  counter_get k (incr k' d) = counter_get k d + (if decide (k' = k) then 1 else 0).
Proof.
  induction d as [|[k0 n] d IH]; simpl.
  - destruct (String.eqb_spec k' k), (decide (k' = k)); congruence || lia.
  - destruct (String.eqb_spec k0 k') as [->|Hne]; simpl.
    + destruct (String.eqb_spec k' k), (decide (k' = k)); congruence || lia.
    + destruct (String.eqb_spec k0 k) as [->|Hne']; [|done].
      destruct (decide (k' = k)); congruence || lia.
Qed.

Lemma keys_incr k d :
  keys (incr k d) = if decide (k ∈ keys d) then keys d else (keys d ++ [k])%list.
Proof.
  unfold keys. induction d as [|[k0 n] d IH].
  - simpl. destruct (decide (k ∈ [])) as [Hin|_]; [by apply elem_of_nil in Hin|done].
  - cbn [incr map fst]. destruct (String.eqb_spec k0 k) as [->|Hne]; cbn [map fst].
    + destruct (decide (k ∈ k :: map fst d)) as [_|Hnin]; [done|].
      destruct Hnin. by left.
    + rewrite IH. destruct (decide (k ∈ map fst d)) as [Hin|Hnin].
      * destruct (decide (k ∈ k0 :: map fst d)) as [_|Hnin]; [done|].
        destruct Hnin. by right.
      * destruct (decide (k ∈ k0 :: map fst d)) as [Hin|_]; [|done].
        apply elem_of_cons in Hin as [->|Hin]; done.
Qed.

Lemma NoDup_keys_incr k d : NoDup (keys d) → NoDup (keys (incr k d)).
Proof.
  intros Hnd. rewrite keys_incr. destruct (decide (k ∈ keys d)); [done|].
  apply NoDup_app. split; [done|]. split; [|apply NoDup_singleton].
  intros x Hx ->%list_elem_of_singleton. done.
Qed.

Lemma positive_incr k d :
  Forall (fun e : string * Z => 0 < e.2) d → Forall (fun e : string * Z => 0 < e.2) (incr k d).
Proof.
  induction 1 as [|[k0 n] d Hn Hd IH]; simpl.
  - by repeat constructor.
  - destruct (String.eqb k0 k); constructor; simpl in *; try done. lia.
Qed.

Lemma counter_get_elem k n d : NoDup (keys d) → (k, n) ∈ d → counter_get k d = n.
Proof.
  unfold keys. induction d as [|[k0 n0] d IH]; intros Hnd Hin; simpl.
  - by apply elem_of_nil in Hin.
  - apply NoDup_cons in Hnd as [Hk0 Hnd].
    apply elem_of_cons in Hin as [[= -> ->]|Hin].
    + by rewrite String.eqb_refl.
    + destruct (String.eqb_spec k0 k) as [->|_]; [|by apply IH].
      destruct Hk0. apply list_elem_of_fmap. by exists (k, n).
Qed.

Lemma counter_get_positive k d : 0 < counter_get k d → (k, counter_get k d) ∈ d.
Proof.
  induction d as [|[k0 n0] d IH]; simpl; [lia|].
  destruct (String.eqb_spec k0 k) as [->|_]; intros Hpos; [by left|].
  right. by apply IH.
Qed.

Lemma occurrences_cons {A : Type} (key : A → option string) k a l :
  occurrences key k (a :: l)
    = (if decide (key a = Some k) then 1 else 0) + occurrences key k l.
Proof.
  unfold occurrences, len. rewrite filter_cons.
  destruct (decide (key a = Some k)); simpl; lia.
Qed.

Lemma counting_loop {A : Type} (key : A → option string) (l : list A) : ∀ d,
  NoDup (keys d) → Forall (fun e : string * Z => 0 < e.2) d →
  let d' := fold_left (count_under key) l d in
  NoDup (keys d') ∧ Forall (fun e : string * Z => 0 < e.2) d' ∧
  ∀ k, counter_get k d' = counter_get k d + occurrences key k l.
Proof.
  induction l as [|a l IH]; intros d Hnd Hpos; simpl.
  - split; [done|]. split; [done|]. intros k. unfold occurrences, len. simpl. lia.
  - unfold count_under at 2 4 6. destruct (key a) as [ka|] eqn:Hka.
    + destruct (IH (incr ka d)) as (H1 & H2 & H3);
        [by apply NoDup_keys_incr | by apply positive_incr |].
      split; [done|]. split; [done|]. intros k.
      rewrite H3, counter_get_incr, occurrences_cons, Hka.
      destruct (decide (ka = k)), (decide (Some ka = Some k)); congruence || lia.
    + destruct (IH d Hnd Hpos) as (H1 & H2 & H3).
      split; [done|]. split; [done|]. intros k.
      rewrite H3, occurrences_cons, Hka. rewrite decide_False by done. lia.
Qed.

(** A counter filled by a counting loop from empty: its keys are distinct and
    its entries are exactly the keys that occur, each with its number of
    occurrences. *)
Lemma counting_loop_entries {A : Type} (key : A → option string) (l : list A) :
  let d := fold_left (count_under key) l [] in
  NoDup (keys d) ∧
  ∀ k n, (k, n) ∈ d ↔ n = occurrences key k l ∧ 0 < n.
Proof.
  destruct (counting_loop key l []) as (Hnd & Hpos & Hget);
    [apply NoDup_nil_2 | constructor |].
  split; [done|]. intros k n.
  assert (Heq : counter_get k (fold_left (count_under key) l []) = occurrences key k l)
    by (rewrite (Hget k); simpl; lia).
  split.
  - intros Hin. rewrite <- Heq, (counter_get_elem k n _ Hnd Hin). split; [done|].
    rewrite Forall_forall in Hpos. exact (Hpos _ Hin).
  - intros [-> Hn]. rewrite <- Heq in Hn |- *. by apply counter_get_positive.
Qed.

Lemma count_records_types messages_map vectors_data : ∀ acc,
  type_counts (fold_left (count_record messages_map) vectors_data acc)
    = fold_left (count_under (fun vec => Some (message_type_of messages_map vec)))
        vectors_data (type_counts acc).
Proof. induction vectors_data as [|vec rest IH]; intros acc; simpl; [done|]. by rewrite IH. Qed.

Lemma count_records_senders messages_map vectors_data : ∀ acc,
  sender_counts (fold_left (count_record messages_map) vectors_data acc)
    = fold_left (count_under (fun vec => Some (sender_of messages_map vec)))
        vectors_data (sender_counts acc).
Proof. induction vectors_data as [|vec rest IH]; intros acc; simpl; [done|]. by rewrite IH. Qed.

Lemma count_records_clusters messages_map vectors_data : ∀ acc,
  cluster_counts (fold_left (count_record messages_map) vectors_data acc)
    = fold_left (count_under vec_clusterId) vectors_data (cluster_counts acc).
Proof. induction vectors_data as [|vec rest IH]; intros acc; simpl; [done|]. by rewrite IH. Qed.

Lemma count_doc_types_loop vectors_data :
  count_doc_types vectors_data
    = fold_left (count_under (fun vec => Some (vec_type vec))) vectors_data [].
Proof. done. Qed.

(** X5. In the statistics view, the message-type chart, the cluster chart and
    the document-kind chart each have distinct labels, and a label is shown
    with the value n exactly when n > 0 records have it, n being their
    number: records by message type ("UNKNOWN" without metadata), records by
    external cluster id (records without one under no label), records by
    document type. *)
Theorem statistics_counts_are_occurrences (vectors_data : list vector_record)
    (messages_map : gmap string metadata) :
  ∃ types clusters kinds : counter,
    fig_data (create_statistics_view vectors_data messages_map) !! 0%nat
      = Some (Pie types.*1 types.*2 "Message Types", Some (1, 1)) ∧
    fig_data (create_statistics_view vectors_data messages_map) !! 1%nat
      = Some (Bar clusters.*1 clusters.*2 "Clusters" None None, Some (1, 2)) ∧
    fig_data (create_statistics_view vectors_data messages_map) !! 3%nat
      = Some (Pie kinds.*1 kinds.*2 "Document Types", Some (2, 2)) ∧
    NoDup types.*1 ∧ NoDup clusters.*1 ∧ NoDup kinds.*1 ∧
    (∀ k n, (k, n) ∈ types ↔
       n = occurrences (fun vec => Some (message_type_of messages_map vec)) k vectors_data
       ∧ 0 < n) ∧
    (∀ k n, (k, n) ∈ clusters ↔
       n = occurrences vec_clusterId k vectors_data ∧ 0 < n) ∧
    (∀ k n, (k, n) ∈ kinds ↔
       n = occurrences (fun vec => Some (vec_type vec)) k vectors_data ∧ 0 < n).
Proof.
  exists (type_counts (count_records vectors_data messages_map)),
         (cluster_counts (count_records vectors_data messages_map)),
         (count_doc_types vectors_data).
  split; [done|]. split; [done|]. split; [done|].
  unfold count_records.
  rewrite count_records_types, count_records_clusters, count_doc_types_loop. simpl.
  destruct (counting_loop_entries
              (fun vec => Some (message_type_of messages_map vec)) vectors_data) as [H1 H2].
  destruct (counting_loop_entries vec_clusterId vectors_data) as [H3 H4].
  destruct (counting_loop_entries (fun vec => Some (vec_type vec)) vectors_data) as [H5 H6].
  done.
Qed.
End Counters.

Section TopSenders.
Import VisualizeClusters.

Lemma insert_desc_perm it l : insert_desc it l ≡ₚ it :: l.
Proof.
  induction l as [|it' l IH]; simpl; [done|].
  destruct (it'.2 <=? it.2); [done|]. rewrite IH. apply Permutation_swap.
Qed.

Lemma sorted_desc_perm items : sorted_desc items ≡ₚ items.
Proof.
  unfold sorted_desc. induction items as [|it items IH]; simpl; [done|].
  by rewrite insert_desc_perm, IH.
Qed.

Lemma insert_desc_sorted it l :
  StronglySorted by_count_desc l → StronglySorted by_count_desc (insert_desc it l).
Proof.
  induction 1 as [|it' l Hl IH Hall]; simpl.
  - by repeat constructor.
  - destruct (Z.leb_spec it'.2 it.2) as [Hle|Hgt].
    + constructor; [by constructor|]. constructor; [done|].
      eapply Forall_impl; [exact Hall|]. unfold by_count_desc. intros x Hx. lia.
    + constructor; [done|]. rewrite (insert_desc_perm it l).
      constructor; [unfold by_count_desc; lia | done].
Qed.

Lemma sorted_desc_sorted items : StronglySorted by_count_desc (sorted_desc items).
Proof.
  unfold sorted_desc. induction items as [|it items IH]; simpl; [constructor|].
  by apply insert_desc_sorted.
Qed.

(** X6. The sender chart of the statistics view shows the senders by record
    count ("UNKNOWN" for records without metadata), most frequent first, and
    at most ten of them: the senders shown followed by the senders left out
    are all the senders that occur, each once with its number of records, in
    an order in which the counts never grow. So no sender left out has more
    records than a sender shown. *)
Theorem top_senders_chart (vectors_data : list vector_record)
    (messages_map : gmap string metadata) :
  ∃ senders top left_out : counter,
    fig_data (create_statistics_view vectors_data messages_map) !! 2%nat
      = Some (Bar top.*1 top.*2 "Top Senders" None None, Some (2, 1)) ∧
    NoDup senders.*1 ∧
    (∀ k n, (k, n) ∈ senders ↔
       n = occurrences (fun vec => Some (sender_of messages_map vec)) k vectors_data
       ∧ 0 < n) ∧
    (top ++ left_out)%list ≡ₚ senders ∧
    length top = (10 `min` length senders)%nat ∧
    StronglySorted by_count_desc (top ++ left_out)%list ∧
    (∀ shown out, shown ∈ top → out ∈ left_out → out.2 ≤ shown.2).
Proof.
  set (senders := sender_counts (count_records vectors_data messages_map)).
  exists senders, (take 10 (sorted_desc senders)), (drop 10 (sorted_desc senders)).
  split; [done|].
  destruct (counting_loop_entries
              (fun vec => Some (sender_of messages_map vec)) vectors_data) as [H1 H2].
  assert (senders = fold_left (count_under (fun vec => Some (sender_of messages_map vec)))
                      vectors_data []) as Hs
    by (unfold senders, count_records; by rewrite count_records_senders).
  clearbody senders. subst senders. split; [exact H1|]. split; [exact H2|].
  set (senders := fold_left (count_under _) vectors_data []).
  rewrite take_drop. split; [apply sorted_desc_perm|].
  split; [by rewrite length_take, (Permutation_length (sorted_desc_perm senders))|].
  split; [apply sorted_desc_sorted|].
  intros shown out Hshown Hout.
  apply (StronglySorted_app_1_elem_of by_count_desc
           (take 10 (sorted_desc senders)) (drop 10 (sorted_desc senders)));
    [rewrite take_drop; apply sorted_desc_sorted | done | done].
Qed.
End TopSenders.

Section MoreViews.
Import VisualizeClusters.

Lemma reduce_dimensions_columns (sk : reducers) embeddings method n_components reduced :
  columns_as_requested sk →
  reduce_dimensions sk embeddings method n_components = Ok reduced →
  ∀ row, row ∈ reduced → len row = n_components.
Proof.
  intros Hcols Hred row Hrow. rewrite reduce_dimensions_unfold in Hred.
  destruct (make_reducer embeddings method n_components) as [r|e] eqn:Hr; [|done].
  simpl in Hred. rewrite (Hcols _ _ _ _ Hred Hrow).
  unfold make_reducer in Hr. destruct (String.eqb method "tsne"); [by injection Hr as <-|].
  destruct (String.eqb method "pca"); [by injection Hr as <-|done].
Qed.

Lemma column_of_wide_rows j n reduced :
  (∀ row, row ∈ reduced → len row = n) → (Z.of_nat j < n) →
  ∃ xs, column j reduced = Ok xs ∧ length xs = length reduced ∧
        ∀ i, xs !! i = reduced !! i ≫= (fun row => row !! j).
Proof.
  intros Hrows Hj. destruct (column_defined j reduced) as [xs Hxs].
  { intros row Hrow. specialize (Hrows row Hrow). unfold len in Hrows. lia. }
  exists xs. split; [done|]. split; [by apply column_length in Hxs|].
  intros i. by apply column_lookup.
Qed.

(** X7. Over a library that keeps scikit-learn's shape contract, whenever the
    reduction to three dimensions returns, the 3D scatter view is built with
    exactly one point per record, at the three coordinates of the record's
    row; a record of type "TEMPLATE" is drawn as a diamond of size 15, every
    other record as a circle of size 8, and the label of a record is its
    message type, "UNKNOWN" without metadata. *)
Theorem scatter_3d_renders_every_record (rt : runtime) (sk : reducers)
    (vectors_data : list vector_record) (messages_map : gmap string metadata)
    (method : string) (reduced : matrix) :
  rows_preserved sk →
  columns_as_requested sk →
  reduce_dimensions sk (map vec_embedding vectors_data) method 3 = Ok reduced →
  ∃ fig x y z sizes colors symbols text hovertext,
    create_3d_visualization rt sk vectors_data messages_map method = Ok fig ∧
    point_count fig = length vectors_data ∧
    fig_data fig =
      [(Scatter3d x y z "markers"
          {| marker_size := SizeEach sizes;
             marker_color := ColorEach colors;
             marker_colorscale := Some "Viridis";
             marker_symbol := Some symbols;
             marker_line := Some ((1 # 2)%Q, "white");
             marker_opacity := None |}
          (Some text) (Some hovertext) (Some "text") "Messages", None)] ∧
    (∀ i, x !! i = reduced !! i ≫= (fun row => row !! 0%nat) ∧
          y !! i = reduced !! i ≫= (fun row => row !! 1%nat) ∧
          z !! i = reduced !! i ≫= (fun row => row !! 2%nat)) ∧
    (∀ i vec, vectors_data !! i = Some vec →
       is_Some (x !! i) ∧
       symbols !! i = Some (if String.eqb (vec_type vec) "TEMPLATE"
                            then "diamond" else "circle") ∧
       sizes !! i = Some (if String.eqb (vec_type vec) "TEMPLATE" then 15 else 8) ∧
       text !! i = Some (message_type_of messages_map vec) ∧
       colors !! i = Some (hash rt (message_type_of messages_map vec) `mod` 360)).
Proof.
  intros Hrows Hcols Hred.
  pose proof (reduce_dimensions_rows _ _ _ _ _ Hrows Hred) as Hlen.
  rewrite length_map in Hlen.
  pose proof (reduce_dimensions_columns _ _ _ _ _ Hcols Hred) as Hwide.
  destruct (column_of_wide_rows 0 3 reduced Hwide) as (x & Hx & Hlx & Hxi); [lia|].
  destruct (column_of_wide_rows 1 3 reduced Hwide) as (y & Hy & Hly & Hyi); [lia|].
  destruct (column_of_wide_rows 2 3 reduced Hwide) as (z & Hz & Hlz & Hzi); [lia|].
  unfold create_3d_visualization. rewrite Hred. simpl. rewrite Hx. simpl.
  rewrite Hy. simpl. rewrite Hz. simpl.
  do 9 eexists. split; [reflexivity|].
  split; [unfold point_count; simpl; lia|]. split; [reflexivity|].
  split; [by intros i|].
  intros i vec Hi. split; [apply lookup_lt_is_Some; apply lookup_lt_Some in Hi; lia|].
  unfold hash_colors.
  change (map pt_symbol (map (point_3d messages_map) vectors_data))
    with (pt_symbol <$> (point_3d messages_map <$> vectors_data)).
  change (map pt_size (map (point_3d messages_map) vectors_data))
    with (pt_size <$> (point_3d messages_map <$> vectors_data)).
  change (map pt_color (map (point_3d messages_map) vectors_data))
    with (pt_color <$> (point_3d messages_map <$> vectors_data)).
  change (map ?f (pt_color <$> ?l)) with (f <$> (pt_color <$> l)).
  rewrite !list_lookup_fmap, Hi. simpl.
  by destruct (String.eqb (vec_type vec) "TEMPLATE").
Qed.

Lemma scatter_3d_renders_every_record_witness :
  ∃ fig,
    create_3d_visualization (Reference.process 0) Reference.sklearn_checks
      Reference.fetched_records Reference.fetched_metadata "pca" = Ok fig ∧
    point_count fig = 5%nat.
Proof.
  destruct (scatter_3d_renders_every_record (Reference.process 0) Reference.sklearn_checks
              Reference.fetched_records Reference.fetched_metadata "pca"
              [[1; 0; 2]; [0; 1; 2]; [3; 1; 0]; [1; 1; 1]; [2; 2; 5]]%Q
              sklearn_checks_rows_preserved sklearn_checks_columns)
    as (fig & x & y & z & sizes & colors & symbols & text & hovertext & Hfig & Hcount & _).
  - reflexivity.
  - exists fig. split; [exact Hfig | exact Hcount].
Defined.

(** X8. The comparison view reduces with t-SNE first and with PCA second. An
    error of the t-SNE reduction is the error of the view, whatever PCA would
    have given; so is an error of PCA after t-SNE returned. When both return
    (over a library that keeps the shape contract) the view has two traces of
    one point per record each, which share one colour per record, computed
    from the record's message type. *)
Theorem comparison_needs_both_reductions (rt : runtime) (sk : reducers)
    (vectors_data : list vector_record) (messages_map : gmap string metadata) :
  let embeddings := map vec_embedding vectors_data in
  (∀ e, reduce_dimensions sk embeddings "tsne" 2 = Raise e →
     create_cluster_comparison rt sk vectors_data messages_map = Raise e) ∧
  (∀ tsne_2d e, reduce_dimensions sk embeddings "tsne" 2 = Ok tsne_2d →
     reduce_dimensions sk embeddings "pca" 2 = Raise e →
     create_cluster_comparison rt sk vectors_data messages_map = Raise e) ∧
  (rows_preserved sk → columns_as_requested sk →
   ∀ tsne_2d pca_2d, reduce_dimensions sk embeddings "tsne" 2 = Ok tsne_2d →
     reduce_dimensions sk embeddings "pca" 2 = Ok pca_2d →
     ∃ fig tsne_x tsne_y pca_x pca_y colors,
       create_cluster_comparison rt sk vectors_data messages_map = Ok fig ∧
       fig_data fig =
         (let mk := {| marker_size := SizeAll 10;
                       marker_color := ColorEach colors;
                       marker_colorscale := Some "Viridis";
                       marker_symbol := None;
                       marker_line := None;
                       marker_opacity := None |} in
          [(Scatter tsne_x tsne_y "markers" mk None None None "t-SNE" (Some false),
            Some (1, 1));
           (Scatter pca_x pca_y "markers" mk None None None "PCA" (Some false),
            Some (1, 2))]) ∧
       length tsne_x = length vectors_data ∧ length tsne_y = length vectors_data ∧
       length pca_x = length vectors_data ∧ length pca_y = length vectors_data ∧
       length colors = length vectors_data ∧
       point_count fig = (2 * length vectors_data)%nat ∧
       ∀ i vec, vectors_data !! i = Some vec →
         colors !! i = Some (hash rt (message_type_of messages_map vec) `mod` 360)).
Proof.
  intros embeddings. split; [|split].
  - intros e He. unfold create_cluster_comparison. fold embeddings. by rewrite He.
  - intros tsne_2d e Ht Hp. unfold create_cluster_comparison. fold embeddings.
    by rewrite Ht; simpl; rewrite Hp.
  - intros Hrows Hcols tsne_2d pca_2d Ht Hp.
    pose proof (reduce_dimensions_rows _ _ _ _ _ Hrows Ht) as Hlt.
    pose proof (reduce_dimensions_rows _ _ _ _ _ Hrows Hp) as Hlp.
    unfold embeddings in Hlt, Hlp. rewrite length_map in Hlt, Hlp.
    pose proof (reduce_dimensions_columns _ _ _ _ _ Hcols Ht) as Hwt.
    pose proof (reduce_dimensions_columns _ _ _ _ _ Hcols Hp) as Hwp.
    destruct (column_of_wide_rows 0 2 tsne_2d Hwt) as (tx & Htx & Hltx & _); [lia|].
    destruct (column_of_wide_rows 1 2 tsne_2d Hwt) as (ty & Hty & Hlty & _); [lia|].
    destruct (column_of_wide_rows 0 2 pca_2d Hwp) as (px & Hpx & Hlpx & _); [lia|].
    destruct (column_of_wide_rows 1 2 pca_2d Hwp) as (py & Hpy & Hlpy & _); [lia|].
    unfold create_cluster_comparison. fold embeddings. rewrite Ht. simpl.
    rewrite Hp. simpl. rewrite Htx. simpl. rewrite Hty. simpl. rewrite Hpx. simpl.
    rewrite Hpy. simpl.
    do 6 eexists. split; [reflexivity|]. split; [reflexivity|].
    unfold comparison_colors. rewrite length_map.
    do 5 (split; [lia|]). split; [unfold point_count; simpl; lia|].
    intros i vec Hi.
    change (map ?f vectors_data) with (f <$> vectors_data).
    by rewrite list_lookup_fmap, Hi.
Qed.

Lemma write_view_ok fig file r f :
  outcome r = Ok tt → fig = Ok f →
  write_view true fig file r = {| written := written r ++ [(file, f)]; outcome := Ok tt |}.
Proof. unfold write_view. by intros -> ->. Qed.

Lemma write_view_raise fig file r e :
  outcome r = Ok tt → fig = Raise e →
  write_view true fig file r = {| written := written r; outcome := Raise e |}.
Proof. unfold write_view. by intros -> ->. Qed.

Lemma write_view_after_raise wanted fig file r e :
  outcome r = Raise e → write_view wanted fig file r = r.
Proof. unfold write_view. by intros ->. Qed.

(** X9. A run asked for all views builds and writes them one after the other:
    scatter, comparison, statistics. If the scatter view raises, nothing is
    written, the statistics view included, which needs no reduction. If the
    comparison view raises, the scatter file stays written and the statistics
    file is not. If both are built, the three files are written in that order
    and the run ends normally. *)
Theorem later_views_are_lost_after_a_failure (rt : runtime) (sk : reducers)
    (args : arguments) (net : network) (vectors_data : list vector_record)
    (messages_map : gmap string metadata) :
  fetch_vectors_from_elasticsearch net = Ok vectors_data → vectors_data ≠ [] →
  fetch_messages_from_api net = Ok messages_map →
  arg_view args = "all" →
  let scatter :=
    if String.eqb (arg_dimensions args) "2d"
    then create_2d_visualization rt sk vectors_data messages_map (arg_method args)
    else create_3d_visualization rt sk vectors_data messages_map (arg_method args) in
  let comparison := create_cluster_comparison rt sk vectors_data messages_map in
  let scatter_file :=
    replace ".html" ("_" +:+ arg_method args +:+ "_" +:+ arg_dimensions args +:+ ".html")
      (arg_output args) in
  (∀ e, scatter = Raise e → main rt sk args net = nothing_written (Raise e)) ∧
  (∀ fig e, scatter = Ok fig → comparison = Raise e →
     main rt sk args net = {| written := [(scatter_file, fig)]; outcome := Raise e |}) ∧
  (∀ fig fig', scatter = Ok fig → comparison = Ok fig' →
     main rt sk args net =
       {| written := [(scatter_file, fig);
                      (replace ".html" "_comparison.html" (arg_output args), fig');
                      (replace ".html" "_stats.html" (arg_output args),
                       create_statistics_view vectors_data messages_map)];
          outcome := Ok tt |}).
Proof.
  intros Hvec Hne Hmsg Hview scatter comparison scatter_file.
  assert (Hmain : main rt sk args net =
    write_view true (Ok (create_statistics_view vectors_data messages_map))
      (replace ".html" "_stats.html" (arg_output args))
      (write_view true comparison (replace ".html" "_comparison.html" (arg_output args))
         (write_view true scatter scatter_file {| written := []; outcome := Ok tt |}))).
  { unfold main, view_is. rewrite Hvec, Hmsg, Hview. simpl.
    by destruct vectors_data. }
  rewrite Hmain. split; [|split].
  - intros e He. rewrite (write_view_raise scatter _ _ e) by done.
    by rewrite !(write_view_after_raise _ _ _ _ e).
  - intros fig e Hs Hc. rewrite (write_view_ok scatter _ _ fig) by done.
    rewrite (write_view_raise comparison _ _ e) by done.
    by rewrite (write_view_after_raise _ _ _ _ e).
  - intros fig fig' Hs Hc. rewrite (write_view_ok scatter _ _ fig) by done.
    rewrite (write_view_ok comparison _ _ fig') by done.
    by rewrite (write_view_ok _ _ _ (create_statistics_view vectors_data messages_map)).
Qed.

Lemma later_views_are_lost_after_a_failure_witness :
  ∃ fig fig',
    main (Reference.process 0) Reference.sklearn_checks (Reference.args "all")
      Reference.healthy =
      {| written :=
           [("cluster_visualization_pca_2d.html", fig);
            ("cluster_visualization_comparison.html", fig');
            ("cluster_visualization_stats.html",
             create_statistics_view Reference.fetched_records Reference.fetched_metadata)];
         outcome := Ok tt |}.
Proof.
  destruct (later_views_are_lost_after_a_failure (Reference.process 0)
              Reference.sklearn_checks (Reference.args "all") Reference.healthy
              Reference.fetched_records Reference.fetched_metadata)
    as (_ & _ & Hall); try reflexivity; [discriminate|].
  eexists _, _. apply Hall; vm_compute; reflexivity.
Defined.

(** X12. A method other than "tsne" and "pca" is refused by
    [reduce_dimensions] with [ValueError("Unknown method: ...")] before the
    library is called, and with it by the 2D and the 3D scatter view; the
    clustered view of the other script does not refuse it and reduces with
    PCA instead. *)
Theorem unknown_method_is_refused_before_the_library (rt : runtime) (sk : reducers)
    (vectors_data : list vector_record) (messages_map : gmap string metadata)
    (embeddings : matrix) (method : string) (n_components : Z) :
  method ≠ "tsne" → method ≠ "pca" →
  let refused := ValueError ("Unknown method: " +:+ method) in
  reduce_dimensions sk embeddings method n_components = Raise refused ∧
  create_2d_visualization rt sk vectors_data messages_map method = Raise refused ∧
  create_3d_visualization rt sk vectors_data messages_map method = Raise refused ∧
  VisualizeWithClustering.cluster_view_reducer embeddings method = PCA 2 42.
Proof.
  intros Ht Hp refused.
  assert (Hred : ∀ X nc, reduce_dimensions sk X method nc = Raise refused).
  { intros X nc. rewrite reduce_dimensions_unfold. unfold make_reducer.
    destruct (String.eqb_spec method "tsne") as [?|_]; [done|].
    by destruct (String.eqb_spec method "pca") as [?|_]. }
  split; [apply Hred|]. split; [|split].
  - unfold create_2d_visualization. by rewrite Hred.
  - unfold create_3d_visualization. by rewrite Hred.
  - unfold VisualizeWithClustering.cluster_view_reducer.
    by destruct (String.eqb_spec method "tsne").
Qed.

Lemma unknown_method_is_refused_before_the_library_witness :
  let refused := ValueError "Unknown method: umap" in
  let embeddings := map vec_embedding Reference.fetched_records in
  reduce_dimensions Reference.sklearn_checks embeddings "umap" 2 = Raise refused ∧
  create_2d_visualization (Reference.process 0) Reference.sklearn_checks
    Reference.fetched_records Reference.fetched_metadata "umap" = Raise refused ∧
  create_3d_visualization (Reference.process 0) Reference.sklearn_checks
    Reference.fetched_records Reference.fetched_metadata "umap" = Raise refused ∧
  VisualizeWithClustering.cluster_view_reducer embeddings "umap" = PCA 2 42.
Proof.
  intros refused embeddings.
  apply (unknown_method_is_refused_before_the_library (Reference.process 0)
           Reference.sklearn_checks Reference.fetched_records Reference.fetched_metadata
           embeddings "umap" 2); discriminate.
Defined.
End MoreViews.

Section OutputFiles.
Import VisualizeClusters.

Lemma replace_absent old new s : occurs_in old s = false → replace old new s = s.
Proof.
  unfold replace. induction s as [|c s IH]; [done|].
  cbn [occurs_in replace_from]. intros [Hhere Hlater]%orb_false_elim.
  rewrite Hhere. by rewrite IH.
Qed.

Lemma append_cons c s t : String c s +:+ t = String c (s +:+ t).
Proof. reflexivity. Qed.

Lemma append_empty s : s +:+ "" = s.
Proof. induction s as [|c s IH]; [done|]. by rewrite append_cons, IH. Qed.

Lemma replace_html_suffix new base :
  occurs_in "." base = false →
  replace ".html" new (base +:+ ".html") = base +:+ new.
Proof.
  unfold replace. induction base as [|c base IH].
  - intros _. change ("" +:+ ".html") with ".html". simpl. by rewrite append_empty.
  - rewrite !append_cons. cbn [occurs_in str_prefix replace_from].
    destruct (Ascii.eqb "." c); cbn [str_prefix orb]; [done|].
    intros H. by rewrite IH.
Qed.

Lemma write_view_names wanted fig file r x :
  x ∈ written (write_view wanted fig file r) → x ∈ written r ∨ x.1 = file.
Proof.
  unfold write_view. destruct (outcome r); [|by left].
  destruct wanted; [|by left]. destruct fig; simpl; [|by left].
  intros [?|H]%elem_of_app; [by left|].
  apply list_elem_of_singleton in H as ->. by right.
Qed.

Lemma main_written_names rt sk args net x :
  x ∈ written (main rt sk args net) →
  x.1 = replace ".html" ("_" +:+ arg_method args +:+ "_" +:+ arg_dimensions args +:+ ".html")
          (arg_output args) ∨
  x.1 = replace ".html" "_comparison.html" (arg_output args) ∨
  x.1 = replace ".html" "_stats.html" (arg_output args).
Proof.
  unfold main.
  destruct (fetch_vectors_from_elasticsearch net) as [[|vec rest]|e];
    [by intros ?%elem_of_nil | | by intros ?%elem_of_nil].
  destruct (fetch_messages_from_api net) as [messages_map|e];
    [|by intros ?%elem_of_nil].
  intros [[[?%elem_of_nil|H]%write_view_names|H]%write_view_names|H]%write_view_names;
    [done|by left|by right; left|by right; right].
Qed.

(** X10. The names of the written files are the value of [--output] with
    every ".html" in it replaced by the suffix of the view. For an output
    "<base>.html" whose base has no dot they are "<base>_<method>_<dims>.html",
    "<base>_comparison.html" and "<base>_stats.html". For an output in which
    ".html" does not occur, nothing is replaced: every view of the run is
    written under the output name itself, one file for all. *)
Theorem output_file_names (rt : runtime) (sk : reducers) (args : arguments)
    (net : network) :
  (∀ base, arg_output args = base +:+ ".html" → occurs_in "." base = false →
     ∀ x, x ∈ written (main rt sk args net) →
       x.1 = base +:+ "_" +:+ arg_method args +:+ "_" +:+ arg_dimensions args +:+ ".html" ∨
       x.1 = base +:+ "_comparison.html" ∨
       x.1 = base +:+ "_stats.html") ∧
  (occurs_in ".html" (arg_output args) = false →
     ∀ x, x ∈ written (main rt sk args net) → x.1 = arg_output args).
Proof.
  split.
  - intros base Hout Hbase x Hx. apply main_written_names in Hx.
    by rewrite Hout, !replace_html_suffix in Hx.
  - intros Habsent x Hx. apply main_written_names in Hx.
    rewrite !replace_absent in Hx by done. by destruct Hx as [?|[?|?]].
Qed.
End OutputFiles.

Section AutoCount.
Import VisualizeWithClustering.

Lemma nearest_centroid_refuses :
  refuses_more_clusters_than_samples Reference.nearest_centroid.
Proof.
  intros params X Hlt. simpl.
  assert (Hno : (n_clusters params <=? len X) = false) by (apply Z.leb_gt; lia).
  rewrite Hno, andb_false_r. by eexists.
Qed.

(** X11. The auto-selected cluster count is at most the number of records
    exactly when there are at least two records. Over a library that refuses
    more clusters than samples, as scikit-learn does, clustering a single
    record (or none) without an explicit count therefore raises. *)
Theorem auto_count_needs_two_records (km : kmeans_lib) (embeddings : matrix) :
  refuses_more_clusters_than_samples km →
  (choose_n_clusters embeddings None ≤ len embeddings ↔ 2 ≤ len embeddings) ∧
  (len embeddings < 2 →
   ∃ msg, perform_clustering km embeddings None = Raise (ValueError msg)).
Proof.
  intros Hrefuses.
  assert (Hiff : choose_n_clusters embeddings None ≤ len embeddings ↔ 2 ≤ len embeddings).
  { unfold choose_n_clusters.
    pose proof (Z.div_le_upper_bound (len embeddings) 10 (len embeddings)).
    assert (0 ≤ len embeddings) by (unfold len; lia).
    assert (len embeddings `div` 10 ≤ len embeddings)
      by (apply Z.div_le_upper_bound; lia).
    lia. }
  split; [done|]. intros Hsmall.
  destruct (Hrefuses {| n_clusters := choose_n_clusters embeddings None;
                        km_random_state := 42; n_init := 10 |} embeddings)
    as [msg Hfit]; [simpl; lia|].
  exists msg. unfold perform_clustering, fit_predict. by rewrite Hfit.
Qed.

Lemma auto_count_needs_two_records_witness :
  ∃ msg, perform_clustering Reference.nearest_centroid [[1; 2; 3]%Q] None
           = Raise (ValueError msg).
Proof.
  apply (auto_count_needs_two_records Reference.nearest_centroid [[1; 2; 3]%Q]
           nearest_centroid_refuses).
  reflexivity.
Defined.

Lemma insert_unique_spec z l :
  StronglySorted Z.lt l →
  StronglySorted Z.lt (insert_unique z l) ∧ ∀ x, x ∈ insert_unique z l ↔ x = z ∨ x ∈ l.
Proof.
  induction 1 as [|y l Hl IH Hall]; simpl.
  - split; [by repeat constructor|]. intros x. set_solver.
  - destruct IH as [IHs IHm]. pose proof Hall as Hall'.
    rewrite Forall_forall in Hall'.
    destruct (Z.ltb_spec z y) as [Hlt|Hge].
    + split.
      * constructor; [by constructor|]. constructor; [done|].
        apply Forall_forall. intros x Hx. specialize (Hall' x Hx). lia.
      * intros x. by rewrite elem_of_cons.
    + destruct (Z.eqb_spec z y) as [->|Hne].
      * split; [by constructor|]. intros x. rewrite elem_of_cons. tauto.
      * split.
        -- constructor; [done|]. apply Forall_forall.
           intros x [->|Hx]%IHm; [lia|auto].
        -- intros x. rewrite !elem_of_cons, IHm. tauto.
Qed.

(* [unique] behaves as numpy documents [np.unique]: its result is strictly
   increasing, hence without repetition, and has exactly the labels that
   occur. *)
Lemma unique_sorted_distinct (labels : list Z) :
  StronglySorted Z.lt (unique labels) ∧
  NoDup (unique labels) ∧
  ∀ x, x ∈ unique labels ↔ x ∈ labels.
Proof.
  assert (H : StronglySorted Z.lt (unique labels) ∧ ∀ x, x ∈ unique labels ↔ x ∈ labels).
  { unfold unique. induction labels as [|l labels [IHs IHm]]; simpl.
    - split; [constructor|done].
    - destruct (insert_unique_spec l _ IHs) as [Hs Hm]. split; [done|].
      intros x. rewrite Hm, IHm, elem_of_cons. done. }
  destruct H as [Hs Hm]. split; [done|]. split; [|done].
  clear Hm. induction Hs as [|y l Hl IH Hall]; [constructor|].
  constructor; [|done]. rewrite Forall_forall in Hall.
  intros Hin. specialize (Hall y Hin). lia.
Qed.
End AutoCount.

Section ClusterTraces.
Import VisualizeWithClustering.

Lemma where_true_from (mask : list bool) : ∀ k,
  map fst (filter (fun p : nat * bool => p.2 = true) (imap (fun i b => (k + i, b)%nat) mask))
    = map (fun i => (k + i)%nat) (where_true mask).
Proof.
  unfold where_true. induction mask as [|b mask IH]; intros k; [done|].
  rewrite !imap_cons.
  rewrite (imap_ext ((fun i b => (k + i, b)%nat) ∘ S) (fun i b => (S k + i, b)%nat) mask)
    by (intros; simpl; f_equal; lia).
  rewrite (imap_ext ((fun i b => (i, b)) ∘ S) (fun i b => (1 + i, b)%nat) mask) by done.
  rewrite !filter_cons. cbn [snd].
  destruct b.
  - rewrite !decide_True by done. cbn [map fst]. rewrite (IH (S k)), (IH 1%nat).
    apply (f_equal (cons _)).
    generalize (map fst (filter (fun p : nat * bool => p.2 = true)
                           (imap (fun i b => (i, b)) mask))).
    intros W. rewrite List.map_map. apply List.map_ext. intros i. lia.
  - rewrite !decide_False by done. rewrite (IH (S k)), (IH 1%nat).
    generalize (map fst (filter (fun p : nat * bool => p.2 = true)
                           (imap (fun i b => (i, b)) mask))).
    intros W. rewrite List.map_map. apply List.map_ext. intros i. lia.
Qed.

Lemma where_true_cons b mask :
  where_true (b :: mask) = ((if b then [0%nat] else []) ++ map S (where_true mask))%list.
Proof.
  unfold where_true at 1. rewrite imap_cons.
  rewrite (imap_ext ((fun i b => (i, b)) ∘ S) (fun i b => (1 + i, b)%nat) mask) by done.
  rewrite filter_cons. cbn [snd].
  destruct b.
  - rewrite decide_True by done. cbn [map fst]. by rewrite (where_true_from mask 1).
  - rewrite decide_False by done. by rewrite (where_true_from mask 1).
Qed.

Lemma where_true_length mask :
  length (where_true mask) = length (filter (fun b : bool => b = true) mask).
Proof.
  induction mask as [|b mask IH]; [done|].
  rewrite where_true_cons, filter_cons, length_app, length_map, IH.
  by destruct b.
Qed.

Lemma where_true_bound mask i : i ∈ where_true mask → (i < length mask)%nat.
Proof.
  revert i. induction mask as [|b mask IH]; intros i; [by intros ?%elem_of_nil|].
  rewrite where_true_cons. intros [Hi|Hi]%elem_of_app.
  - destruct b; [|by apply elem_of_nil in Hi].
    apply list_elem_of_singleton in Hi as ->. simpl. lia.
  - apply list_elem_of_fmap in Hi as (j & -> & Hj). specialize (IH j Hj). simpl. lia.
Qed.

Lemma mask_count (labels : list Z) c :
  length (filter (fun b : bool => b = true) (map (fun l => l =? c) labels))
    = length (filter (fun l => l = c) labels).
Proof.
  induction labels as [|l labels IH]; [done|].
  cbn [map]. rewrite !filter_cons.
  destruct (Z.eqb_spec l c) as [->|Hne].
  - rewrite !decide_True by done. simpl. by rewrite IH.
  - rewrite !decide_False by done. done.
Qed.

Lemma masked_defined {A : Type} (mask : list bool) : ∀ a : list A,
  length mask = length a →
  ∃ xs, masked mask a = Ok xs ∧
        length xs = length (filter (fun b : bool => b = true) mask).
Proof.
  intros a Hlen. unfold masked. rewrite (proj2 (Nat.eqb_eq _ _) Hlen).
  eexists. split; [done|]. rewrite length_map.
  revert a Hlen. induction mask as [|b mask IH]; intros [|x a] Hlen; try done.
  cbn [zip_with]. rewrite !filter_cons. cbn [fst]. simpl in Hlen.
  destruct b.
  - rewrite !decide_True by done. simpl. f_equal. apply IH. lia.
  - rewrite !decide_False by done. apply IH. lia.
Qed.

Lemma masked_mismatch {A : Type} (mask : list bool) (a : list A) :
  length mask ≠ length a → masked mask a = Raise IndexError.
Proof.
  intros Hlen. unfold masked. by rewrite (proj2 (Nat.eqb_neq _ _) Hlen).
Qed.

Lemma where_true_elem mask i : mask !! i = Some true → i ∈ where_true mask.
Proof.
  revert i. induction mask as [|b mask IH]; intros i; [done|].
  rewrite where_true_cons. destruct i as [|i]; simpl.
  - intros [= ->]. apply elem_of_app. left. by left.
  - intros Hi. apply elem_of_app. right. apply list_elem_of_fmap. exists i.
    split; [done|]. by apply IH.
Qed.

(** [np.where(mask)[0]]: the positions of [True], in increasing order. *)
Lemma where_true_spec mask :
  StronglySorted lt (where_true mask) ∧
  ∀ i, i ∈ where_true mask ↔ mask !! i = Some true.
Proof.
  induction mask as [|b mask [IHs IHm]].
  - split; [constructor|]. intros i. split; [by intros ?%elem_of_nil|done].
  - rewrite where_true_cons. split.
    + apply StronglySorted_app_2.
      * intros i j Hi (j' & -> & _)%list_elem_of_fmap.
        destruct b; [|by apply elem_of_nil in Hi].
        apply list_elem_of_singleton in Hi as ->. lia.
      * destruct b; [by repeat constructor|constructor].
      * apply (StronglySorted_fmap S lt lt); [lia|done].
    + intros i. split.
      * intros [Hi|Hi]%elem_of_app.
        -- destruct b; [|by apply elem_of_nil in Hi].
           by apply list_elem_of_singleton in Hi as ->.
        -- apply list_elem_of_fmap in Hi as (j & -> & Hj). simpl. by apply IHm.
      * rewrite <- where_true_cons. apply where_true_elem.
Qed.

Lemma mask_lookup (labels : list Z) c i :
  map (fun l => l =? c) labels !! i = Some true ↔ labels !! i = Some c.
Proof.
  change (map ?f labels) with (f <$> labels). rewrite list_lookup_fmap.
  destruct (labels !! i) as [l|]; simpl; [|done].
  destruct (Z.eqb_spec l c) as [->|Hne]; split; try done; by intros [= ->].
Qed.

(** [a[mask]] keeps the entries at the positions [np.where(mask)[0]], in that
    order. *)
Lemma masked_lookup {A : Type} (mask : list bool) : ∀ (a xs : list A),
  masked mask a = Ok xs →
  ∀ k i, where_true mask !! k = Some i → xs !! k = a !! i.
Proof.
  unfold masked. intros a xs.
  destruct (Nat.eqb_spec (length mask) (length a)) as [Hlen|]; [|done].
  intros [= <-]. revert a Hlen.
  induction mask as [|b mask IH]; intros [|x a] Hlen; try done.
  rewrite where_true_cons. simpl in Hlen. cbn [zip_with]. rewrite filter_cons. cbn [fst].
  intros k i Hk. destruct b.
  - rewrite decide_True by done. destruct k as [|k]; simpl in Hk.
    + by injection Hk as <-.
    + apply list_lookup_fmap_Some in Hk as (j & -> & Hj). simpl.
      apply IH; [lia|done].
  - rewrite decide_False by done. simpl in Hk.
    apply list_lookup_fmap_Some in Hk as (j & -> & Hj). simpl.
    apply IH; [lia|done].
Qed.

(** The trace of one cluster, point by point, when there is one label per
    record: its points are the records with that label, in record order. *)
Lemma cluster_trace_points vectors_data messages_map (cluster_labels : list Z)
    (x y : list Q) c :
  length cluster_labels = length vectors_data →
  length x = length vectors_data → length y = length vectors_data →
  ∃ xs ys hover_texts indices,
    cluster_trace vectors_data messages_map cluster_labels x y c
      = Ok (Scatter xs ys "markers"
              {| marker_size := SizeAll 12;
                 marker_color :=
                   ColorNamed (nth (Z.to_nat (c `mod` 8))
                                 ["red"; "blue"; "green"; "orange"; "purple"; "cyan";
                                  "magenta"; "yellow"] "");
                 marker_colorscale := None;
                 marker_symbol := None;
                 marker_line := Some (1%Q, "white");
                 marker_opacity := Some (8 # 10)%Q |}
              None (Some hover_texts) (Some "text") ("Cluster " +:+ pretty c) None) ∧
    StronglySorted lt indices ∧
    (∀ i, i ∈ indices ↔ cluster_labels !! i = Some c) ∧
    length indices = length (filter (fun l => l = c) cluster_labels) ∧
    length xs = length indices ∧ length ys = length indices ∧
    length hover_texts = length indices ∧
    ∀ k i, indices !! k = Some i →
      xs !! k = x !! i ∧ ys !! k = y !! i ∧
      ∃ vec, vectors_data !! i = Some vec ∧
        hover_texts !! k
          = Some (cluster_hover_text c vec (messages_map !! vec_referenceId vec)).
Proof.
  intros Hl Hx Hy. unfold cluster_trace.
  set (mask := map (fun l => l =? c) cluster_labels).
  assert (Hmask : length mask = length cluster_labels) by (unfold mask; by rewrite length_map).
  destruct (mapM_all_ok (fun idx =>
      match vectors_data !! idx with
      | Some vec => Ok (cluster_hover_text c vec (messages_map !! vec_referenceId vec))
      | None => Raise IndexError
      end) (where_true mask)) as [hover Hh].
  { intros idx Hidx%where_true_bound.
    destruct (lookup_lt_is_Some_2 vectors_data idx) as [vec ->]; [lia|]. by eexists. }
  rewrite Hh. simpl.
  destruct (masked_defined mask x) as (xs & Hxs & Hlxs); [lia|].
  destruct (masked_defined mask y) as (ys & Hys & Hlys); [lia|].
  rewrite Hxs, Hys. simpl.
  exists xs, ys, hover, (where_true mask). split; [reflexivity|].
  destruct (where_true_spec mask) as [Hsorted Hmem].
  split; [done|]. split; [intros i; rewrite Hmem; apply mask_lookup|].
  pose proof (mapM_length _ _ _ Hh) as Hlh.
  pose proof (where_true_length mask) as Hw.
  pose proof (mask_count cluster_labels c) as Hcount. fold mask in Hcount.
  do 4 (split; [lia|]).
  intros k i Hk.
  split; [by apply (masked_lookup mask x xs Hxs)|].
  split; [by apply (masked_lookup mask y ys Hys)|].
  destruct (mapM_lookup _ _ _ _ _ Hh Hk) as (text & Htext & Hvec).
  destruct (vectors_data !! i) as [vec|]; [|done].
  exists vec. split; [done|]. by injection Hvec as <-.
Qed.

(** The trace of one cluster when there is one label per record. *)
Lemma cluster_trace_defined vectors_data messages_map (cluster_labels : list Z)
    (x y : list Q) c :
  length cluster_labels = length vectors_data →
  length x = length vectors_data → length y = length vectors_data →
  ∃ xs ys mk hover_texts,
    cluster_trace vectors_data messages_map cluster_labels x y c
      = Ok (Scatter xs ys "markers" mk None (Some hover_texts) (Some "text")
              ("Cluster " +:+ pretty c) None) ∧
    length xs = length (filter (fun l => l = c) cluster_labels) ∧
    length ys = length (filter (fun l => l = c) cluster_labels) ∧
    length hover_texts = length (filter (fun l => l = c) cluster_labels).
Proof.
  intros Hl Hx Hy. unfold cluster_trace.
  set (mask := map (fun l => l =? c) cluster_labels).
  assert (Hmask : length mask = length cluster_labels) by (unfold mask; by rewrite length_map).
  destruct (mapM_all_ok (fun idx =>
      match vectors_data !! idx with
      | Some vec => Ok (cluster_hover_text c vec (messages_map !! vec_referenceId vec))
      | None => Raise IndexError
      end) (where_true mask)) as [hover Hh].
  { intros idx Hidx%where_true_bound.
    destruct (lookup_lt_is_Some_2 vectors_data idx) as [vec ->]; [lia|]. by eexists. }
  rewrite Hh. simpl.
  destruct (masked_defined mask x) as (xs & -> & Hxs); [lia|].
  destruct (masked_defined mask y) as (ys & -> & Hys); [lia|].
  simpl. do 4 eexists. split; [reflexivity|].
  apply mapM_length in Hh. rewrite where_true_length in Hh.
  unfold mask in *. rewrite mask_count in *. done.
Qed.

Lemma cluster_trace_mismatch vectors_data messages_map (cluster_labels : list Z)
    (x y : list Q) c :
  length cluster_labels ≠ length x →
  cluster_trace vectors_data messages_map cluster_labels x y c = Raise IndexError.
Proof.
  intros Hne. unfold cluster_trace.
  destruct (mapM _ (where_true _)) as [hover|e] eqn:Hh; simpl.
  - rewrite masked_mismatch; [done|]. by rewrite length_map.
  - clear Hne. revert e Hh. induction (where_true _) as [|idx rest IH]; intros e; simpl; [done|].
    destruct (vectors_data !! idx); simpl; [|by intros [= <-]].
    destruct (mapM _ rest) as [hs|e'] eqn:Hrest; simpl; [done|].
    intros [= <-]. by rewrite (IH e').
Qed.

Lemma one_cluster_per_label (clusters : list Z) l :
  NoDup clusters → l ∈ clusters →
  sum_list_with (fun c => if decide (l = c) then 1%nat else 0%nat) clusters = 1%nat.
Proof.
  induction 1 as [|c clusters Hc Hnd IH]; [by intros ?%elem_of_nil|].
  simpl. intros [->|Hin]%elem_of_cons.
  - rewrite decide_True by done.
    assert (sum_list_with (fun c0 => if decide (c = c0) then 1%nat else 0%nat) clusters = 0%nat)
      as ->; [|done].
    clear IH Hnd. induction clusters as [|c' clusters IH]; [done|]. simpl.
    rewrite not_elem_of_cons in Hc. destruct Hc as [Hne Hc].
    rewrite decide_False by done. by rewrite IH.
  - rewrite decide_False by (intros ->; done). by rewrite IH.
Qed.

(** Every label is counted under exactly one cluster. *)
Lemma clusters_partition (clusters labels : list Z) :
  NoDup clusters → (∀ l, l ∈ labels → l ∈ clusters) →
  sum_list_with (fun c => length (filter (fun l => l = c) labels)) clusters = length labels.
Proof.
  intros Hnd. induction labels as [|l labels IH]; intros Hsub.
  - clear. induction clusters as [|c clusters IHc]; [done|]. simpl. exact IHc.
  - assert (Hsplit :
      sum_list_with (fun c => length (filter (fun l' => l' = c) (l :: labels))) clusters
      = (sum_list_with (fun c => if decide (l = c) then 1%nat else 0%nat) clusters
         + sum_list_with (fun c => length (filter (fun l' => l' = c) labels)) clusters)%nat).
    { clear. induction clusters as [|c clusters IHc]; [done|]. simpl.
      rewrite IHc, filter_cons. destruct (decide (l = c)); simpl; lia. }
    rewrite Hsplit, (one_cluster_per_label clusters l Hnd) by (apply Hsub; by left).
    rewrite IH by (intros l' Hl'; apply Hsub; by right). done.
Qed.
End ClusterTraces.

Section ClusterView.
Import VisualizeWithClustering.

Lemma mapM_total {A B : Type} (f : A → result B) (g : B → nat) (h : A → nat)
    (l : list A) : ∀ bs,
  mapM f l = Ok bs → (∀ a b, a ∈ l → f a = Ok b → g b = h a) →
  foldr (fun b n => (g b + n)%nat) 0%nat bs = sum_list_with h l.
Proof.
  induction l as [|a l IH]; intros bs; simpl.
  - by intros [= <-].
  - destruct (f a) as [b|e] eqn:Hf; simpl; [|done].
    destruct (mapM f l) as [bs'|e]; simpl; [|done].
    intros [= <-] Hgh. simpl. rewrite (Hgh a b) by (done || by left).
    f_equal. apply IH; [done|]. intros a' b' Ha'. apply Hgh. by right.
Qed.

Lemma cluster_view_coordinates (sk : reducers) vectors_data method reduced :
  rows_preserved sk → columns_as_requested sk →
  fit_transform sk (cluster_view_reducer (map vec_embedding vectors_data) method)
    (map vec_embedding vectors_data) = Ok reduced →
  ∃ x y, column 0 reduced = Ok x ∧ column 1 reduced = Ok y ∧
         length x = length vectors_data ∧ length y = length vectors_data.
Proof.
  intros Hrows Hcols Hfit.
  pose proof (Hrows _ _ _ Hfit) as Hlen. rewrite length_map in Hlen.
  assert (Hwide : ∀ row, row ∈ reduced → len row = 2).
  { intros row Hrow. rewrite (Hcols _ _ _ _ Hfit Hrow).
    unfold cluster_view_reducer. by destruct (String.eqb method "tsne"). }
  destruct (column_of_wide_rows 0 2 reduced Hwide) as (x & Hx & Hlx & _); [lia|].
  destruct (column_of_wide_rows 1 2 reduced Hwide) as (y & Hy & Hly & _); [lia|].
  exists x, y. repeat split; (done || lia).
Qed.

Lemma cluster_view_columns (reduced : matrix) (x y : list Q) :
  column 0 reduced = Ok x → column 1 reduced = Ok y →
  ∀ i, x !! i = reduced !! i ≫= (fun row => row !! 0%nat) ∧
       y !! i = reduced !! i ≫= (fun row => row !! 1%nat).
Proof. intros Hx Hy i. by rewrite (column_lookup _ _ _ i Hx), (column_lookup _ _ _ i Hy). Qed.

(** X13. With one label per record, over a library that keeps the shape
    contract and returns a reduction, the clustered view is built with one
    trace per label that occurs, in increasing label order, named
    "Cluster <label>" and coloured from the palette by the label modulo 8.
    The points of the trace of a label are the records with that label, in
    record order: point [k] of the trace lies at the first two coordinates of
    the row of the [k]-th such record and carries that record's hover text.
    Every record has a label that occurs, no label has two traces and no
    record is twice in a trace, so the traces together draw every record
    exactly once. *)
Theorem cluster_view_draws_every_record_once (sk : reducers)
    (vectors_data : list vector_record) (messages_map : gmap string metadata)
    (cluster_labels : list Z) (method : string) (reduced : matrix) :
  rows_preserved sk → columns_as_requested sk →
  length cluster_labels = length vectors_data →
  fit_transform sk (cluster_view_reducer (map vec_embedding vectors_data) method)
    (map vec_embedding vectors_data) = Ok reduced →
  ∃ fig,
    create_cluster_visualization sk vectors_data messages_map cluster_labels method
      = Ok fig ∧
    length (fig_data fig) = length (unique cluster_labels) ∧
    point_count fig = length vectors_data ∧
    NoDup (unique cluster_labels) ∧
    (∀ i vec, vectors_data !! i = Some vec →
       ∃ c, cluster_labels !! i = Some c ∧ c ∈ unique cluster_labels) ∧
    ∀ j c, unique cluster_labels !! j = Some c →
      ∃ xs ys hover_texts indices,
        fig_data fig !! j
          = Some (Scatter xs ys "markers"
                    {| marker_size := SizeAll 12;
                       marker_color :=
                         ColorNamed (nth (Z.to_nat (c `mod` 8))
                                       ["red"; "blue"; "green"; "orange"; "purple";
                                        "cyan"; "magenta"; "yellow"] "");
                       marker_colorscale := None;
                       marker_symbol := None;
                       marker_line := Some (1%Q, "white");
                       marker_opacity := Some (8 # 10)%Q |}
                    None (Some hover_texts) (Some "text")
                    ("Cluster " +:+ pretty c) None, None) ∧
        StronglySorted lt indices ∧
        (∀ i, i ∈ indices ↔ cluster_labels !! i = Some c) ∧
        length indices = length (filter (fun l => l = c) cluster_labels) ∧
        length xs = length indices ∧ length ys = length indices ∧
        length hover_texts = length indices ∧
        ∀ k i, indices !! k = Some i →
          is_Some (xs !! k) ∧ is_Some (ys !! k) ∧
          xs !! k = reduced !! i ≫= (fun row => row !! 0%nat) ∧
          ys !! k = reduced !! i ≫= (fun row => row !! 1%nat) ∧
          ∃ vec, vectors_data !! i = Some vec ∧
            let msg := messages_map !! vec_referenceId vec in
            hover_texts !! k = Some (
              nl +:+ "            <b>Cluster " +:+ pretty c +:+ "</b><br>" +:+
              nl +:+ "            ID: " +:+ str_take 12 (vec_referenceId vec) +:+ "...<br>" +:+
              nl +:+ "            Type: " +:+ from_option meta_messageType "N/A" msg +:+ "<br>" +:+
              nl +:+ "            Sender: " +:+ from_option meta_senderId "N/A" msg +:+ "<br>" +:+
              nl +:+ "            Receiver: " +:+ from_option meta_receiverId "N/A" msg +:+ "<br>" +:+
              nl +:+ "            Status: " +:+ from_option meta_status "N/A" msg +:+
              nl +:+ "            ").
Proof.
  intros Hrows Hcols Hlabels Hfit.
  destruct (cluster_view_coordinates sk vectors_data method reduced Hrows Hcols Hfit)
    as (x & y & Hx & Hy & Hlx & Hly).
  pose proof (cluster_view_columns reduced x y Hx Hy) as Hxy.
  pose proof (cluster_trace_points vectors_data messages_map cluster_labels x y)
    as Htrace.
  destruct (mapM_all_ok (cluster_trace vectors_data messages_map cluster_labels x y)
              (unique cluster_labels)) as [traces Htraces].
  { intros c _. destruct (Htrace c Hlabels Hlx Hly) as (xs & ys & hs & ids & -> & _).
    by eexists. }
  destruct (unique_sorted_distinct cluster_labels) as (_ & Hnd & Hmem).
  unfold create_cluster_visualization. rewrite Hfit. simpl. rewrite Hx. simpl.
  rewrite Hy. simpl. rewrite Htraces. simpl.
  eexists. split; [reflexivity|]. simpl.
  split; [by rewrite length_map, (mapM_length _ _ _ Htraces)|]. split; [|split; [done|split]].
  - unfold point_count. simpl.
    rewrite <- Hlabels, <- (clusters_partition (unique cluster_labels) cluster_labels Hnd)
      by (intros l Hl; by apply Hmem).
    rewrite <- (mapM_total _ trace_points _ _ traces Htraces).
    + clear. induction traces as [|t traces IH]; [done|]. simpl. by rewrite IH.
    + intros c t _ Ht.
      destruct (Htrace c Hlabels Hlx Hly)
        as (xs & ys & hs & ids & Hc & _ & _ & Hids & Hxs & _).
      rewrite Hc in Ht. injection Ht as <-. simpl. lia.
  - intros i vec Hi.
    destruct (lookup_lt_is_Some_2 cluster_labels i) as [c Hc];
      [apply lookup_lt_Some in Hi; lia|].
    exists c. split; [done|]. apply Hmem. by apply list_elem_of_lookup_2 in Hc.
  - intros j c Hj.
    destruct (mapM_lookup _ _ _ _ _ Htraces Hj) as (t & Ht & Hc).
    destruct (Htrace c Hlabels Hlx Hly)
      as (xs & ys & hs & ids & Hc' & Hsorted & Hids & Hcount & Hxs & Hys & Hhs & Hpoints).
    rewrite Hc' in Hc. injection Hc as <-.
    exists xs, ys, hs, ids.
    split; [change (map ?f traces) with (f <$> traces); by rewrite list_lookup_fmap, Ht|].
    do 6 (split; [done|]).
    intros k i Hk.
    destruct (Hpoints k i Hk) as (Hxk & Hyk & vec & Hvec & Hhover).
    pose proof (lookup_lt_Some _ _ _ Hk) as Hlt.
    split; [apply lookup_lt_is_Some; lia|]. split; [apply lookup_lt_is_Some; lia|].
    destruct (Hxy i) as [Hxi Hyi].
    split; [by rewrite Hxk, Hxi|]. split; [by rewrite Hyk, Hyi|].
    exists vec. split; [done|]. simpl. by rewrite Hhover.
Qed.

Lemma cluster_view_draws_every_record_once_witness :
  ∃ fig,
    create_cluster_visualization Reference.sklearn_checks Reference.clustering_records
      Reference.clustering_metadata [0; 1; 0; 1; 0] "pca" = Ok fig ∧
    length (fig_data fig) = 2%nat ∧
    point_count fig = 5%nat.
Proof.
  destruct (cluster_view_draws_every_record_once Reference.sklearn_checks
              Reference.clustering_records Reference.clustering_metadata [0; 1; 0; 1; 0]
              "pca" [[1; 0]; [0; 1]; [3; 1]; [1; 1]; [2; 2]]%Q
              sklearn_checks_rows_preserved sklearn_checks_columns)
    as (fig & Hfig & Htraces & Hcount & _); try reflexivity.
  exists fig. split; [exact Hfig|]. split; [exact Htraces | exact Hcount].
Defined.

(** X14. The clustered view needs one label per record. With no label at all
    it is built without a single trace, however many records there are; with
    labels whose number differs from the number of records it raises
    [IndexError]. *)
Theorem cluster_view_needs_one_label_per_record (sk : reducers)
    (vectors_data : list vector_record) (messages_map : gmap string metadata)
    (cluster_labels : list Z) (method : string) (reduced : matrix) :
  rows_preserved sk → columns_as_requested sk →
  fit_transform sk (cluster_view_reducer (map vec_embedding vectors_data) method)
    (map vec_embedding vectors_data) = Ok reduced →
  (cluster_labels = [] →
   ∃ fig, create_cluster_visualization sk vectors_data messages_map [] method = Ok fig ∧
          fig_data fig = [] ∧ point_count fig = 0%nat) ∧
  (cluster_labels ≠ [] → length cluster_labels ≠ length vectors_data →
   create_cluster_visualization sk vectors_data messages_map cluster_labels method
     = Raise IndexError).
Proof.
  intros Hrows Hcols Hfit.
  destruct (cluster_view_coordinates sk vectors_data method reduced Hrows Hcols Hfit)
    as (x & y & Hx & Hy & Hlx & Hly).
  split.
  - intros _. unfold create_cluster_visualization. rewrite Hfit. simpl. rewrite Hx. simpl.
    rewrite Hy. simpl. by eexists.
  - intros Hne Hlen.
    destruct (unique_sorted_distinct cluster_labels) as (_ & _ & Hmem).
    destruct (unique cluster_labels) as [|c rest] eqn:Hu.
    { destruct cluster_labels as [|l labels]; [done|].
      assert (l ∈ @nil Z) as Hin by (apply Hmem; by left).
      by apply elem_of_nil in Hin. }
    unfold create_cluster_visualization. rewrite Hfit. simpl. rewrite Hx. simpl.
    rewrite Hy. simpl. rewrite Hu. simpl.
    rewrite cluster_trace_mismatch by lia. done.
Qed.

Lemma cluster_view_needs_one_label_per_record_witness :
  create_cluster_visualization Reference.sklearn_checks Reference.clustering_records
    Reference.clustering_metadata [0; 1] "pca" = Raise IndexError.
Proof.
  destruct (cluster_view_needs_one_label_per_record Reference.sklearn_checks
              Reference.clustering_records Reference.clustering_metadata [0; 1]
              "pca" [[1; 0]; [0; 1]; [3; 1]; [1; 1]; [2; 2]]%Q
              sklearn_checks_rows_preserved sklearn_checks_columns)
    as [_ Hmismatch]; [reflexivity|].
  apply Hmismatch; discriminate.
Defined.
End ClusterView.

Section ClusterDetails.
Import VisualizeWithClustering.

Lemma count_members_defined vectors_data messages_map (indices : list nat) : ∀ acc,
  (∀ idx, idx ∈ indices → (idx < length vectors_data)%nat) →
  ∃ counted,
    foldM (count_member vectors_data messages_map) indices acc = Ok counted ∧
    sum (values counted.1) = sum (values acc.1) + len indices ∧
    sum (values counted.2) = sum (values acc.2) + len indices.
Proof.
  unfold len. induction indices as [|idx indices IH]; intros acc Hvalid; simpl.
  - exists acc. split; [done|]. lia.
  - unfold count_member at 1.
    destruct (lookup_lt_is_Some_2 vectors_data idx) as [vec ->]; [apply Hvalid; by left|].
    simpl. destruct (IH (incr (msg_get meta_messageType "UNKNOWN"
                                 (messages_map !! vec_referenceId vec)) acc.1,
                         incr (msg_get meta_senderId "UNKNOWN"
                                 (messages_map !! vec_referenceId vec)) acc.2))
      as (counted & -> & H1 & H2); [intros i Hi; apply Hvalid; by right|].
    exists counted. split; [done|]. simpl in H1, H2.
    rewrite sum_values_incr in H1, H2. lia.
Qed.

Lemma count_members_out_of_range vectors_data messages_map (indices : list nat) idx :
  idx ∈ indices → (length vectors_data ≤ idx)%nat →
  ∀ acc, foldM (count_member vectors_data messages_map) indices acc = Raise IndexError.
Proof.
  intros Hin Hout. induction indices as [|i indices IH]; intros acc; simpl.
  - by apply elem_of_nil in Hin.
  - unfold count_member at 1. destruct (vectors_data !! i) as [vec|] eqn:Hi; simpl; [|done].
    apply elem_of_cons in Hin as [->|Hin]; [|by apply IH].
    apply lookup_lt_Some in Hi. lia.
Qed.

Lemma count_members_raise vectors_data messages_map (indices : list nat) : ∀ acc e,
  foldM (count_member vectors_data messages_map) indices acc = Raise e → e = IndexError.
Proof.
  induction indices as [|i indices IH]; intros acc e; simpl; [done|].
  unfold count_member at 1. destruct (vectors_data !! i); simpl; [apply IH|].
  by intros [= <-].
Qed.

Lemma cluster_stat_defined vectors_data messages_map (cluster_labels : list Z) c :
  (length cluster_labels ≤ length vectors_data)%nat →
  ∃ stat,
    cluster_stat_of vectors_data messages_map cluster_labels c = Ok stat ∧
    stat_cluster_id stat = c ∧
    stat_size stat = len (filter (fun l => l = c) cluster_labels) ∧
    sum (values (stat_types stat)) = stat_size stat ∧
    sum (values (stat_senders stat)) = stat_size stat.
Proof.
  intros Hlen. unfold cluster_stat_of.
  set (mask := map (fun l => l =? c) cluster_labels).
  destruct (count_members_defined vectors_data messages_map (where_true mask) ([], []))
    as (counted & -> & H1 & H2).
  { intros idx Hidx%where_true_bound. unfold mask in Hidx. rewrite length_map in Hidx. lia. }
  simpl. eexists. split; [reflexivity|]. simpl. split; [done|].
  split; [|split; simpl in H1, H2; lia].
  unfold len, mask. by rewrite where_true_length, mask_count.
Qed.

Lemma cluster_stat_raise vectors_data messages_map (cluster_labels : list Z) c e :
  cluster_stat_of vectors_data messages_map cluster_labels c = Raise e → e = IndexError.
Proof.
  unfold cluster_stat_of. destruct (foldM _ _ _) as [counted|e'] eqn:Hf; simpl; [done|].
  intros [= <-]. by apply count_members_raise in Hf.
Qed.

Lemma sum_of_sizes (h : Z → nat) (clusters : list Z) :
  sum (map (fun c => Z.of_nat (h c)) clusters) = Z.of_nat (sum_list_with h clusters).
Proof. unfold sum. induction clusters as [|c clusters IH]; simpl; [done|]. lia. Qed.

(** The positions [np.where] finds for a label are those of the records
    labelled with it. *)
Lemma labelled_positions (cluster_labels : list Z) c : ∀ vectors_data,
  (length cluster_labels ≤ length vectors_data)%nat →
  Forall2 (fun idx vec => vectors_data !! idx = Some vec)
    (where_true (map (fun l => l =? c) cluster_labels))
    (records_labelled vectors_data cluster_labels c).
Proof.
  unfold records_labelled.
  induction cluster_labels as [|l labels IH]; intros [|vec rest] Hlen; simpl in Hlen;
    try lia; [constructor..|].
  cbn [map zip_with]. rewrite where_true_cons, filter_cons. cbn [fst].
  assert (Hrest : Forall2 (fun idx vec' => (vec :: rest) !! idx = Some vec')
            (map S (where_true (map (fun l => l =? c) labels)))
            (map snd (filter (fun p : Z * vector_record => p.1 = c) (zip labels rest)))).
  { change (map S ?l) with (S <$> l). apply Forall2_fmap_l. simpl. apply IH. lia. }
  destruct (Z.eqb_spec l c) as [->|Hne].
  - rewrite decide_True by done. simpl. by constructor.
  - by rewrite decide_False by done.
Qed.

Lemma count_members_fold vectors_data messages_map (indices : list nat)
    (members : list vector_record) :
  Forall2 (fun idx vec => vectors_data !! idx = Some vec) indices members →
  ∀ acc,
    foldM (count_member vectors_data messages_map) indices acc
      = Ok (fold_left (count_under (fun vec => Some (message_type_of messages_map vec)))
              members acc.1,
            fold_left (count_under (fun vec => Some (sender_of messages_map vec)))
              members acc.2).
Proof.
  induction 1 as [|idx vec indices members Hvec _ IH]; intros acc; simpl.
  - by destruct acc.
  - unfold count_member at 1. rewrite Hvec. simpl. by rewrite IH.
Qed.

Lemma counting_loop_sum {A : Type} (key : A → string) (l : list A) : ∀ d,
  sum (values (fold_left (count_under (fun a => Some (key a))) l d))
    = sum (values d) + len l.
Proof.
  unfold len. induction l as [|a l IH]; intros d; simpl; [lia|].
  rewrite IH. unfold count_under. rewrite sum_values_incr. lia.
Qed.

Lemma records_labelled_length vectors_data (cluster_labels : list Z) c :
  (length cluster_labels ≤ length vectors_data)%nat →
  length (records_labelled vectors_data cluster_labels c)
    = length (filter (fun l => l = c) cluster_labels).
Proof.
  intros Hlen.
  rewrite <- (Forall2_length _ _ _ (labelled_positions cluster_labels c vectors_data Hlen)).
  by rewrite where_true_length, mask_count.
Qed.

(** The statistics entry of a label, in terms of the records labelled with
    it. *)
Lemma cluster_stat_value vectors_data messages_map (cluster_labels : list Z) c :
  (length cluster_labels ≤ length vectors_data)%nat →
  let members := records_labelled vectors_data cluster_labels c in
  cluster_stat_of vectors_data messages_map cluster_labels c
    = Ok {| stat_cluster_id := c;
            stat_size := len members;
            stat_types :=
              fold_left (count_under (fun vec => Some (message_type_of messages_map vec)))
                members [];
            stat_senders :=
              fold_left (count_under (fun vec => Some (sender_of messages_map vec)))
                members [] |}.
Proof.
  intros Hlen members. unfold cluster_stat_of.
  pose proof (labelled_positions cluster_labels c vectors_data Hlen) as Hpos.
  rewrite (count_members_fold _ messages_map _ _ Hpos). simpl.
  unfold len. by rewrite (Forall2_length _ _ _ Hpos).
Qed.

Lemma mapM_pure {A B : Type} (f : A → result B) (g : A → B) (l : list A) :
  (∀ a, a ∈ l → f a = Ok (g a)) → mapM f l = Ok (map g l).
Proof.
  induction l as [|a l IH]; intros Hf; simpl; [done|].
  rewrite (Hf a) by (by left). simpl.
  rewrite IH by (intros a' Ha'; apply Hf; by right). done.
Qed.

(** The sender chart of one cluster. *)
Lemma top_senders_trace_spec (stat : cluster_stat) :
  stat_senders stat ≠ [] →
  ∃ top left_out : counter,
    top_senders_trace stat
      = [(Bar top.*1 top.*2 ("Cluster " +:+ pretty (stat_cluster_id stat)) None
            (Some false), Some (2, 1))] ∧
    (top ++ left_out)%list ≡ₚ stat_senders stat ∧
    length top = (3 `min` length (stat_senders stat))%nat ∧
    StronglySorted by_count_desc (top ++ left_out)%list.
Proof.
  intros Hne.
  exists (take 3 (sorted_desc (stat_senders stat))), (drop 3 (sorted_desc (stat_senders stat))).
  pose proof (sorted_desc_perm (stat_senders stat)) as Hperm.
  split.
  - unfold top_senders_trace.
    destruct (take 3 (sorted_desc (stat_senders stat))) as [|it top] eqn:Htop; [|done].
    apply (f_equal length) in Htop. rewrite length_take in Htop.
    rewrite (Permutation_length Hperm) in Htop.
    destruct (stat_senders stat); [done|]. simpl in Htop. lia.
  - rewrite take_drop. split; [done|].
    split; [by rewrite length_take, (Permutation_length Hperm)|].
    apply sorted_desc_sorted.
Qed.

(** X15. With no more labels than records, the cluster statistics are built
    for any iteration order of the type set, from one entry per label that
    occurs, in increasing label order. The entry of a label counts the
    records with that label: its size is their number (positive, and the
    sizes add up to the number of labels), its types are the message types of
    these records with the number of records of each, its senders likewise,
    so the counts by type and the counts by sender each add up to the size.
    The figure shows the entries: the size bar chart first, then one bar
    trace per message type the set gives, with the number of records of that
    type per cluster, then per cluster a bar trace of its at most three most
    frequent senders, and the distribution pie last. With more labels than
    records the function raises [IndexError]. *)
Theorem cluster_details_sizes (set_iter : list string → list string)
    (vectors_data : list vector_record) (messages_map : gmap string metadata)
    (cluster_labels : list Z) :
  ((length cluster_labels ≤ length vectors_data)%nat →
   let names := map (fun c => "Cluster " +:+ pretty c) (unique cluster_labels) in
   let type_key (vec : vector_record) :=
     Some (from_option meta_messageType "UNKNOWN" (messages_map !! vec_referenceId vec)) in
   let sender_key (vec : vector_record) :=
     Some (from_option meta_senderId "UNKNOWN" (messages_map !! vec_referenceId vec)) in
   let members (stat : cluster_stat) :=
     records_labelled vectors_data cluster_labels (stat_cluster_id stat) in
   ∃ fig stats sender_traces,
     create_cluster_details set_iter vectors_data messages_map cluster_labels = Ok fig ∧
     map stat_cluster_id stats = unique cluster_labels ∧
     (∀ stat, stat ∈ stats →
        stat_size stat = len (members stat) ∧
        stat_size stat = len (filter (fun l => l = stat_cluster_id stat) cluster_labels) ∧
        0 < stat_size stat ∧
        NoDup (stat_types stat).*1 ∧
        NoDup (stat_senders stat).*1 ∧
        (∀ k n, (k, n) ∈ stat_types stat ↔
           n = occurrences type_key k (members stat) ∧ 0 < n) ∧
        (∀ k n, (k, n) ∈ stat_senders stat ↔
           n = occurrences sender_key k (members stat) ∧ 0 < n) ∧
        sum (stat_types stat).*2 = stat_size stat ∧
        sum (stat_senders stat).*2 = stat_size stat) ∧
     sum (map stat_size stats) = len cluster_labels ∧
     fig_data fig =
       ([(Bar names (map stat_size stats) "Size" (Some "lightblue") None, Some (1, 1))]
        ++ map (fun msg_type =>
                  (Bar names
                     (map (fun stat => occurrences type_key msg_type (members stat)) stats)
                     msg_type None None, Some (1, 2)))
             (set_iter (concat (map (fun stat => (stat_types stat).*1) stats)))
        ++ sender_traces
        ++ [(Pie names (map stat_size stats) "Distribution", Some (2, 2))])%list ∧
     Forall2 (fun stat tr =>
                ∃ top left_out : counter,
                  tr = (Bar top.*1 top.*2
                          ("Cluster " +:+ pretty (stat_cluster_id stat)) None (Some false),
                        Some (2, 1)) ∧
                  (top ++ left_out)%list ≡ₚ stat_senders stat ∧
                  length top = (3 `min` length (stat_senders stat))%nat ∧
                  StronglySorted by_count_desc (top ++ left_out)%list)
       stats sender_traces) ∧
  ((length vectors_data < length cluster_labels)%nat →
   create_cluster_details set_iter vectors_data messages_map cluster_labels
     = Raise IndexError).
Proof.
  destruct (unique_sorted_distinct cluster_labels) as (_ & Hnd & Hmem).
  split.
  - intros Hlen names type_key sender_key members.
    set (entry := fun c =>
      {| stat_cluster_id := c;
         stat_size := len (records_labelled vectors_data cluster_labels c);
         stat_types := fold_left (count_under type_key)
                         (records_labelled vectors_data cluster_labels c) [];
         stat_senders := fold_left (count_under sender_key)
                           (records_labelled vectors_data cluster_labels c) [] |}).
    set (stats := map entry (unique cluster_labels)).
    assert (Hstats : mapM (cluster_stat_of vectors_data messages_map cluster_labels)
                       (unique cluster_labels) = Ok stats).
    { apply mapM_pure. intros c _.
      apply (cluster_stat_value vectors_data messages_map cluster_labels c Hlen). }
    assert (Hids : map stat_cluster_id stats = unique cluster_labels).
    { unfold stats. rewrite List.map_map. simpl. apply List.map_id. }
    assert (Hentry : ∀ stat, stat ∈ stats →
              ∃ c, c ∈ unique cluster_labels ∧ stat = entry c).
    { intros stat (c & -> & Hc)%list_elem_of_fmap. by exists c. }
    assert (Hsize : ∀ c, c ∈ unique cluster_labels →
              0 < len (records_labelled vectors_data cluster_labels c)).
    { intros c Hc. unfold len. rewrite records_labelled_length by done.
      assert (c ∈ filter (fun l => l = c) cluster_labels) as Hin
        by (apply list_elem_of_filter; split; [done|by apply Hmem]).
      destruct (filter _ cluster_labels); [by apply elem_of_nil in Hin|]. simpl. lia. }
    assert (Hget : ∀ t stat, stat ∈ stats →
              counter_get t (stat_types stat) = occurrences type_key t (members stat)).
    { intros t stat (c & _ & ->)%Hentry. unfold members. simpl.
      destruct (counting_loop type_key
                  (records_labelled vectors_data cluster_labels c) [])
        as (_ & _ & Hcount); [apply NoDup_nil_2 | constructor |].
      rewrite (Hcount t). simpl. lia. }
    unfold create_cluster_details. rewrite Hstats. simpl.
    eexists _, stats, (concat (map top_senders_trace stats)).
    split; [reflexivity|]. split; [exact Hids|]. simpl.
    split; [|split; [|split]].
    + intros stat (c & Hc & ->)%Hentry. unfold members. simpl.
      destruct (counting_loop_entries type_key
                  (records_labelled vectors_data cluster_labels c)) as [Ht1 Ht2].
      destruct (counting_loop_entries sender_key
                  (records_labelled vectors_data cluster_labels c)) as [Hs1 Hs2].
      split; [done|].
      split; [unfold len; by rewrite records_labelled_length|].
      split; [by apply Hsize|].
      split; [exact Ht1|]. split; [exact Hs1|].
      split; [exact Ht2|]. split; [exact Hs2|].
      split.
      * exact (counting_loop_sum
                 (fun vec => from_option meta_messageType "UNKNOWN"
                               (messages_map !! vec_referenceId vec)) _ []).
      * exact (counting_loop_sum
                 (fun vec => from_option meta_senderId "UNKNOWN"
                               (messages_map !! vec_referenceId vec)) _ []).
    + unfold stats. rewrite List.map_map. simpl.
      assert (map (fun c => len (records_labelled vectors_data cluster_labels c))
                (unique cluster_labels)
              = map (fun c => Z.of_nat (length (filter (fun l => l = c) cluster_labels)))
                  (unique cluster_labels)) as ->.
      { apply List.map_ext. intros c. unfold len. by rewrite records_labelled_length. }
      rewrite sum_of_sizes, (clusters_partition _ _ Hnd); [done|].
      intros l Hl. by apply Hmem.
    + rewrite Hids. fold names. apply (f_equal (cons _)). f_equal.
      apply List.map_ext_in. intros t _. f_equal. f_equal.
      apply List.map_ext_in. intros stat Hstat%list_elem_of_In. by apply Hget.
    + assert (Hall : Forall (fun stat => stat_senders stat ≠ []) stats).
      { apply Forall_forall. intros stat (c & Hc & ->)%Hentry. simpl.
        intros Hnil.
        assert (Hsum : sum (values (fold_left (count_under sender_key)
                                      (records_labelled vectors_data cluster_labels c) []))
                       = sum (values []) + len (records_labelled vectors_data cluster_labels c))
          by exact (counting_loop_sum
                      (fun vec => from_option meta_senderId "UNKNOWN"
                                    (messages_map !! vec_referenceId vec)) _ []).
        rewrite Hnil in Hsum. specialize (Hsize c Hc).
        unfold sum in Hsum. simpl in Hsum. lia. }
      clear -Hall. induction Hall as [|stat rest Hne _ IH]; [constructor|].
      destruct (top_senders_trace_spec stat Hne) as (top & left_out & Htr & Hrest).
      cbn [map concat]. rewrite Htr. simpl. constructor; [|exact IH].
      by exists top, left_out.
  - intros Hlen.
    destruct (lookup_lt_is_Some_2 cluster_labels (length vectors_data)) as [l Hl]; [lia|].
    assert (l ∈ unique cluster_labels) as Hin
      by (apply Hmem; by apply list_elem_of_lookup_2 in Hl).
    assert (cluster_stat_of vectors_data messages_map cluster_labels l = Raise IndexError)
      as Hraise.
    { unfold cluster_stat_of.
      rewrite (count_members_out_of_range _ _ _ (length vectors_data)); [done| |lia].
      apply where_true_elem.
      change (map ?f cluster_labels) with (f <$> cluster_labels).
      rewrite list_lookup_fmap, Hl. simpl. by rewrite Z.eqb_refl. }
    destruct (mapM_raises _ _ _ _ Hin Hraise) as (c' & e' & _ & He' & Hm).
    apply cluster_stat_raise in He' as ->.
    unfold create_cluster_details. by rewrite Hm.
Qed.
End ClusterDetails.

Section ClusteringRun.
Import VisualizeClusters VisualizeWithClustering.

Lemma cluster_view_defined (sk : reducers) (vectors_data : list vector_record)
    (messages_map : gmap string metadata) (cluster_labels : list Z) (method : string)
    (reduced : matrix) :
  rows_preserved sk → columns_as_requested sk →
  length cluster_labels = length vectors_data →
  fit_transform sk (cluster_view_reducer (map vec_embedding vectors_data) method)
    (map vec_embedding vectors_data) = Ok reduced →
  ∃ fig,
    create_cluster_visualization sk vectors_data messages_map cluster_labels method = Ok fig.
Proof.
  intros Hrows Hcols Hlabels Hfit.
  destruct (cluster_view_coordinates sk vectors_data method reduced Hrows Hcols Hfit)
    as (x & y & Hx & Hy & Hlx & Hly).
  destruct (mapM_all_ok (cluster_trace vectors_data messages_map cluster_labels x y)
              (unique cluster_labels)) as [traces Htraces].
  { intros c _.
    destruct (cluster_trace_defined vectors_data messages_map cluster_labels x y c
                Hlabels Hlx Hly) as (xs & ys & mk & hs & -> & _).
    by eexists. }
  unfold create_cluster_visualization. rewrite Hfit. simpl. rewrite Hx. simpl.
  rewrite Hy. simpl. rewrite Htraces. simpl. by eexists.
Qed.

Lemma cluster_view_raise (sk : reducers) (vectors_data : list vector_record)
    (messages_map : gmap string metadata) (cluster_labels : list Z) (method : string) e :
  fit_transform sk (cluster_view_reducer (map vec_embedding vectors_data) method)
    (map vec_embedding vectors_data) = Raise e →
  create_cluster_visualization sk vectors_data messages_map cluster_labels method = Raise e.
Proof. intros Hfit. unfold create_cluster_visualization. by rewrite Hfit. Qed.

Lemma cluster_details_defined (set_iter : list string → list string)
    (vectors_data : list vector_record) (messages_map : gmap string metadata)
    (cluster_labels : list Z) :
  (length cluster_labels ≤ length vectors_data)%nat →
  ∃ fig, create_cluster_details set_iter vectors_data messages_map cluster_labels = Ok fig.
Proof.
  intros Hlen.
  destruct (mapM_all_ok (cluster_stat_of vectors_data messages_map cluster_labels)
              (unique cluster_labels)) as [stats Hstats].
  { intros c _.
    destruct (cluster_stat_defined vectors_data messages_map cluster_labels c Hlen)
      as (stat & -> & _).
    by eexists. }
  unfold create_cluster_details. rewrite Hstats. simpl. by eexists.
Qed.

(** X16. The clustering script, once both fetches returned and there is at
    least one record, over a reduction library that keeps the shape contract:
    if the clustering raises, the run ends with that exception and nothing is
    written. If it returns, only the two reductions can stop the run: a
    failing t-SNE leaves nothing written, a failing PCA leaves the t-SNE file
    alone, and when both return the run ends normally with the three files
    [clusters_tsne.html], [clusters_pca.html] and [clusters_statistics.html],
    in that order, each holding the figure its function built; the labels the
    clustering returned always fit the records, so neither the views nor the
    statistics raise on their own. *)
Theorem clustering_run_stops_only_in_the_libraries (set_iter : list string → list string)
    (sk : reducers) (km : kmeans_lib) (net : network)
    (vectors_data : list vector_record) (messages_map : gmap string metadata) :
  rows_preserved sk → columns_as_requested sk →
  VisualizeWithClustering.fetch_vectors_from_elasticsearch net = Ok vectors_data →
  vectors_data ≠ [] →
  VisualizeWithClustering.fetch_messages_from_api net = Ok messages_map →
  let embeddings := map vec_embedding vectors_data in
  let tsne := fit_transform sk (TSNE 2 42 (Z.min 30 (len embeddings - 1)) None) embeddings in
  let pca := fit_transform sk (PCA 2 42) embeddings in
  let run := VisualizeWithClustering.main set_iter sk km net in
  (∀ e, perform_clustering km embeddings None = Raise e →
     run = nothing_written (Raise e)) ∧
  (∀ cluster_labels centroids,
     perform_clustering km embeddings None = Ok (cluster_labels, centroids) →
     let view := create_cluster_visualization sk vectors_data messages_map cluster_labels in
     (∀ e, tsne = Raise e → run = nothing_written (Raise e)) ∧
     (∀ reduced e, tsne = Ok reduced → pca = Raise e →
        ∃ fig_tsne,
          view "tsne" = Ok fig_tsne ∧
          run = {| written := [("clusters_tsne.html", fig_tsne)]; outcome := Raise e |}) ∧
     (∀ reduced reduced', tsne = Ok reduced → pca = Ok reduced' →
        ∃ fig_tsne fig_pca fig_stats,
          view "tsne" = Ok fig_tsne ∧ view "pca" = Ok fig_pca ∧
          create_cluster_details set_iter vectors_data messages_map cluster_labels
            = Ok fig_stats ∧
          run = {| written := [("clusters_tsne.html", fig_tsne);
                               ("clusters_pca.html", fig_pca);
                               ("clusters_statistics.html", fig_stats)];
                   outcome := Ok tt |})).
Proof.
  intros Hrows Hcols Hfetch Hne Hmsgs embeddings tsne pca run.
  assert (Hrun : run =
    match perform_clustering km embeddings None with
    | Raise e => nothing_written (Raise e)
    | Ok (cluster_labels, centroids) =>
        write_view true
          (create_cluster_details set_iter vectors_data messages_map cluster_labels)
          "clusters_statistics.html"
          (write_view true
             (create_cluster_visualization sk vectors_data messages_map cluster_labels "pca")
             "clusters_pca.html"
             (write_view true
                (create_cluster_visualization sk vectors_data messages_map cluster_labels
                   "tsne")
                "clusters_tsne.html" (nothing_written (Ok tt))))
    end).
  { unfold run, VisualizeWithClustering.main. rewrite Hfetch.
    destruct vectors_data as [|vec rest]; [done|]. by rewrite Hmsgs. }
  split.
  - intros e He. by rewrite Hrun, He.
  - intros cluster_labels centroids Hclustered view. rewrite Hrun, Hclustered.
    assert (Hlabels : length cluster_labels = length vectors_data).
    { apply perform_clustering_labels in Hclustered as (model & _ & ->).
      unfold embeddings. by rewrite !length_map. }
    split; [|split].
    + intros e He.
      rewrite (write_view_raise _ "clusters_tsne.html" _ e); [|done|].
      * by rewrite !(write_view_after_raise _ _ _ _ e).
      * by apply cluster_view_raise.
    + intros reduced e Htsne Hpca.
      destruct (cluster_view_defined sk vectors_data messages_map cluster_labels "tsne"
                  reduced Hrows Hcols Hlabels Htsne) as [fig_tsne Hfig].
      exists fig_tsne. split; [done|].
      rewrite (write_view_ok _ "clusters_tsne.html" _ fig_tsne); [|done|done].
      rewrite (write_view_raise _ "clusters_pca.html" _ e); [|done|].
      * by rewrite (write_view_after_raise _ _ _ _ e).
      * by apply cluster_view_raise.
    + intros reduced reduced' Htsne Hpca.
      destruct (cluster_view_defined sk vectors_data messages_map cluster_labels "tsne"
                  reduced Hrows Hcols Hlabels Htsne) as [fig_tsne Hfig].
      destruct (cluster_view_defined sk vectors_data messages_map cluster_labels "pca"
                  reduced' Hrows Hcols Hlabels Hpca) as [fig_pca Hfig'].
      destruct (cluster_details_defined set_iter vectors_data messages_map cluster_labels)
        as [fig_stats Hstats]; [lia|].
      exists fig_tsne, fig_pca, fig_stats. split; [done|]. split; [done|]. split; [done|].
      rewrite (write_view_ok _ "clusters_tsne.html" _ fig_tsne); [|done|done].
      rewrite (write_view_ok _ "clusters_pca.html" _ fig_pca); [|done|done].
      by rewrite (write_view_ok _ "clusters_statistics.html" _ fig_stats).
Qed.

Lemma clustering_run_stops_only_in_the_libraries_witness :
  ∃ fig_tsne fig_pca fig_stats,
    VisualizeWithClustering.main remove_dups Reference.sklearn_checks
      Reference.nearest_centroid Reference.healthy =
      {| written := [("clusters_tsne.html", fig_tsne);
                     ("clusters_pca.html", fig_pca);
                     ("clusters_statistics.html", fig_stats)];
         outcome := Ok tt |}.
Proof.
  destruct (clustering_run_stops_only_in_the_libraries remove_dups
              Reference.sklearn_checks Reference.nearest_centroid Reference.healthy
              Reference.clustering_records Reference.clustering_metadata
              sklearn_checks_rows_preserved sklearn_checks_columns)
    as [_ Hclustered]; try reflexivity; [discriminate|].
  destruct (Hclustered [0; 1; 0; 0; 0] [[1; 0; 2]; [0; 1; 2]]%Q) as (_ & _ & Hall);
    [reflexivity|].
  destruct (Hall [[1; 0]; [0; 1]; [3; 1]; [1; 1]; [2; 2]]%Q
              [[1; 0]; [0; 1]; [3; 1]; [1; 1]; [2; 2]]%Q)
    as (fig_tsne & fig_pca & fig_stats & _ & _ & _ & Hrun); try reflexivity.
  by exists fig_tsne, fig_pca, fig_stats.
Defined.
End ClusteringRun.

Section TwoScripts.

Lemma mapM_rmap {A B C : Type} (f : B → C) (g : A → result B) (g' : A → result C)
    (l : list A) :
  (∀ a, g' a = rmap f (g a)) → mapM g' l = rmap (map f) (mapM g l).
Proof.
  intros Hg. induction l as [|a l IH]; simpl; [done|].
  rewrite Hg. destruct (g a) as [b|e]; simpl; [|done].
  rewrite IH. by destruct (mapM g l).
Qed.

(** Per hit the two loops differ on a [null] preview only, which the
    clustering script does not read. *)
Lemma vector_of_hit_agrees hit :
  match VisualizeClusters.vector_of_hit hit with
  | Ok vec => VisualizeWithClustering.vector_of_hit hit
                = Ok (without_cluster_and_preview vec)
  | Raise TypeError => ∃ vec, VisualizeWithClustering.vector_of_hit hit = Ok vec
  | Raise e => VisualizeWithClustering.vector_of_hit hit = Raise e
  end.
Proof.
  unfold VisualizeWithClustering.vector_of_hit, VisualizeClusters.vector_of_hit.
  destruct (hit_source hit) as [source|]; simpl; [|done].
  destruct (src_id source); simpl; [|done].
  destruct (src_documentType source); simpl; [|done].
  destruct (src_embedding source); simpl; [|done].
  destruct (src_referenceId source); simpl; [|done].
  destruct (src_contentPreview source) as [[|preview]|]; simpl; [by eexists|done..].
Qed.

Lemma vectors_of_hits_agree hits :
  (∀ vectors_data, mapM VisualizeClusters.vector_of_hit hits = Ok vectors_data →
     mapM VisualizeWithClustering.vector_of_hit hits
       = Ok (map without_cluster_and_preview vectors_data)) ∧
  (∀ e, mapM VisualizeClusters.vector_of_hit hits = Raise e → e ≠ TypeError →
     mapM VisualizeWithClustering.vector_of_hit hits = Raise e).
Proof.
  induction hits as [|hit rest [IHok IHraise]]; simpl.
  - split; [by intros vectors_data [= <-]|done].
  - pose proof (vector_of_hit_agrees hit) as Hhit.
    destruct (VisualizeClusters.vector_of_hit hit) as [vec|e0]; simpl.
    + rewrite Hhit. simpl.
      destruct (mapM VisualizeClusters.vector_of_hit rest) as [vecs|e1]; simpl.
      * split; [|done]. intros vectors_data [= <-]. by rewrite (IHok vecs eq_refl).
      * split; [done|]. intros e [= <-] He. by rewrite (IHraise e1 eq_refl He).
    + split; [done|]. intros e [= <-] He.
      destruct e0; try (by rewrite Hhit); done.
Qed.

Lemma message_entry_agrees msg :
  VisualizeWithClustering.message_entry msg
    = rmap (fun entry => (entry.1, without_template_and_cluster entry.2))
        (VisualizeClusters.message_entry msg).
Proof.
  unfold VisualizeWithClustering.message_entry, VisualizeClusters.message_entry.
  destruct (msg_messageType msg); simpl; [|done].
  destruct (msg_senderId msg); simpl; [|done].
  destruct (msg_receiverId msg); simpl; [|done].
  destruct (msg_status msg); simpl; [|done].
  by destruct (msg_id msg).
Qed.

Lemma clustering_fill_message_map_entries messages : ∀ message_map,
  VisualizeWithClustering.fill_message_map messages message_map
    = rmap (foldl (fun m entry => <[entry.1 := entry.2]> m) message_map)
        (mapM VisualizeWithClustering.message_entry messages).
Proof.
  induction messages as [|msg rest IH]; intros message_map; simpl; [done|].
  destruct (VisualizeWithClustering.message_entry msg) as [entry|e]; simpl; [|done].
  rewrite IH. by destruct (mapM VisualizeWithClustering.message_entry rest).
Qed.

Lemma insert_all_fmap (f : metadata → metadata) (entries : list (string * metadata)) :
  ∀ m : gmap string metadata,
  foldl (fun m entry => <[entry.1 := entry.2]> m) (f <$> m)
    (map (fun entry => (entry.1, f entry.2)) entries)
    = f <$> foldl (fun m entry => <[entry.1 := entry.2]> m) m entries.
Proof.
  induction entries as [|entry entries IH]; intros m; simpl; [done|].
  by rewrite <- IH, fmap_insert.
Qed.

(** X17. The two scripts read the same answers the same way, up to the one
    key only the visualisation script reads. When the visualisation script
    fetches its records, the clustering script fetches the same records
    without the external cluster id and the preview; when the visualisation
    script raises anything but the [TypeError] of a [null] preview, the
    clustering script raises the same exception; and whenever the clustering
    script returns records, the visualisation script returns them too or
    raises that [TypeError]. The metadata fetch of the clustering script is
    the other's without the template id and the cluster id, exception for
    exception. *)
Theorem both_scripts_fetch_the_same_data (net : network) :
  (∀ vectors_data,
     VisualizeClusters.fetch_vectors_from_elasticsearch net = Ok vectors_data →
     VisualizeWithClustering.fetch_vectors_from_elasticsearch net
       = Ok (map without_cluster_and_preview vectors_data)) ∧
  (∀ e, VisualizeClusters.fetch_vectors_from_elasticsearch net = Raise e →
     e ≠ TypeError →
     VisualizeWithClustering.fetch_vectors_from_elasticsearch net = Raise e) ∧
  (∀ vectors_data,
     VisualizeWithClustering.fetch_vectors_from_elasticsearch net = Ok vectors_data →
     VisualizeClusters.fetch_vectors_from_elasticsearch net = Raise TypeError ∨
     ∃ vectors_data',
       VisualizeClusters.fetch_vectors_from_elasticsearch net = Ok vectors_data' ∧
       vectors_data = map without_cluster_and_preview vectors_data') ∧
  VisualizeWithClustering.fetch_messages_from_api net
    = rmap (fmap without_template_and_cluster)
        (VisualizeClusters.fetch_messages_from_api net).
Proof.
  assert (Hok : ∀ vectors_data,
            VisualizeClusters.fetch_vectors_from_elasticsearch net = Ok vectors_data →
            VisualizeWithClustering.fetch_vectors_from_elasticsearch net
              = Ok (map without_cluster_and_preview vectors_data)).
  { unfold VisualizeWithClustering.fetch_vectors_from_elasticsearch,
      VisualizeClusters.fetch_vectors_from_elasticsearch.
    destruct (es_search net) as [r|e]; simpl; [|done].
    destruct (negb (status_code r =? 200)); [by intros vectors_data [= <-]|].
    destruct (json r) as [body|e]; simpl; [|done].
    destruct (body_hits body) as [hits|]; simpl; [|done].
    apply vectors_of_hits_agree. }
  assert (Hraise : ∀ e,
            VisualizeClusters.fetch_vectors_from_elasticsearch net = Raise e →
            e ≠ TypeError →
            VisualizeWithClustering.fetch_vectors_from_elasticsearch net = Raise e).
  { unfold VisualizeWithClustering.fetch_vectors_from_elasticsearch,
      VisualizeClusters.fetch_vectors_from_elasticsearch.
    destruct (es_search net) as [r|e0]; simpl; [|by intros e [= <-]].
    destruct (negb (status_code r =? 200)); [done|].
    destruct (json r) as [body|e0]; simpl; [|by intros e [= <-]].
    destruct (body_hits body) as [hits|]; simpl; [|by intros e [= <-]].
    apply vectors_of_hits_agree. }
  split; [exact Hok|]. split; [exact Hraise|]. split.
  - intros vectors_data Hfetch.
    destruct (VisualizeClusters.fetch_vectors_from_elasticsearch net)
      as [vectors_data'|e] eqn:Hfirst.
    + right. exists vectors_data'. split; [done|].
      rewrite (Hok vectors_data' eq_refl) in Hfetch. by injection Hfetch as <-.
    + left. destruct e; try done; by rewrite (Hraise _ eq_refl) in Hfetch.
  - unfold VisualizeWithClustering.fetch_messages_from_api,
      VisualizeClusters.fetch_messages_from_api.
    destruct (api_messages net) as [r|e]; simpl; [|done].
    destruct (negb (status_code r =? 200)); [simpl; by rewrite fmap_empty|].
    destruct (json r) as [messages|e]; simpl; [|done].
    rewrite fill_message_map_entries, clustering_fill_message_map_entries.
    rewrite (mapM_rmap _ _ _ messages message_entry_agrees).
    destruct (mapM VisualizeClusters.message_entry messages) as [entries|e]; simpl; [|done].
    by rewrite <- insert_all_fmap, fmap_empty.
Qed.
End TwoScripts.
